(** * img-time.py: timestamp reconciliation for photo and video files

    A shallow embedding of [src/img-time.py] (Python 2, with
    [from __future__ import division]) and the properties of its
    specification.

    Conventions of the embedding:
    - Python [float] time values ([time.time()], [time.mktime],
      [os.path.getmtime]) are exact rationals [Q]; Python [int] is [Z];
      [str] is [string].
    - The filesystem is a finite map from path names, as the program passes
      them to [os], to files; a file carries its access and modification
      times and the value of its [EXIF DateTimeOriginal] tag, if it has one.
    - [logging], [print] and [open] are recorded in the state the loop
      threads through ([world]); the log holds every call of [logging.warn],
      [logging.error] and [logging.info], [stderr] is what the handler lets
      through, and [script_stderr] adds the traceback of an exception that
      leaves the script. Exceptions and [continue] are results of the small
      monad [M].
    - Library calls fail where the library says so: [datetime.datetime]
      outside the calendar, Python 2's [time.mktime] on years 100 to 1899,
      [datetime.datetime.fromtimestamp] outside the years 1 to 9999,
      [os.path.getmtime] on a missing file. Calls that fail only for reasons
      outside the program (C's [mktime] on a 64-bit [time_t], [os.utime] and
      [open] on a file that exists, [exifread.process_file]) are taken to
      succeed.
    - Opening and reading a file moves its access time to whatever the
      filesystem decides ([atime_after_read]); [os.stat] does not.

    The frame loop of [src/matrix.py] is embedded in the module [Matrix]
    further down, with conventions of its own. *)

From Stdlib Require Import Ascii String QArith Qround Qabs Lia Lqa.
From stdpp Require Import base strings list gmap pretty sorting.

Open Scope Z_scope.

(** ** Python built-ins used by the program *)

(** [round(x)] of Python 2: nearest integer, halves away from zero. *)
Definition py_round (x : Q) : Z :=
  if Qle_bool 0 x then Qfloor (x + (1 # 2))%Q else - Qfloor (- x + (1 # 2))%Q.

Definition Qltb (x y : Q) : bool := negb (Qle_bool y x).

#[global] Instance Qle_decision (x y : Q) : Decision (x <= y)%Q.
Proof.
  destruct (Qle_bool x y) eqn:E; [left | right].
  - apply Qle_bool_iff, E.
  - intros H. apply Qle_bool_iff in H. congruence.
Defined.

(** Truth value of a float: [0.0] is false. *)
Definition float_truthy (x : Q) : bool := negb (Qeq_bool x 0%Q).

(** Truth value of [title_time], which is [None] or a float. *)
Definition truthy (t : option Q) : bool :=
  match t with
  | None => false
  | Some x => float_truthy x
  end.

Definition is_digit (c : ascii) : bool :=
  let n := nat_of_ascii c in (48 <=? n)%nat && (n <=? 57)%nat.

(** [str.isspace] on one byte: space, tab, newline, vertical tab, form feed,
    carriage return. *)
Definition is_space (c : ascii) : bool :=
  let n := nat_of_ascii c in ((9 <=? n)%nat && (n <=? 13)%nat) || (n =? 32)%nat.

Definition digit_val (c : ascii) : Z := Z.of_nat (nat_of_ascii c) - 48.

Fixpoint lstrip (s : string) : string :=
  match s with
  | String c s' => if is_space c then lstrip s' else s
  | EmptyString => s
  end.

(** Reads a run of decimal digits, most significant first; [acc] is the value
    of the digits read so far. Trailing white space is accepted, anything else
    is not. *)
Fixpoint int_digits (acc : Z) (s : string) : option Z :=
  match s with
  | EmptyString => Some acc
  | String c s' =>
      if is_digit c then int_digits (10 * acc + digit_val c) s'
      else if is_space c then (if lstrip s' is EmptyString then Some acc else None)
      else None
  end.

Definition starts_with_digit (s : string) : bool :=
  match s with
  | String c _ => is_digit c
  | EmptyString => false
  end.

(** [int(s)] on a [str]: white space is stripped, one sign is allowed, then
    at least one decimal digit. [None] stands for [ValueError]. *)
Definition py_int (s : string) : option Z :=
  match lstrip s with
  | String "+" s' => if starts_with_digit s' then int_digits 0 s' else None
  | String "-" s' => if starts_with_digit s' then Z.opp <$> int_digits 0 s' else None
  | s' => if starts_with_digit s' then int_digits 0 s' else None
  end.

(** [s[i:j]] for [0 <= i <= j]. *)
Definition slice (i j : nat) (s : string) : string := substring i (j - i) s.

(** [os.path.split(path)[1]]: what follows the last slash. *)
Fixpoint basename_go (cur : string) (s : string) : string :=
  match s with
  | EmptyString => cur
  | String c s' => if Ascii.eqb c "/" then basename_go s' s' else basename_go cur s'
  end.

Definition basename (path : string) : string := basename_go path path.

(** ** [datetime] *)

Record datetime := mk_datetime {
  year : Z; month : Z; day : Z; hour : Z; minute : Z; second : Z
}.

Definition is_leap (y : Z) : bool :=
  (y mod 4 =? 0) && (negb (y mod 100 =? 0) || (y mod 400 =? 0)).

Definition days_in_month (y m : Z) : Z :=
  if m =? 2 then (if is_leap y then 29 else 28)
  else if (m =? 4) || (m =? 6) || (m =? 9) || (m =? 11) then 30
  else 31.

Definition MINYEAR : Z := 1.
Definition MAXYEAR : Z := 9999.

(** The range checks of the [datetime.datetime] constructor. *)
Definition calendar_valid (y mo d h mi s : Z) : Prop :=
  MINYEAR <= y <= MAXYEAR /\ 1 <= mo <= 12 /\ 1 <= d <= days_in_month y mo /\
  0 <= h <= 23 /\ 0 <= mi <= 59 /\ 0 <= s <= 59.

Definition calendar_validb (y mo d h mi s : Z) : bool :=
  (MINYEAR <=? y) && (y <=? MAXYEAR) && (1 <=? mo) && (mo <=? 12) &&
  (1 <=? d) && (d <=? days_in_month y mo) &&
  (0 <=? h) && (h <=? 23) && (0 <=? mi) && (mi <=? 59) &&
  (0 <=? s) && (s <=? 59).

(** [datetime.datetime(year=.., ..)]; [None] stands for [ValueError]. *)
Definition datetime_new (y mo d h mi s : Z) : option datetime :=
  if calendar_validb y mo d h mi s then Some (mk_datetime y mo d h mi s) else None.

Definition days_before_year (y : Z) : Z :=
  let p := y - 1 in p * 365 + p / 4 - p / 100 + p / 400.

Fixpoint days_before_month_go (y : Z) (m : nat) : Z :=
  match m with
  | O => 0
  | S m' => days_before_month_go y m' + days_in_month y (Z.of_nat m)
  end.

Definition days_before_month (y m : Z) : Z := days_before_month_go y (Z.to_nat (m - 1)).

(** Proleptic Gregorian ordinal, 0001-01-01 being day 1. *)
Definition toordinal (y m d : Z) : Z := days_before_year y + days_before_month y m + d.

Definition EPOCH_ORDINAL : Z := 719163.

(** Seconds since the epoch of a calendar time read as UTC. *)
Definition timegm (dt : datetime) : Z :=
  (toordinal (year dt) (month dt) (day dt) - EPOCH_ORDINAL) * 86400
  + hour dt * 3600 + minute dt * 60 + second dt.

(** [str(datetime.timedelta(seconds=n))] for [0 <= n]. *)
Definition two_digits (n : Z) : string :=
  if n <? 10 then "0" +:+ pretty n else pretty n.

Definition timedelta_str (n : Z) : string :=
  let days := n / 86400 in
  let secs := n mod 86400 in
  let mm := secs / 60 in
  let ss := secs mod 60 in
  let hh := mm / 60 in
  let mm := mm mod 60 in
  let s := pretty hh +:+ ":" +:+ two_digits mm +:+ ":" +:+ two_digits ss in
  if days =? 0 then s
  else pretty days +:+ " day" +:+ (if days =? 1 then "" else "s") +:+ ", " +:+ s.

(** ** Regular expressions

    The fragment of Python's [re] syntax the program's patterns are written
    in, and a backtracking matcher that returns the captured groups. *)

Inductive regex : Type :=
| Lit (s : string)                 (* literal text; [\.] is [Lit "."] *)
| Digits (lo hi : nat)             (* [\d{lo,hi}], greedy; [\d{n}] is [Digits n n] *)
| Cat (r1 r2 : regex)              (* concatenation *)
| Alt (r1 r2 : regex)              (* [r1|r2] inside [(?: )] *)
| Group (r : regex)                (* capturing parentheses *)
| Bos                              (* [^] *)
| Eos.                             (* [$]: at the end, or before a final newline *)

Declare Scope regex_scope.
Delimit Scope regex_scope with re.
Bind Scope regex_scope with regex.
Infix "⋅" := Cat (at level 41, right associativity) : regex_scope.
Infix "∣" := Alt (at level 42, right associativity) : regex_scope.

(** The continuation of a match: position, rest of the subject, groups so
    far. *)
Definition cont : Type := nat → string → list string → option (list string).

Fixpoint match_lit (l : string) (pos : nat) (s : string) : option (nat * string) :=
  match l with
  | EmptyString => Some (pos, s)
  | String c l' =>
      match s with
      | String x s' => if Ascii.eqb x c then match_lit l' (S pos) s' else None
      | EmptyString => None
      end
  end.

(** At most [n] further digits, as many as possible first. *)
Fixpoint match_upto (n : nat) (pos : nat) (s : string) (caps : list string) (k : cont)
    : option (list string) :=
  match n with
  | O => k pos s caps
  | S n' =>
      match s with
      | String x s' =>
          if is_digit x then
            match match_upto n' (S pos) s' caps k with
            | Some r => Some r
            | None => k pos s caps
            end
          else k pos s caps
      | EmptyString => k pos s caps
      end
  end.

(** Exactly [n] digits, then at most [extra] more. *)
Fixpoint match_digits (n extra : nat) (pos : nat) (s : string) (caps : list string) (k : cont)
    : option (list string) :=
  match n with
  | O => match_upto extra pos s caps k
  | S n' =>
      match s with
      | String x s' => if is_digit x then match_digits n' extra (S pos) s' caps k else None
      | EmptyString => None
      end
  end.

Definition at_end (s : string) : bool :=
  match s with
  | EmptyString => true
  | String c EmptyString => Ascii.eqb c "010"
  | _ => false
  end.

Fixpoint rmatch (r : regex) (pos : nat) (s : string) (caps : list string) (k : cont)
    : option (list string) :=
  match r with
  | Lit l =>
      match match_lit l pos s with
      | Some (pos', s') => k pos' s' caps
      | None => None
      end
  | Digits lo hi => match_digits lo (hi - lo) pos s caps k
  | Cat r1 r2 => rmatch r1 pos s caps (λ pos' s' caps', rmatch r2 pos' s' caps' k)
  | Alt r1 r2 =>
      match rmatch r1 pos s caps k with
      | Some r => Some r
      | None => rmatch r2 pos s caps k
      end
  | Group r1 =>
      rmatch r1 pos s caps (λ pos' s' caps', k pos' s' (caps' ++ [substring 0 (pos' - pos) s]))
  | Bos => if (pos =? 0)%nat then k pos s caps else None
  | Eos => if at_end s then k pos s caps else None
  end.

(** [re.search(r, s)]: the leftmost match; [Some groups] is a match object,
    [None] is [None]. *)
Fixpoint search_from (r : regex) (pos : nat) (s : string) : option (list string) :=
  match rmatch r pos s [] (λ _ _ caps, Some caps) with
  | Some caps => Some caps
  | None =>
      match s with
      | String _ s' => search_from r (S pos) s'
      | EmptyString => None
      end
  end.

Definition re_search (r : regex) (s : string) : option (list string) := search_from r 0 s.

(** ** Module constants *)

Definition OPT_DEFAULTS_max_diff : Z := 60.
Definition OPT_DEFAULTS_max_tz_diff : Z := 60.

Definition MIN_DATE : Q := inject_Z 788936400.

(** The six captured fields of a name format: [(20\d{2})] and five
    [(\d{2})], with the separators between them. *)
Definition d2 : regex := Group (Digits 2 2).
Definition y4 : regex := Group (Lit "20" ⋅ Digits 2 2).

Definition NAME_FORMATS : list regex := [
  (* ^(?:IMG|VID|PANO)_(20\d{2})(\d{2})(\d{2})_(\d{2})(\d{2})(\d{2})\.(?:jpg|mp4)$ *)
  (Bos ⋅ (Lit "IMG" ∣ Lit "VID" ∣ Lit "PANO") ⋅ Lit "_" ⋅ y4 ⋅ d2 ⋅ d2 ⋅ Lit "_" ⋅ d2 ⋅ d2 ⋅ d2
     ⋅ Lit "." ⋅ (Lit "jpg" ∣ Lit "mp4") ⋅ Eos)%re;
  (* ^Screenshot from (20\d{2})-(\d{2})-(\d{2}) (\d{2}):(\d{2}):(\d{2})\.(?:jpg|png)$ *)
  (Bos ⋅ Lit "Screenshot from " ⋅ y4 ⋅ Lit "-" ⋅ d2 ⋅ Lit "-" ⋅ d2 ⋅ Lit " " ⋅ d2 ⋅ Lit ":" ⋅ d2
     ⋅ Lit ":" ⋅ d2 ⋅ Lit "." ⋅ (Lit "jpg" ∣ Lit "png") ⋅ Eos)%re;
  (* ^(20\d{2})-(\d{2})-(\d{2})-(\d{2})(\d{2})(\d{2})\.jpg$ *)
  (Bos ⋅ y4 ⋅ Lit "-" ⋅ d2 ⋅ Lit "-" ⋅ d2 ⋅ Lit "-" ⋅ d2 ⋅ d2 ⋅ d2 ⋅ Lit "." ⋅ Lit "jpg" ⋅ Eos)%re;
  (* ^(20\d{2})(\d{2})(\d{2})_(\d{2})(\d{2})(\d{2})\.(?:jpg|mp4)$ *)
  (Bos ⋅ y4 ⋅ d2 ⋅ d2 ⋅ Lit "_" ⋅ d2 ⋅ d2 ⋅ d2 ⋅ Lit "." ⋅ (Lit "jpg" ∣ Lit "mp4") ⋅ Eos)%re;
  (* ^C360_(20\d{2})-(\d{2})-(\d{2})-(\d{2})-(\d{2})-(\d{2})-\d{3}\.jpg$ *)
  (Bos ⋅ Lit "C360_" ⋅ y4 ⋅ Lit "-" ⋅ d2 ⋅ Lit "-" ⋅ d2 ⋅ Lit "-" ⋅ d2 ⋅ Lit "-" ⋅ d2 ⋅ Lit "-" ⋅ d2
     ⋅ Lit "-" ⋅ Digits 3 3 ⋅ Lit "." ⋅ Lit "jpg" ⋅ Eos)%re
].

(** Names like these raise no warning. *)
Definition IGNORE_FORMATS : list regex := [
  (* ^\d{5}\.MTS$ *)
  (Bos ⋅ Digits 5 5 ⋅ Lit "." ⋅ Lit "MTS" ⋅ Eos)%re;
  (* ^HPIM\d{4}\.jpg$ *)
  (Bos ⋅ Lit "HPIM" ⋅ Digits 4 4 ⋅ Lit "." ⋅ Lit "jpg" ⋅ Eos)%re;
  (* ^P\d{6,7}\.(?:JPG|MOV)$ *)
  (Bos ⋅ Lit "P" ⋅ Digits 6 7 ⋅ Lit "." ⋅ (Lit "JPG" ∣ Lit "MOV") ⋅ Eos)%re
].

(** ** The state of a run *)

Inductive exn : Type := ValueError | IndexError | OSError | IOError.

Record file := mk_file {
  st_atime : Q;
  st_mtime : Q;
  exif_DateTimeOriginal : option string   (* [tags['EXIF DateTimeOriginal'].values] *)
}.

(** Levels of the [logging] module. *)
Definition INFO : Z := 20.
Definition WARNING : Z := 30.
Definition ERROR : Z := 40.
Definition CRITICAL : Z := 50.

Record world := mk_world {
  fs : gmap string file;       (* regular files by path name *)
  stdout : list string;        (* lines printed *)
  log : list (Z * string);     (* calls of [logging.error] and [logging.info]: level, message *)
  opened : list string         (* paths opened for reading *)
}.

(** [logging.getLevelName] on the levels above. *)
Definition levelname (lvl : Z) : string :=
  if lvl =? INFO then "INFO"
  else if lvl =? WARNING then "WARNING"
  else if lvl =? ERROR then "ERROR"
  else if lvl =? CRITICAL then "CRITICAL"
  else "Level " +:+ pretty lvl.

Inductive result (A : Type) : Type :=
| Ret (a : A)        (* normal completion *)
| Continue           (* [continue]: on to the next image *)
| Raise (e : exn).   (* an exception nobody catches *)
Arguments Ret {A} a.
Arguments Continue {A}.
Arguments Raise {A} e.

Definition M (A : Type) : Type := world → result A * world.

#[global] Instance M_ret : MRet M := λ A a w, (Ret a, w).
#[global] Instance M_bind : MBind M := λ A B f m w,
  match m w with
  | (Ret a, w') => f a w'
  | (Continue, w') => (Continue, w')
  | (Raise e, w') => (Raise e, w')
  end.

Definition continue {A} : M A := λ w, (Continue, w).

Definition raise {A} (e : exn) : M A := λ w, (Raise e, w).

(** Code that touches no state: only a result. *)
#[global] Instance result_ret : MRet result := λ A a, Ret a.
#[global] Instance result_bind : MBind result := λ A B f r,
  match r with
  | Ret a => f a
  | Continue => Continue
  | Raise e => Raise e
  end.

Definition lift_result {A} (r : result A) : M A := λ w, (r, w).

Definition logging (lvl : Z) (msg : string) : M unit := λ w,
  (Ret (), mk_world (fs w) (stdout w) (log w ++ [(lvl, msg)]) (opened w)).
Definition logging_error : string → M unit := logging ERROR.
Definition logging_info : string → M unit := logging INFO.

Definition print (line : string) : M unit := λ w,
  (Ret (), mk_world (fs w) (stdout w ++ [line]) (log w) (opened w)).

(** [os.path.isfile(path)] *)
Definition isfile (path : string) : M bool := λ w, (Ret (bool_decide (is_Some (fs w !! path))), w).

(** [os.path.getmtime(path)] *)
Definition getmtime (path : string) : M Q := λ w,
  match fs w !! path with
  | Some f => (Ret (st_mtime f), w)
  | None => (Raise OSError, w)
  end.

(** [os.utime(path, (atime, mtime))] *)
Definition utime (path : string) (atime mtime : Q) : M unit := λ w,
  match fs w !! path with
  | Some f =>
      (Ret (), mk_world (<[path := mk_file atime mtime (exif_DateTimeOriginal f)]> (fs w))
                        (stdout w) (log w) (opened w))
  | None => (Raise OSError, w)
  end.


Record args := mk_args {
  images : list string;
  no_edit : bool;
  quiet : bool;
  verbose : bool;
  max_diff : Z;
  max_tz_diff : Z
}.

Definition loglevel (a : args) : Z :=
  if quiet a then CRITICAL else if verbose a then INFO else WARNING.

(** * matrix.py: drops of random characters falling down a curses screen

    A shallow embedding of the frame loop of [main] and of [draw_char] in
    [src/matrix.py] (Python 3).

    Conventions of the embedding:
    - What [random] returns in one turn of the [while] loop is an input of
      that turn ([draws]); a run is the list of the draws of its turns, up
      to the [KeyboardInterrupt] that ends the loop.
    - The screen is the list of the [addch] and [insch] calls made on it;
      [stdscr.refresh()] and [time.sleep] change nothing that is modelled.
    - curses accepts a call at a position inside the window, except [addch]
      at the lower-right corner, where the cursor cannot advance; any other
      call raises [curses.error], which the program raises again after
      restoring the terminal. *)

Module Matrix.

(** A drop: the dict with the keys ['x'], ['y'] and ['len']. *)
Record column := mk_column { x : Z; y : Z; len : Z }.

Record args := mk_args { dna : bool; drop_len : option Z }.

Inductive call : Type :=
| addch (y x : Z) (char : ascii)
| insch (y x : Z) (char : ascii).

Definition call_char (c : call) : ascii :=
  match c with addch _ _ char => char | insch _ _ char => char end.

Inductive error : Type := curses_error | IndexError.

Inductive res (A : Type) : Type :=
| Ok (a : A)
| Err (e : error).
Arguments Ok {A} a.
Arguments Err {A} e.

#[global] Instance res_bind : MBind res := λ A B f r,
  match r with
  | Ok a => f a
  | Err e => Err e
  end.

Definition accepted (height width : Z) (c : call) : bool :=
  match c with
  | addch y x _ =>
      (0 <=? y) && (y <? height) && (0 <=? x) && (x <? width)
      && negb ((y =? height - 1) && (x =? width - 1))
  | insch y x _ => (0 <=? y) && (y <? height) && (0 <=? x) && (x <? width)
  end.

(** [draw_char]: the call made on the screen, or the error it raises. *)
Definition draw_char (height width y x : Z) (char : ascii) : res call :=
  let c :=
    if (y =? height - 1) && (x =? width - 1) then
      (* If it's the lower-right corner, addch() throws an error. *)
      insch y x char
    else addch y x char in
  if accepted height width c then Ok c else Err curses_error.

(** The random values of one turn of the [while] loop: [randrange(1, 40)],
    [randrange(width)], and the character drawn for the column at each
    index. *)
Record draws := mk_draws { rand_len : Z; rand_x : Z; rand_char : nat → ascii }.

(** [random.choice(('A', 'C', 'G', 'T'))] or [chr(random.randrange(33, 127))] *)
Definition char_ok (a : args) (char : ascii) : Prop :=
  if dna a then char ∈ ["A"; "C"; "G"; "T"]%char
  else (33 ≤ nat_of_ascii char < 127)%nat.

Definition draws_ok (a : args) (width : Z) (d : draws) : Prop :=
  1 ≤ rand_len d < 40 ∧ 0 ≤ rand_x d < width ∧ ∀ i, char_ok a (rand_char d i).

(** The [try] block and [column['y'] += 1], for a column that is not done. *)
Definition visit (height width : Z) (char : ascii) (c : column)
    : res (column * list call) :=
  drawn ← (if y c <? height then
             k ← draw_char height width (y c) (x c) char; Ok [k]
           else Ok []);
  erased ← (if y c - len c >=? 0 then
              k ← draw_char height width (y c - len c) (x c) " "; Ok [k]
            else Ok []);
  Ok (mk_column (x c) (y c + 1) (len c), drawn ++ erased).

(** [for (i, column) in enumerate(columns):], from index [i] on: the columns
    afterwards, the list [done], and the calls made. *)
Fixpoint columns_loop (height width : Z) (char : nat → ascii) (i : nat)
    (columns : list column) : res (list column * list nat * list call) :=
  match columns with
  | [] => Ok ([], [], [])
  | c :: rest =>
      if y c >=? height + len c then
        '(rest', done, calls) ← columns_loop height width char (S i) rest;
        Ok (c :: rest', i :: done, calls)
      else
        '(c', calls1) ← visit height width (char i) c;
        '(rest', done, calls2) ← columns_loop height width char (S i) rest;
        Ok (c' :: rest', done, calls1 ++ calls2)
  end.

(** [for i in done: del(columns[i])] *)
Fixpoint delete_all (done : list nat) (columns : list column) : res (list column) :=
  match done with
  | [] => Ok columns
  | i :: done' =>
      if (i <? length columns)%nat then delete_all done' (delete i columns)
      else Err IndexError
  end.

(** The column appended at the start of a turn. *)
Definition new_column (a : args) (d : draws) : column :=
  let drop_len :=
    match drop_len a with
    | Some n => if n =? 0 then rand_len d else n
    | None => rand_len d
    end in
  mk_column (rand_x d) 0 drop_len.

(** One turn of the [while] loop. *)
Definition frame (a : args) (height width : Z) (d : draws) (columns : list column)
    : res (list column * list call) :=
  let columns := columns ++ [new_column a d] in
  '(columns, done, calls) ← columns_loop height width (rand_char d) 0 columns;
  columns ← delete_all done columns;
  Ok (columns, calls).

(** The [while] loop over the turns before the interrupt. *)
Fixpoint run (a : args) (height width : Z) (ds : list draws) (columns : list column)
    : res (list column * list call) :=
  match ds with
  | [] => Ok (columns, [])
  | d :: ds' =>
      '(columns, calls1) ← frame a height width d columns;
      '(columns, calls2) ← run a height width ds' columns;
      Ok (columns, calls1 ++ calls2)
  end.

(** ** Auxiliary definitions for the proofs *)

Definition on_screen (width : Z) (c : column) : Prop := 0 ≤ x c < width ∧ 0 ≤ y c.

Definition finished (height : Z) (c : column) : bool := y c >=? height + len c.

Definition fall (c : column) : column := mk_column (x c) (y c + 1) (len c).

Definition advance (height : Z) (c : column) : column :=
  if finished height c then c else fall c.

Fixpoint done_indices (height : Z) (i : nat) (columns : list column) : list nat :=
  match columns with
  | [] => []
  | c :: rest =>
      if finished height c then i :: done_indices height (S i) rest
      else done_indices height (S i) rest
  end.

(** A call that curses accepts and that writes a blank or a character of the
    chosen alphabet. *)
Definition good_call (a : args) (height width : Z) (k : call) : Prop :=
  accepted height width k = true ∧ (call_char k = " "%char ∨ char_ok a (call_char k)).

(** Drops of one length [L], each further down than the next, none past the
    row [bound] where a drop is finished. *)
Definition falling (bound L : Z) (columns : list column) : Prop :=
  StronglySorted (λ c c', y c' < y c) columns
  ∧ Forall (λ c, 1 ≤ y c ≤ bound ∧ len c = L) columns.

(** ** Sample data: random ASCII, every character drawn an [a]. *)

Definition sample_args : args := mk_args false None.

Definition sample_draws (l x : Z) : draws := mk_draws l x (λ _, "a"%char).

End Matrix.

(** * img-time.py, continued *)

(** ** Sample data

    A run on 2025-11-03, in a zone five hours west of UTC all year, with
    [exifread] installed. *)

Definition sample_now : Q := inject_Z 1762128000.
Definition sample_offset (dt : datetime) : Z := -18000.
(** The seconds since the epoch stand for the date string; no string where
    the local time lies outside the years 1 to 9999. *)
Definition sample_fromtimestamp_str (t : Q) : option string :=
  if (-62135596800 <=? Qfloor t - 18000) && (Qfloor t - 18000 <? 253402300800)
  then Some (pretty (Qfloor t)) else None.
(** A filesystem that moves the access time to the time of the read. *)
Definition sample_atime_after_read (n : nat) (path : string) (f : file) : Q := sample_now.
Definition sample_traceback (e : exn) : list string :=
  ["Traceback (most recent call last):"; "  ..."; "Error"].

Definition default_args (imgs : list string) : args :=
  mk_args imgs false false false OPT_DEFAULTS_max_diff OPT_DEFAULTS_max_tz_diff.
Definition verbose_args (imgs : list string) : args :=
  mk_args imgs false false true OPT_DEFAULTS_max_diff OPT_DEFAULTS_max_tz_diff.

Definition fresh_world (files : list (string * file)) : world :=
  mk_world (list_to_map files) [] [] [].

(** 2014-03-10 15:30:45 local time, and a modification time 3661 seconds
    later. *)
Definition t_20140310 : Q := inject_Z 1394483445.
Definition stale_file : file := mk_file (inject_Z 1394487106) (inject_Z 1394487106) None.

(** ** The program *)

Section Program.

#[local] Set Default Proof Using "Type".

(** [time.time()] when the module is loaded. *)
Variable now : Q.
(** The local time zone: seconds east of UTC at a local wall-clock time. *)
Variable utc_offset : datetime → Z.
(** [str(datetime.datetime.fromtimestamp(t))]; [None] where [fromtimestamp]
    raises [ValueError]: the local time of [t] lies outside the years 1 to
    9999. *)
Variable fromtimestamp_str : Q → option string.
(** Whether [import exifread] succeeded. *)
Variable exifread : bool.
(** The access time the filesystem leaves on a file that the run opens and
    reads, given how many files the run has opened before, the path and the
    file: the old access time under [noatime], the time of the read under
    [strictatime], one or the other under [relatime]. *)
Variable atime_after_read : nat → string → file → Q.
(** What the interpreter writes to standard error when an exception leaves
    the script. *)
Variable traceback : exn → list string.

Definition MAX_DATE : Q := (now + inject_Z (60*60*24*7))%Q.

(** A library call that raises [ValueError]. *)
Definition or_ValueError {A} (o : option A) : result A :=
  match o with
  | Some x => Ret x
  | None => Raise ValueError
  end.

(** The seconds since the epoch of the local calendar time [dt], what C's
    [mktime] makes of a broken-down time. *)
Definition local_seconds (dt : datetime) : Q := inject_Z (timegm dt - utc_offset dt).

Definition with_year (y : Z) (dt : datetime) : datetime :=
  mk_datetime y (month dt) (day dt) (hour dt) (minute dt) (second dt).

(** [time.mktime(dt.timetuple())] of Python 2, on any [datetime]: a year
    below 1900 is read as a two-digit year, 0 to 68 as 2000 to 2068 and 69 to
    99 as 1969 to 1999, and any other year below 1900 is refused with
    [ValueError], here [None]. *)
Definition mktime (dt : datetime) : option Q :=
  if 1900 <=? year dt then Some (local_seconds dt)
  else if (0 <=? year dt) && (year dt <? 69) then Some (local_seconds (with_year (year dt + 2000) dt))
  else if (69 <=? year dt) && (year dt <? 100) then
    Some (local_seconds (with_year (year dt + 1900) dt))
  else None.

Definition valid_timestamp (timestamp : Q) (description : string) : M bool :=
  if Qltb timestamp MIN_DATE || Qltb MAX_DATE timestamp then
    time_str ← lift_result (or_ValueError (fromtimestamp_str timestamp));
    logging_error ("Warning: Invalid " +:+ description +:+ ": " +:+ time_str);;
    mret false
  else mret true.

(** The [try] block of [parse_time_str]; [None] is a [ValueError]. *)
Definition parse_fields (time_str : string) : option datetime :=
  y ← py_int (slice 0 4 time_str);
  mo ← py_int (slice 5 7 time_str);
  d ← py_int (slice 8 10 time_str);
  h ← py_int (slice 11 13 time_str);
  mi ← py_int (slice 14 16 time_str);
  s ← py_int (slice 17 19 time_str);
  datetime_new y mo d h mi s.

Definition parse_time_str (time_str : string) : M (option Q) :=
  if negb (String.length time_str =? 19)%nat then
    logging_info ("Warning: Invalid EXIF time string length " +:+ String "034" time_str
                  +:+ String "034" ".");;
    mret None
  else
    match parse_fields time_str with
    | None =>
        logging_info ("Warning: Invalid EXIF time string " +:+ String "034" time_str
                      +:+ String "034" ".");;
        mret None
    | Some dt =>
        (* outside the [try] *)
        t ← lift_result (or_ValueError (mktime dt));
        mret (Some t)
    end.

Definition tag_name : string := "EXIF DateTimeOriginal".

(** [with open(path, 'rb') as image_file: tags = exifread.process_file(..)]
    followed by the look-up of [tag_name] in [tags]. *)
Definition read_DateTimeOriginal (path : string) : M (option string) := λ w,
  match fs w !! path with
  | Some f =>
      (Ret (exif_DateTimeOriginal f),
       mk_world (<[path := mk_file (atime_after_read (length (opened w)) path f)
                                   (st_mtime f) (exif_DateTimeOriginal f)]> (fs w))
                (stdout w) (log w) (opened w ++ [path]))
  | None => (Raise IOError, w)
  end.

Definition get_exif_time (image_path : string) : M (option Q) :=
  tag ← read_DateTimeOriginal image_path;
  match tag with
  | Some values => parse_time_str values
  | None =>
      logging_info ("Warning: did not find EXIF tag " +:+ String "034" tag_name +:+ String "034"
                    " in file " +:+ String "034" image_path +:+ String "034" "");;
      mret None
  end.

(** [match.group(i)] for [1 <= i]. *)
Definition group (groups : list string) (i : nat) : result string :=
  match groups !! (i - 1)%nat with
  | Some g => Ret g
  | None => Raise IndexError
  end.

(** The body of [if match:] in the loop over [NAME_FORMATS]. *)
Definition time_of_match (groups : list string) : result Q :=
  y ← group groups 1 ≫= (λ g, or_ValueError (py_int g));
  mo ← group groups 2 ≫= (λ g, or_ValueError (py_int g));
  d ← group groups 3 ≫= (λ g, or_ValueError (py_int g));
  h ← group groups 4 ≫= (λ g, or_ValueError (py_int g));
  mi ← group groups 5 ≫= (λ g, or_ValueError (py_int g));
  s ← group groups 6 ≫= (λ g, or_ValueError (py_int g));
  dt ← or_ValueError (datetime_new y mo d h mi s);
  or_ValueError (mktime dt).

(** [for name_format in NAME_FORMATS: ...], leaving [title_time]. *)
Fixpoint filename_time (formats : list regex) (image_name : string) : result (option Q) :=
  match formats with
  | [] => Ret None
  | name_format :: formats' =>
      match re_search name_format image_name with
      | Some groups =>
          match time_of_match groups with
          | Ret t => Ret (Some t)
          | Continue => Continue
          | Raise e => Raise e
          end
      | None => filename_time formats' image_name
      end
  end.

(** [title_time and not valid_timestamp(title_time, description)] *)
Definition and_not_valid (title_time : option Q) (description : string) : M bool :=
  match title_time with
  | Some t =>
      if float_truthy t then v ← valid_timestamp t description; mret (negb v)
      else mret false
  | None => mret false
  end.

(** [recognized] after the loop over [IGNORE_FORMATS]. *)
Definition recognized (image_name : string) : bool :=
  existsb (λ name_format, bool_decide (is_Some (re_search name_format image_name)))
          IGNORE_FORMATS.

Definition time_diff (title_time mod_time : Q) : Z :=
  py_round (Qabs (title_time - mod_time)).

Definition tz_diff (time_diff : Z) : Z :=
  Z.abs (time_diff - py_round (inject_Z time_diff / 60 / 60) * 60 * 60).

(** The condition of the [if] that guards the report and the correction. *)
Definition discrepancy (a : args) (title_time mod_time : Q) : bool :=
  (max_diff a <? time_diff title_time mod_time)
  && (max_tz_diff a <=? tz_diff (time_diff title_time mod_time)).

Definition report (image_name : string) (time_diff : Z) : string :=
  image_name +:+ ": discrepancy of " +:+ timedelta_str time_diff
  +:+ " (" +:+ pretty time_diff +:+ ")".

(** The body of [for image_path in args.images:]. *)
Definition loop_body (a : args) (image_path : string) : M unit :=
  exists_ ← isfile image_path;
  if negb exists_ then continue else
  let image_name := basename image_path in
  (* Get timestamp by parsing filename *)
  title_time ← lift_result (filename_time NAME_FORMATS image_name);
  bad ← and_not_valid title_time "filename timestamp";
  if (bad : bool) then continue else
  (* Otherwise, try to get it from EXIF data *)
  title_time ←
    (if negb (truthy title_time) && exifread then
       title_time ← get_exif_time image_path;
       bad ← and_not_valid title_time "EXIF timestamp";
       if (bad : bool) then continue else mret title_time
     else mret title_time);
  match title_time with
  | Some title_time =>
      if negb (float_truthy title_time) then
        (if negb (recognized image_name) then
           logging_error ("Unrecognized name format & no EXIF: " +:+ image_name)
         else mret ());;
        continue
      else
        (* Compare with date modified *)
        mod_time ← getmtime image_name;
        ok ← valid_timestamp mod_time "date modified";
        if negb ok then continue else
        if discrepancy a title_time mod_time then
          print (report image_name (time_diff title_time mod_time));;
          if negb (no_edit a) then
            (* Correct date modified *)
            utime image_path title_time title_time
          else mret ()
        else mret ()
  | None =>
      (if negb (recognized image_name) then
         logging_error ("Unrecognized name format & no EXIF: " +:+ image_name)
       else mret ());;
      continue
  end.

(** The [for] loop: [continue] goes on with the next image, an exception
    ends the run. *)
Fixpoint for_each (body : string → M unit) (l : list string) (w : world)
    : result unit * world :=
  match l with
  | [] => (Ret (), w)
  | x :: l' =>
      match body x w with
      | (Raise e, w') => (Raise e, w')
      | (_, w') => for_each body l' w'
      end
  end.

(** [main] once the arguments are parsed into [args]. *)
Definition main (a : args) : M unit := for_each (loop_body a) (images a).

(** The module level before [main]: where [import exifread] fails,
    [logging.warn] is called. *)
Definition import_exifread : M unit :=
  if exifread then mret ()
  else logging WARNING "Warning: Need to install exifread for full functionality.".

(** The script from its start. *)
Definition script (a : args) : M unit := import_exifread;; main a.

(** The level and the format of the handler on standard error. With
    [exifread] the first use of the logging module is
    [logging.basicConfig(stream=sys.stderr, level=loglevel, format='%(message)s')]
    in [main]. Without it, [logging.warn] at module level has already called
    [basicConfig()] with the defaults, level [WARNING] and format
    [%(levelname)s:%(name)s:%(message)s], and the call in [main], finding a
    handler, does nothing. *)
Definition handler_level (a : args) : Z := if exifread then loglevel a else WARNING.

Definition handler_format (r : Z * string) : string :=
  if exifread then r.2 else levelname r.1 +:+ ":root:" +:+ r.2.

(** What the logging handler has written to standard error. *)
Definition stderr (a : args) (w : world) : list string :=
  handler_format <$> filter (λ r, handler_level a ≤ r.1) (log w).

(** Standard error after the script has run from the state [w]: the lines of
    the handler and, when an exception leaves [main], the traceback. *)
Definition script_stderr (a : args) (w : world) : list string :=
  stderr a (script a w).2
  ++ match (script a w).1 with
     | Raise e => traceback e
     | _ => []
     end.

(** ** Auxiliary definitions for the proofs *)

(** The loop body up to the validated modification time: the true time and
    the modification time that reach the comparison. *)
Definition evaluate (image_path : string) : M (Q * Q) :=
  exists_ ← isfile image_path;
  if negb exists_ then continue else
  let image_name := basename image_path in
  title_time ← lift_result (filename_time NAME_FORMATS image_name);
  bad ← and_not_valid title_time "filename timestamp";
  if (bad : bool) then continue else
  title_time ←
    (if negb (truthy title_time) && exifread then
       title_time ← get_exif_time image_path;
       bad ← and_not_valid title_time "EXIF timestamp";
       if (bad : bool) then continue else mret title_time
     else mret title_time);
  match title_time with
  | Some title_time =>
      if negb (float_truthy title_time) then
        (if negb (recognized image_name) then
           logging_error ("Unrecognized name format & no EXIF: " +:+ image_name)
         else mret ());;
        continue
      else
        mod_time ← getmtime image_name;
        ok ← valid_timestamp mod_time "date modified";
        if negb ok then continue else mret (title_time, mod_time)
  | None =>
      (if negb (recognized image_name) then
         logging_error ("Unrecognized name format & no EXIF: " +:+ image_name)
       else mret ());;
      continue
  end.

(** The rest of the loop body: report and correction. *)
Definition correct (a : args) (image_path : string) (tm : Q * Q) : M unit :=
  if discrepancy a tm.1 tm.2 then
    print (report (basename image_path) (time_diff tm.1 tm.2));;
    if negb (no_edit a) then utime image_path tm.1 tm.1 else mret ()
  else mret ().

(** A computation that leaves one component of the state alone. *)
Definition preserves {A X} (proj : world → X) (m : M A) : Prop :=
  ∀ w, proj (m w).2 = proj w.

(** The plausibility window of the validator. *)
Definition in_window (t : Q) : Prop := (MIN_DATE <= t)%Q ∧ (t <= MAX_DATE)%Q.

#[global] Instance in_window_decision (t : Q) : Decision (in_window t).
Proof. unfold in_window. apply _. Defined.

(** The state after one more call of [logging.error], of [logging.info],
    and after one more file was opened. *)
Definition with_error (w : world) (msg : string) : world :=
  mk_world (fs w) (stdout w) (log w ++ [(ERROR, msg)]) (opened w).

Definition with_info (w : world) (msg : string) : world :=
  mk_world (fs w) (stdout w) (log w ++ [(INFO, msg)]) (opened w).

Definition with_open (w : world) (path : string) : world :=
  mk_world (match fs w !! path with
            | Some f =>
                <[path := mk_file (atime_after_read (length (opened w)) path f)
                                  (st_mtime f) (exif_DateTimeOriginal f)]> (fs w)
            | None => fs w
            end)
           (stdout w) (log w) (opened w ++ [path]).

(** The files without their access times: for each path the modification
    time and the tag. *)
Definition mtimes (w : world) : gmap string (Q * option string) :=
  (λ f, (st_mtime f, exif_DateTimeOriginal f)) <$> fs w.

(** The state after [print line], and after the times of the file at [path]
    were set to [t]. *)
Definition with_print (w : world) (line : string) : world :=
  mk_world (fs w) (stdout w ++ [line]) (log w) (opened w).

Definition with_utime (w : world) (path : string) (t : Q) (f : file) : world :=
  mk_world (<[path := mk_file t t (exif_DateTimeOriginal f)]> (fs w))
           (stdout w) (log w) (opened w).

(** The messages of the program. *)
Definition invalid_msg (description time_str : string) : string :=
  "Warning: Invalid " +:+ description +:+ ": " +:+ time_str.

Definition bad_length_msg (time_str : string) : string :=
  "Warning: Invalid EXIF time string length " +:+ String "034" time_str +:+ String "034" ".".

Definition bad_fields_msg (time_str : string) : string :=
  "Warning: Invalid EXIF time string " +:+ String "034" time_str +:+ String "034" ".".

Definition no_tag_msg (image_path : string) : string :=
  "Warning: did not find EXIF tag " +:+ String "034" tag_name +:+ String "034"
  " in file " +:+ String "034" image_path +:+ String "034" "".

Definition unrecognized_msg (image_name : string) : string :=
  "Unrecognized name format & no EXIF: " +:+ image_name.

(** The six fixed-width components of a metadata time string are integers
    that form a calendar date and time. *)
Definition components_valid (time_str : string) (dt : datetime) : Prop :=
  py_int (slice 0 4 time_str) = Some (year dt)
  ∧ py_int (slice 5 7 time_str) = Some (month dt)
  ∧ py_int (slice 8 10 time_str) = Some (day dt)
  ∧ py_int (slice 11 13 time_str) = Some (hour dt)
  ∧ py_int (slice 14 16 time_str) = Some (minute dt)
  ∧ py_int (slice 17 19 time_str) = Some (second dt)
  ∧ calendar_valid (year dt) (month dt) (day dt) (hour dt) (minute dt) (second dt).

(** The shape of the groups a name format captures. *)
Definition two_digit (g : string) : Prop :=
  ∃ c1 c2, g = String c1 (String c2 "") ∧ is_digit c1 = true ∧ is_digit c2 = true.

Definition year_20xx (g : string) : Prop :=
  ∃ c1 c2, g = String "2" (String "0" (String c1 (String c2 "")))
           ∧ is_digit c1 = true ∧ is_digit c2 = true.

Definition six_fields (groups : list string) : Prop :=
  ∃ g1 g2 g3 g4 g5 g6,
    groups = [g1; g2; g3; g4; g5; g6]
    ∧ year_20xx g1 ∧ two_digit g2 ∧ two_digit g3
    ∧ two_digit g4 ∧ two_digit g5 ∧ two_digit g6.

Definition set_no_edit (b : bool) (a : args) : args :=
  mk_args (images a) b (quiet a) (verbose a) (max_diff a) (max_tz_diff a).

(** ** Auxiliary definitions for the properties of the whole run *)

(** Where a true time can come from: the file name or, when the name gives
    none and [exifread] is there, the EXIF tag of the file. *)
Definition time_source (path : string) (f : file) (t : Q) : Prop :=
  filename_time NAME_FORMATS (basename path) = Ret (Some t)
  ∨ (exifread = true
     ∧ (∃ t0, filename_time NAME_FORMATS (basename path) = Ret t0 ∧ truthy t0 = false)
     ∧ ∃ time_str dt,
         exif_DateTimeOriginal f = Some time_str ∧ String.length time_str = 19%nat
         ∧ components_valid time_str dt ∧ mktime dt = Some t).

(** Whether a turn on an existing [path] reads its metadata: [exifread] is
    there and the file name gave no time, or the time zero. *)
Definition reads_metadata (path : string) : bool :=
  exifread
  && match filename_time NAME_FORMATS (basename path) with
     | Ret (Some t) => negb (float_truthy t)
     | Ret None => true
     | _ => false
     end.

(** The state after that read, if there is one. *)
Definition after_read (path : string) (w : world) : world :=
  if reads_metadata path then with_open w path else w.

(** Why a turn on [path] can end in the exception [e]: the file exists, and
    the fields of its name are no date ([ValueError] of
    [datetime.datetime]), or [time.mktime] refuses the year of its metadata
    time, or a time the validator rejects cannot be formatted ([ValueError]
    of [datetime.datetime.fromtimestamp]), or no file has its bare name
    ([OSError] of [os.path.getmtime]). *)
Definition raise_cause (path : string) (w : world) (e : exn) : Prop :=
  ∃ f, fs w !! path = Some f
    ∧ ((e = ValueError ∧ filename_time NAME_FORMATS (basename path) = Raise ValueError)
       ∨ (e = ValueError ∧ exifread = true
          ∧ ∃ v dt, exif_DateTimeOriginal f = Some v ∧ String.length v = 19%nat
                    ∧ components_valid v dt ∧ mktime dt = None)
       ∨ (e = ValueError
          ∧ ∃ t, ¬ in_window t ∧ fromtimestamp_str t = None
                 ∧ (filename_time NAME_FORMATS (basename path) = Ret (Some t)
                    ∨ (exifread = true
                       ∧ ∃ v dt, exif_DateTimeOriginal f = Some v
                                 ∧ String.length v = 19%nat
                                 ∧ components_valid v dt ∧ mktime dt = Some t)
                    ∨ (∃ g, fs w !! basename path = Some g ∧ t = st_mtime g)))
       ∨ (e = OSError ∧ fs w !! basename path = None)).

(** What a run may do to the file at [p]: the tag stays; the file stays as
    it is, or it is an image whose metadata was read and only its access
    time moved, or it is an image that was corrected, in a run that is no
    simulation: its modification time is then in the window and its access
    time is the same, unless the metadata was read as well. *)
Definition file_step (a : args) (p : string) (f f' : file) : Prop :=
  exif_DateTimeOriginal f' = exif_DateTimeOriginal f
  ∧ (f' = f
     ∨ (p ∈ images a ∧ reads_metadata p = true ∧ st_mtime f' = st_mtime f)
     ∨ (p ∈ images a ∧ no_edit a = false ∧ in_window (st_mtime f')
        ∧ (st_atime f' = st_mtime f' ∨ reads_metadata p = true))).

(** What a run may do to the files: no file appears or disappears, and each
    file changes as [file_step] says. *)
Definition times_only (a : args) (w w' : world) : Prop :=
  ∀ p,
    match fs w !! p, fs w' !! p with
    | Some f, Some f' => file_step a p f f'
    | None, None => True
    | _, _ => False
    end.

(** A computation that only appends to the log, at levels in [P]. *)
Definition log_grows (P : Z → Prop) {A} (m : M A) : Prop :=
  ∀ w, ∃ l, log (m w).2 = log w ++ l ∧ Forall (λ r, P r.1) l.

(** The levels the program logs at: error, and info where the metadata is
    read. *)
Definition logged_level (lvl : Z) : Prop := lvl = ERROR ∨ (exifread = true ∧ lvl = INFO).

(** The loop body up to the comparison, case by case. [finish] is the part
    from [os.path.getmtime] on, [no_time] the part under [if not title_time]. *)
Definition rejected {A} (description : string) (t : Q) (w : world) : result A * world :=
  match fromtimestamp_str t with
  | Some time_str => (Continue, with_error w (invalid_msg description time_str))
  | None => (Raise ValueError, w)
  end.

Definition finish (path : string) (t : Q) (w : world) : result (Q * Q) * world :=
  match fs w !! basename path with
  | None => (Raise OSError, w)
  | Some g =>
      if bool_decide (in_window (st_mtime g)) then (Ret (t, st_mtime g), w)
      else rejected "date modified" (st_mtime g) w
  end.

Definition no_time (path : string) (w : world) : result (Q * Q) * world :=
  (Continue,
   if recognized (basename path) then w
   else with_error w (unrecognized_msg (basename path))).

Definition checked (path : string) (description : string) (t : Q) (w : world)
    : result (Q * Q) * world :=
  if float_truthy t then
    if bool_decide (in_window t) then finish path t w
    else rejected description t w
  else no_time path w.

Definition from_exif (path : string) (f : file) (w : world) : result (Q * Q) * world :=
  match exif_DateTimeOriginal f with
  | None => no_time path (with_info (with_open w path) (no_tag_msg path))
  | Some v =>
      if (String.length v =? 19)%nat then
        match parse_fields v with
        | None => no_time path (with_info (with_open w path) (bad_fields_msg v))
        | Some dt =>
            match mktime dt with
            | Some t => checked path "EXIF timestamp" t (with_open w path)
            | None => (Raise ValueError, with_open w path)
            end
        end
      else no_time path (with_info (with_open w path) (bad_length_msg v))
  end.

Definition outcome (path : string) (w : world) : result (Q * Q) * world :=
  match fs w !! path with
  | None => (Continue, w)
  | Some f =>
      match filename_time NAME_FORMATS (basename path) with
      | Continue => (Continue, w)
      | Raise e => (Raise e, w)
      | Ret (Some t) =>
          if float_truthy t then checked path "filename timestamp" t w
          else if exifread then from_exif path f w else no_time path w
      | Ret None => if exifread then from_exif path f w else no_time path w
      end
  end.

(** * Properties *)

(** ** Rounding *)

Lemma py_round_bounds (x : Q) :
  (inject_Z (py_round x) - (1 # 2) <= x <= inject_Z (py_round x) + (1 # 2))%Q.
Proof.
  unfold py_round. destruct (Qle_bool 0 x) eqn:E.
  - pose proof (Qfloor_le (x + (1 # 2))) as H1.
    pose proof (Qlt_floor (x + (1 # 2))) as H2.
    rewrite inject_Z_plus in H2. change (inject_Z 1) with 1%Q in H2. lra.
  - pose proof (Qfloor_le (- x + (1 # 2))) as H1.
    pose proof (Qlt_floor (- x + (1 # 2))) as H2.
    rewrite inject_Z_plus in H2. change (inject_Z 1) with 1%Q in H2.
    rewrite inject_Z_opp. lra.
Qed.

Lemma py_round_nonneg (x : Q) : (0 <= x)%Q → 0 ≤ py_round x.
Proof.
  intros H. unfold py_round.
  assert (Hb : Qle_bool 0 x = true) by (apply Qle_bool_iff; exact H).
  rewrite Hb. change 0 with (Qfloor 0). apply Qfloor_resp_le. lra.
Qed.

Lemma py_round_comp (x y : Q) : (x == y)%Q → py_round x = py_round y.
Proof.
  intros H. unfold py_round.
  assert (Hb : Qle_bool 0 x = Qle_bool 0 y).
  { destruct (Qle_bool 0 x) eqn:Ex, (Qle_bool 0 y) eqn:Ey; try reflexivity.
    - apply Qle_bool_iff in Ex. rewrite H in Ex. apply Qle_bool_iff in Ex. congruence.
    - apply Qle_bool_iff in Ey. rewrite <- H in Ey. apply Qle_bool_iff in Ey. congruence. }
  rewrite Hb. destruct (Qle_bool 0 y).
  - apply Qfloor_comp. rewrite H. reflexivity.
  - f_equal. apply Qfloor_comp. rewrite H. reflexivity.
Qed.

Lemma py_round_inject_Z (n : Z) : py_round (inject_Z n) = n.
Proof.
  pose proof (py_round_bounds (inject_Z n)) as [H1 H2].
  set (r := py_round (inject_Z n)) in *.
  assert (Ha : (inject_Z r < inject_Z (n + 1))%Q).
  { rewrite inject_Z_plus. change (inject_Z 1) with 1%Q. lra. }
  assert (Hb : (inject_Z n < inject_Z (r + 1))%Q).
  { rewrite inject_Z_plus. change (inject_Z 1) with 1%Q. lra. }
  rewrite <- Zlt_Qlt in Ha, Hb. lia.
Qed.

Lemma tz_residual (d : Z) :
  -1800 ≤ d - py_round (inject_Z d / 60 / 60) * 60 * 60 ≤ 1800.
Proof.
  pose proof (py_round_bounds (inject_Z d / 60 / 60)) as [H1 H2].
  assert (Hq : (inject_Z d == (inject_Z d / 60 / 60) * 3600)%Q) by field.
  set (q := (inject_Z d / 60 / 60)%Q) in *.
  set (r := py_round q) in *.
  assert (Ha : (inject_Z (-1800) <= inject_Z (d - r * 60 * 60))%Q).
  { unfold Z.sub. rewrite inject_Z_plus, inject_Z_opp, !inject_Z_mult.
    change (inject_Z 60) with 60%Q. change (inject_Z (-1800)) with (-1800)%Q. lra. }
  assert (Hb : (inject_Z (d - r * 60 * 60) <= inject_Z 1800)%Q).
  { unfold Z.sub. rewrite inject_Z_plus, inject_Z_opp, !inject_Z_mult.
    change (inject_Z 60) with 60%Q. change (inject_Z 1800) with 1800%Q. lra. }
  rewrite <- Zle_Qle in Ha, Hb. lia.
Qed.

Lemma tz_diff_bound (d : Z) : 0 ≤ tz_diff d ≤ 1800.
Proof. unfold tz_diff. pose proof (tz_residual d). lia. Qed.

Lemma time_diff_nonneg (title_time mod_time : Q) : 0 ≤ time_diff title_time mod_time.
Proof. apply py_round_nonneg, Qabs_nonneg. Qed.

(** A whole number of seconds apart: no rounding takes place. *)
Lemma time_diff_whole (mod_time : Q) (n : Z) :
  time_diff (mod_time + inject_Z n) mod_time = Z.abs n.
Proof.
  unfold time_diff. rewrite <- (py_round_inject_Z (Z.abs n)).
  apply py_round_comp. transitivity (Qabs (inject_Z n)).
  - apply Qabs_wd. ring.
  - symmetry. apply (Zabs_Qabs n 1).
Qed.

Lemma discrepancy_spec (a : args) (title_time mod_time : Q) :
  discrepancy a title_time mod_time = true ↔
  max_diff a < time_diff title_time mod_time
  ∧ max_tz_diff a ≤ tz_diff (time_diff title_time mod_time).
Proof.
  unfold discrepancy. rewrite andb_true_iff, Z.ltb_lt, Z.leb_le. reflexivity.
Qed.

Lemma discrepancy_large_tz (a : args) (title_time mod_time : Q) :
  1800 < max_tz_diff a → discrepancy a title_time mod_time = false.
Proof.
  intros H. apply not_true_is_false. rewrite discrepancy_spec.
  pose proof (tz_diff_bound (time_diff title_time mod_time)). lia.
Qed.

(** C1. With [diff] the absolute difference rounded to the nearest whole
    second and [tz_slack] the distance from [diff] to the nearest whole hour,
    the comparison asks for a correction exactly when [diff > max_diff] and
    [tz_slack >= max_tz_diff]. A difference of 3600 with [max_tz_diff = 60]
    gives no correction, 3661 with the defaults gives one, 30 with
    [max_diff = 60] gives none. *)
Theorem C1_discrepancy_decision (a : args) (title_time mod_time : Q) :
  let diff := time_diff title_time mod_time in
  let tz_slack := tz_diff diff in
  (Qabs (Qabs (title_time - mod_time) - inject_Z diff) <= 1 # 2)%Q
  ∧ (∃ k, tz_slack = Z.abs (diff - k * 3600))
  ∧ (∀ k, tz_slack ≤ Z.abs (diff - k * 3600))
  ∧ (discrepancy a title_time mod_time = true ↔ diff > max_diff a ∧ tz_slack >= max_tz_diff a)
  ∧ (diff = 3600 → max_tz_diff a = 60 → discrepancy a title_time mod_time = false)
  ∧ (diff = 3661 → max_diff a = OPT_DEFAULTS_max_diff →
     max_tz_diff a = OPT_DEFAULTS_max_tz_diff → discrepancy a title_time mod_time = true)
  ∧ (diff = 30 → max_diff a = OPT_DEFAULTS_max_diff → discrepancy a title_time mod_time = false)
  ∧ time_diff (mod_time + 3600) mod_time = 3600
  ∧ time_diff (mod_time + 3661) mod_time = 3661.
Proof.
  intros diff tz_slack.
  split; [|split; [|split; [|split; [|split; [|split; [|split; [|split]]]]]]].
  - pose proof (py_round_bounds (Qabs (title_time - mod_time))) as [H1 H2].
    apply Qabs_Qle_condition. fold (time_diff title_time mod_time) in H1, H2.
    fold diff in H1, H2. split; lra.
  - exists (py_round (inject_Z diff / 60 / 60)). unfold tz_slack, tz_diff. f_equal. lia.
  - intros k. unfold tz_slack, tz_diff. pose proof (tz_residual diff). lia.
  - rewrite discrepancy_spec. fold diff. fold tz_slack. lia.
  - intros Hd Htz. apply not_true_is_false. rewrite discrepancy_spec.
    fold diff. rewrite Hd, Htz. vm_compute. intros [_ H]. apply H. reflexivity.
  - intros Hd Hm Htz. apply discrepancy_spec. fold diff. rewrite Hd, Hm, Htz.
    vm_compute. split; [reflexivity | discriminate].
  - intros Hd Hm. apply not_true_is_false. rewrite discrepancy_spec.
    fold diff. rewrite Hd, Hm. vm_compute. intros [H _]. discriminate.
  - apply (time_diff_whole mod_time 3600).
  - apply (time_diff_whole mod_time 3661).
Qed.

(** ** The monad *)

Lemma bind_Ret {A B} (m : M A) (f : A → M B) (w w' : world) (x : A) :
  m w = (Ret x, w') → (m ≫= f) w = f x w'.
Proof. intros H. unfold mbind, M_bind. rewrite H. reflexivity. Qed.

Lemma bind_Continue {A B} (m : M A) (f : A → M B) (w w' : world) :
  m w = (Continue, w') → (m ≫= f) w = (Continue, w').
Proof. intros H. unfold mbind, M_bind. rewrite H. reflexivity. Qed.

Lemma bind_Raise {A B} (m : M A) (f : A → M B) (w w' : world) (e : exn) :
  m w = (Raise e, w') → (m ≫= f) w = (Raise e, w').
Proof. intros H. unfold mbind, M_bind. rewrite H. reflexivity. Qed.

Lemma bind_ext {A B} (m : M A) (f g : A → M B) (w : world) :
  (∀ x w', f x w' = g x w') → (m ≫= f) w = (m ≫= g) w.
Proof. intros H. unfold mbind, M_bind. destruct (m w) as [[x| |e] w1]; auto. Qed.

Lemma bind_at {A B} (m m' : M A) (f : A → M B) (w : world) :
  m w = m' w → (m ≫= f) w = (m' ≫= f) w.
Proof. intros H. unfold mbind, M_bind. rewrite H. reflexivity. Qed.

Lemma preserves_bind {A B X} (proj : world → X) (m : M A) (f : A → M B) :
  preserves proj m → (∀ x, preserves proj (f x)) → preserves proj (m ≫= f).
Proof.
  intros Hm Hf w. unfold mbind, M_bind.
  specialize (Hm w). destruct (m w) as [[x| |e] w1]; simpl in *; auto.
  rewrite (Hf x w1). exact Hm.
Qed.

Lemma fmap_insert_touch (m : gmap string file) (path : string) (f : file) (atime : Q) :
  m !! path = Some f →
  (λ f, (st_mtime f, exif_DateTimeOriginal f))
    <$> <[path := mk_file atime (st_mtime f) (exif_DateTimeOriginal f)]> m
  = (λ f, (st_mtime f, exif_DateTimeOriginal f)) <$> m.
Proof.
  intros H. rewrite fmap_insert. apply insert_id. rewrite lookup_fmap, H. reflexivity.
Qed.

Lemma mtimes_with_open (w : world) (path : string) : mtimes (with_open w path) = mtimes w.
Proof.
  unfold mtimes, with_open. simpl. destruct (fs w !! path) as [f|] eqn:E; [|reflexivity].
  apply fmap_insert_touch, E.
Qed.

Lemma mtimes_lookup (w w' : world) (p : string) :
  mtimes w' = mtimes w →
  match fs w !! p, fs w' !! p with
  | Some f, Some f' =>
      st_mtime f' = st_mtime f ∧ exif_DateTimeOriginal f' = exif_DateTimeOriginal f
  | None, None => True
  | _, _ => False
  end.
Proof.
  intros H. assert (H' : mtimes w' !! p = mtimes w !! p) by (rewrite H; reflexivity).
  unfold mtimes in H'. rewrite !lookup_fmap in H'.
  destruct (fs w !! p), (fs w' !! p); simpl in H'; try discriminate; [|exact I].
  injection H' as H1 H2. auto.
Qed.

Lemma mtimes_lookup_Some (w w' : world) (p : string) (f : file) :
  mtimes w' = mtimes w → fs w !! p = Some f →
  ∃ f', fs w' !! p = Some f'
        ∧ st_mtime f' = st_mtime f ∧ exif_DateTimeOriginal f' = exif_DateTimeOriginal f.
Proof.
  intros H Hf. pose proof (mtimes_lookup w w' p H) as Hl. rewrite Hf in Hl.
  destruct (fs w' !! p) as [f'|]; [eauto | contradiction].
Qed.

Lemma mtimes_lookup_None (w w' : world) (p : string) :
  mtimes w' = mtimes w → fs w !! p = None → fs w' !! p = None.
Proof.
  intros H Hf. pose proof (mtimes_lookup w w' p H) as Hl. rewrite Hf in Hl.
  destruct (fs w' !! p); [contradiction | reflexivity].
Qed.

(** The primitive operations, each on the components it does not write. *)
Ltac preserves_prim :=
  intros ?;
  unfold logging_error, logging_info, logging, print, isfile, getmtime, utime,
    read_DateTimeOriginal, lift_result, continue, raise, mret, M_ret;
  repeat case_match;
  first [ reflexivity
        | unfold mtimes; simpl; apply fmap_insert_touch; assumption ].

Ltac preserves_step :=
  lazymatch goal with
  | |- preserves _ (_ ≫= _) => apply preserves_bind; [| intros ?]
  | |- preserves _ (if ?b then _ else _) => destruct b
  | |- preserves _ (match ?x with _ => _ end) => destruct x
  | |- _ => solve [preserves_prim]
  end.

Ltac preserves_tac :=
  unfold correct, evaluate, get_exif_time, parse_time_str, and_not_valid, valid_timestamp;
  repeat preserves_step.

Lemma evaluate_preserves_mtimes (path : string) : preserves mtimes (evaluate path).
Proof. preserves_tac. Qed.

Lemma evaluate_preserves_stdout (path : string) : preserves stdout (evaluate path).
Proof. preserves_tac. Qed.

Lemma loop_body_split (a : args) (image_path : string) (w : world) :
  loop_body a image_path w = (evaluate image_path ≫= correct a image_path) w.
Proof.
  unfold loop_body, evaluate, correct.
  unfold mbind, M_bind, mret, M_ret, continue.
  repeat case_match; simpl in *; simplify_eq; try reflexivity; try congruence.
Qed.

(** ** The validator *)

Lemma in_window_dec (t : Q) :
  in_window t ↔ Qltb t MIN_DATE || Qltb MAX_DATE t = false.
Proof.
  unfold in_window, Qltb. rewrite orb_false_iff, !negb_false_iff, !Qle_bool_iff.
  reflexivity.
Qed.

Lemma in_window_truthy (t : Q) : in_window t → float_truthy t = true.
Proof.
  intros [H _]. unfold float_truthy. apply negb_true_iff.
  destruct (Qeq_bool t 0) eqn:E; [|reflexivity].
  apply Qeq_bool_iff in E.
  assert (Hmin : (MIN_DATE == 788936400)%Q) by reflexivity. lra.
Qed.

Lemma valid_timestamp_in (t : Q) (d : string) (w : world) :
  in_window t → valid_timestamp t d w = (Ret true, w).
Proof. intros H. apply in_window_dec in H. unfold valid_timestamp. rewrite H. reflexivity. Qed.

Lemma valid_timestamp_out (t : Q) (d time_str : string) (w : world) :
  ¬ in_window t → fromtimestamp_str t = Some time_str →
  valid_timestamp t d w = (Ret false, with_error w (invalid_msg d time_str)).
Proof.
  intros H Hs. rewrite in_window_dec in H. apply not_false_is_true in H.
  unfold valid_timestamp. rewrite H, Hs. reflexivity.
Qed.

Lemma valid_timestamp_raise (t : Q) (d : string) (w : world) :
  ¬ in_window t → fromtimestamp_str t = None →
  valid_timestamp t d w = (Raise ValueError, w).
Proof.
  intros H Hs. rewrite in_window_dec in H. apply not_false_is_true in H.
  unfold valid_timestamp. rewrite H, Hs. reflexivity.
Qed.

(** A time outside the window, at a place where a rejected time ends the
    turn: logged and skipped, or [ValueError] from [fromtimestamp]. *)
Lemma valid_timestamp_rejected {A} (t : Q) (d : string) (k : M A) (w : world) :
  ¬ in_window t →
  (ok ← valid_timestamp t d; if negb ok then continue else k) w = rejected d t w.
Proof.
  intros H. unfold rejected. destruct (fromtimestamp_str t) as [time_str|] eqn:Hs.
  - rewrite (bind_Ret _ _ _ _ _ (valid_timestamp_out t d time_str w H Hs)). reflexivity.
  - rewrite (bind_Raise _ _ _ _ _ (valid_timestamp_raise t d w H Hs)). reflexivity.
Qed.

(** ** Paths through the loop body *)

Lemma isfile_Some (path : string) (w : world) (f : file) :
  fs w !! path = Some f → isfile path w = (Ret true, w).
Proof. intros H. unfold isfile. rewrite H. reflexivity. Qed.

Lemma isfile_None (path : string) (w : world) :
  fs w !! path = None → isfile path w = (Ret false, w).
Proof. intros H. unfold isfile. rewrite H. reflexivity. Qed.

(** A usable time from the file name: the metadata is not read. *)
Lemma evaluate_filename_time (path : string) (w : world) (f : file) (t : Q) :
  fs w !! path = Some f →
  filename_time NAME_FORMATS (basename path) = Ret (Some t) →
  float_truthy t = true →
  evaluate path w =
    (ok ← valid_timestamp t "filename timestamp";
     if negb ok then continue else
     mod_time ← getmtime (basename path);
     ok ← valid_timestamp mod_time "date modified";
     if negb ok then continue else mret (t, mod_time)) w.
Proof.
  intros Hf Hn Ht. unfold evaluate.
  rewrite (bind_Ret _ _ _ _ _ (isfile_Some _ _ _ Hf)). cbn [negb].
  rewrite Hn.
  rewrite (bind_Ret _ _ w w (Some t)) by reflexivity.
  unfold and_not_valid, truthy. rewrite Ht. cbn [negb andb].
  unfold mbind, M_bind.
  destruct (valid_timestamp t "filename timestamp" w) as [[[]| |e] w1]; cbn -[recognized]; try reflexivity.
  rewrite Ht. reflexivity.
Qed.

(** No time from the file name: the metadata is read if [exifread] is there. *)
Lemma evaluate_no_filename_time (path : string) (w : world) (f : file) (t0 : option Q) :
  fs w !! path = Some f →
  filename_time NAME_FORMATS (basename path) = Ret t0 →
  truthy t0 = false →
  evaluate path w =
    (title_time ←
       (if exifread then
          title_time ← get_exif_time path;
          bad ← and_not_valid title_time "EXIF timestamp";
          if (bad : bool) then continue else mret title_time
        else mret t0);
     if truthy title_time then
       match title_time with
       | Some title_time =>
           mod_time ← getmtime (basename path);
           ok ← valid_timestamp mod_time "date modified";
           if negb ok then continue else mret (title_time, mod_time)
       | None => continue
       end
     else
       (if negb (recognized (basename path)) then
          logging_error ("Unrecognized name format & no EXIF: " +:+ basename path)
        else mret ());;
       continue) w.
Proof.
  intros Hf Hn Ht. unfold evaluate.
  rewrite (bind_Ret _ _ _ _ _ (isfile_Some _ _ _ Hf)). cbn [negb].
  rewrite Hn.
  rewrite (bind_Ret _ _ w w t0) by reflexivity.
  assert (Hv : and_not_valid t0 "filename timestamp" w = (Ret false, w)).
  { unfold and_not_valid. destruct t0 as [t|]; [|reflexivity].
    simpl in Ht. rewrite Ht. reflexivity. }
  rewrite (bind_Ret _ _ _ _ _ Hv). rewrite Ht. cbn [negb andb].
  apply bind_ext. intros [t|] w1; [|reflexivity].
  unfold truthy. destruct (float_truthy t); reflexivity.
Qed.

Lemma getmtime_Some (path : string) (w : world) (g : file) :
  fs w !! path = Some g → getmtime path w = (Ret (st_mtime g), w).
Proof. intros H. unfold getmtime. rewrite H. reflexivity. Qed.

Lemma getmtime_None (path : string) (w : world) :
  fs w !! path = None → getmtime path w = (Raise OSError, w).
Proof. intros H. unfold getmtime. rewrite H. reflexivity. Qed.

Lemma no_time_eq (path : string) (w : world) :
  ((if negb (recognized (basename path)) then
      logging_error ("Unrecognized name format & no EXIF: " +:+ basename path)
    else mret ());; (continue : M (Q * Q))) w
  = no_time path w.
Proof. unfold no_time. destruct (recognized (basename path)); reflexivity. Qed.

Lemma finish_eq (path : string) (t : Q) (w : world) :
  (mod_time ← getmtime (basename path);
   ok ← valid_timestamp mod_time "date modified";
   if negb ok then continue else mret (t, mod_time)) w
  = finish path t w.
Proof.
  unfold finish. destruct (fs w !! basename path) as [g|] eqn:Hg.
  - rewrite (bind_Ret _ _ _ _ _ (getmtime_Some _ _ _ Hg)).
    case_bool_decide as Hm.
    + rewrite (bind_Ret _ _ _ _ _ (valid_timestamp_in _ _ _ Hm)). reflexivity.
    + apply valid_timestamp_rejected, Hm.
  - rewrite (bind_Raise _ _ _ _ _ (getmtime_None _ _ Hg)). reflexivity.
Qed.

Lemma evaluate_filename_invalid (path : string) (w : world) (f : file) (t : Q) :
  fs w !! path = Some f →
  filename_time NAME_FORMATS (basename path) = Ret (Some t) →
  float_truthy t = true → ¬ in_window t →
  evaluate path w = rejected "filename timestamp" t w.
Proof.
  intros Hf Hn Ht Hw. rewrite (evaluate_filename_time path w f t Hf Hn Ht).
  apply valid_timestamp_rejected, Hw.
Qed.

Lemma evaluate_filename_valid (path : string) (w : world) (f : file) (t : Q) :
  fs w !! path = Some f →
  filename_time NAME_FORMATS (basename path) = Ret (Some t) →
  float_truthy t = true → in_window t →
  evaluate path w = finish path t w.
Proof.
  intros Hf Hn Ht Hw. rewrite (evaluate_filename_time path w f t Hf Hn Ht).
  rewrite (bind_Ret _ _ _ _ _ (valid_timestamp_in _ _ _ Hw)). cbn [negb].
  apply finish_eq.
Qed.

(** ** The metadata extractor *)

Lemma calendar_validb_spec (y mo d h mi s : Z) :
  calendar_validb y mo d h mi s = true ↔ calendar_valid y mo d h mi s.
Proof.
  unfold calendar_validb, calendar_valid.
  rewrite !andb_true_iff, !Z.leb_le. lia.
Qed.

Lemma datetime_new_Some (y mo d h mi s : Z) (dt : datetime) :
  datetime_new y mo d h mi s = Some dt ↔
  calendar_valid y mo d h mi s ∧ dt = mk_datetime y mo d h mi s.
Proof.
  unfold datetime_new. destruct (calendar_validb y mo d h mi s) eqn:E.
  - apply calendar_validb_spec in E. split; [intros [= <-]; auto | intros [_ ->]; auto].
  - split; [discriminate |]. intros [H _]. apply calendar_validb_spec in H. congruence.
Qed.

Lemma parse_fields_spec (time_str : string) (dt : datetime) :
  parse_fields time_str = Some dt ↔ components_valid time_str dt.
Proof.
  unfold parse_fields, components_valid.
  destruct (py_int (slice 0 4 time_str)) as [y|]; simpl; [|split; [discriminate | intros [[=] _]]].
  destruct (py_int (slice 5 7 time_str)) as [mo|]; simpl;
    [|split; [discriminate | intros (_ & [=] & _)]].
  destruct (py_int (slice 8 10 time_str)) as [d|]; simpl;
    [|split; [discriminate | intros (_ & _ & [=] & _)]].
  destruct (py_int (slice 11 13 time_str)) as [h|]; simpl;
    [|split; [discriminate | intros (_ & _ & _ & [=] & _)]].
  destruct (py_int (slice 14 16 time_str)) as [mi|]; simpl;
    [|split; [discriminate | intros (_ & _ & _ & _ & [=] & _)]].
  destruct (py_int (slice 17 19 time_str)) as [s|]; simpl;
    [|split; [discriminate | intros (_ & _ & _ & _ & _ & [=] & _)]].
  rewrite datetime_new_Some. split.
  - intros [Hv ->]. simpl. repeat split; auto; apply Hv.
  - intros (Hy & Hmo & Hd & Hh & Hmi & Hs & Hv). destruct dt; simpl in *.
    simplify_eq. auto.
Qed.

Lemma parse_time_str_bad_length (time_str : string) (w : world) :
  String.length time_str ≠ 19%nat →
  parse_time_str time_str w = (Ret None, with_info w (bad_length_msg time_str)).
Proof.
  intros H. unfold parse_time_str. apply Nat.eqb_neq in H. rewrite H. reflexivity.
Qed.

Lemma parse_time_str_bad_fields (time_str : string) (w : world) :
  String.length time_str = 19%nat →
  (¬ ∃ dt, components_valid time_str dt) →
  parse_time_str time_str w = (Ret None, with_info w (bad_fields_msg time_str)).
Proof.
  intros H Hc. unfold parse_time_str. apply Nat.eqb_eq in H. rewrite H. cbn [negb].
  destruct (parse_fields time_str) as [dt|] eqn:E; [|reflexivity].
  exfalso. apply Hc. exists dt. apply parse_fields_spec, E.
Qed.

Lemma parse_time_str_valid (time_str : string) (dt : datetime) (w : world) :
  String.length time_str = 19%nat →
  components_valid time_str dt →
  parse_time_str time_str w
  = (match mktime dt with Some t => Ret (Some t) | None => Raise ValueError end, w).
Proof.
  intros H Hc. unfold parse_time_str. apply Nat.eqb_eq in H. rewrite H. cbn [negb].
  apply parse_fields_spec in Hc. rewrite Hc. destruct (mktime dt); reflexivity.
Qed.

Lemma parse_time_str_ok (time_str : string) (dt : datetime) (t : Q) (w : world) :
  String.length time_str = 19%nat →
  components_valid time_str dt → mktime dt = Some t →
  parse_time_str time_str w = (Ret (Some t), w).
Proof. intros H Hc Ht. rewrite (parse_time_str_valid _ dt) by assumption. rewrite Ht. done. Qed.

Lemma mktime_from_1900 (dt : datetime) : 1900 ≤ year dt → mktime dt = Some (local_seconds dt).
Proof. intros H. unfold mktime. apply Z.leb_le in H. rewrite H. reflexivity. Qed.

Lemma mktime_None (dt : datetime) :
  mktime dt = None ↔ year dt < 0 ∨ 100 ≤ year dt < 1900.
Proof.
  unfold mktime.
  destruct (1900 <=? year dt) eqn:E1; [apply Z.leb_le in E1; split; [discriminate | lia] |].
  apply Z.leb_gt in E1.
  destruct ((0 <=? year dt) && (year dt <? 69)) eqn:E2.
  { apply andb_true_iff in E2 as [?%Z.leb_le ?%Z.ltb_lt]. split; [discriminate | lia]. }
  destruct ((69 <=? year dt) && (year dt <? 100)) eqn:E3.
  { apply andb_true_iff in E3 as [?%Z.leb_le ?%Z.ltb_lt]. split; [discriminate | lia]. }
  split; [intros _ | reflexivity].
  apply andb_false_iff in E2, E3.
  rewrite Z.leb_gt, Z.ltb_ge in E2, E3. lia.
Qed.

Lemma read_DateTimeOriginal_Some (path : string) (w : world) (f : file) :
  fs w !! path = Some f →
  read_DateTimeOriginal path w = (Ret (exif_DateTimeOriginal f), with_open w path).
Proof. intros H. unfold read_DateTimeOriginal, with_open. rewrite H. reflexivity. Qed.

Lemma get_exif_time_no_tag (path : string) (w : world) (f : file) :
  fs w !! path = Some f → exif_DateTimeOriginal f = None →
  get_exif_time path w = (Ret None, with_info (with_open w path) (no_tag_msg path)).
Proof.
  intros Hf He. unfold get_exif_time.
  rewrite (bind_Ret _ _ _ _ _ (read_DateTimeOriginal_Some _ _ _ Hf)). rewrite He. reflexivity.
Qed.

Lemma get_exif_time_tag (path : string) (w : world) (f : file) (time_str : string) :
  fs w !! path = Some f → exif_DateTimeOriginal f = Some time_str →
  get_exif_time path w = parse_time_str time_str (with_open w path).
Proof.
  intros Hf He. unfold get_exif_time.
  rewrite (bind_Ret _ _ _ _ _ (read_DateTimeOriginal_Some _ _ _ Hf)). rewrite He. reflexivity.
Qed.

(** C7. A capture-time value whose length is not 19, or whose fixed-width
    components do not form a calendar date and time, gives no time and one
    informational diagnostic: no exception, nothing at error level, and the
    same result as a file without the field. *)
Theorem C7_unparseable_metadata_field (time_str : string) (w : world) :
  (String.length time_str ≠ 19%nat →
     parse_time_str time_str w = (Ret None, with_info w (bad_length_msg time_str)))
  ∧ (String.length time_str = 19%nat → (¬ ∃ dt, components_valid time_str dt) →
     parse_time_str time_str w = (Ret None, with_info w (bad_fields_msg time_str)))
  ∧ (∀ dt, String.length time_str = 19%nat → components_valid time_str dt →
     parse_time_str time_str w
     = (match mktime dt with Some t => Ret (Some t) | None => Raise ValueError end, w)
     ∧ (1900 ≤ year dt → parse_time_str time_str w = (Ret (Some (local_seconds dt)), w)))
  ∧ INFO < WARNING < ERROR
  ∧ (∀ path f,
       fs w !! path = Some f → exif_DateTimeOriginal f = Some time_str →
       String.length time_str ≠ 19%nat ∨ (¬ ∃ dt, components_valid time_str dt) →
       ∃ msg, get_exif_time path w = (Ret None, with_info (with_open w path) msg))
  ∧ (∀ path f,
       fs w !! path = Some f → exif_DateTimeOriginal f = None →
       ∃ msg, get_exif_time path w = (Ret None, with_info (with_open w path) msg)).
Proof.
  split; [apply parse_time_str_bad_length |].
  split; [apply parse_time_str_bad_fields |].
  split.
  { intros dt Hl Hc. split; [apply parse_time_str_valid; assumption |].
    intros Hy. apply parse_time_str_ok with dt; [assumption.. |].
    apply mktime_from_1900, Hy. }
  split; [unfold INFO, WARNING, ERROR; lia |].
  split.
  - intros path f Hf He Hbad. rewrite (get_exif_time_tag path w f time_str Hf He).
    destruct (decide (String.length time_str = 19%nat)) as [Hl|Hl].
    + destruct Hbad as [Hbad|Hbad]; [contradiction |].
      eexists. apply parse_time_str_bad_fields; assumption.
    + eexists. apply parse_time_str_bad_length; assumption.
  - intros path f Hf He. eexists. apply get_exif_time_no_tag with f; assumption.
Qed.

(** ** From the comparison to the loop body *)

Lemma loop_body_Ret (a : args) (path : string) (w w1 : world) (tm : Q * Q) :
  evaluate path w = (Ret tm, w1) → loop_body a path w = correct a path tm w1.
Proof. intros H. rewrite loop_body_split. apply bind_Ret, H. Qed.

Lemma loop_body_Continue (a : args) (path : string) (w w1 : world) :
  evaluate path w = (Continue, w1) → loop_body a path w = (Continue, w1).
Proof. intros H. rewrite loop_body_split. apply bind_Continue, H. Qed.

Lemma loop_body_Raise (a : args) (path : string) (w w1 : world) (e : exn) :
  evaluate path w = (Raise e, w1) → loop_body a path w = (Raise e, w1).
Proof. intros H. rewrite loop_body_split. apply bind_Raise, H. Qed.

Lemma evaluate_missing (path : string) (w : world) :
  fs w !! path = None → evaluate path w = (Continue, w).
Proof.
  intros H. unfold evaluate. rewrite (bind_Ret _ _ _ _ _ (isfile_None _ _ H)). reflexivity.
Qed.

Lemma evaluate_Ret_exists (path : string) (w w1 : world) (tm : Q * Q) :
  evaluate path w = (Ret tm, w1) → is_Some (fs w !! path).
Proof.
  intros H. destruct (fs w !! path) eqn:E; [eauto |].
  rewrite (evaluate_missing path w E) in H. discriminate.
Qed.

Lemma evaluate_filename_raises (path : string) (w : world) (f : file) (e : exn) :
  fs w !! path = Some f →
  filename_time NAME_FORMATS (basename path) = Raise e →
  evaluate path w = (Raise e, w).
Proof.
  intros Hf Hn. unfold evaluate.
  rewrite (bind_Ret _ _ _ _ _ (isfile_Some _ _ _ Hf)). cbn [negb].
  rewrite Hn. apply bind_Raise. reflexivity.
Qed.

Lemma evaluate_filename_continue (path : string) (w : world) (f : file) :
  fs w !! path = Some f →
  filename_time NAME_FORMATS (basename path) = Continue →
  evaluate path w = (Continue, w).
Proof.
  intros Hf Hn. unfold evaluate.
  rewrite (bind_Ret _ _ _ _ _ (isfile_Some _ _ _ Hf)). cbn [negb].
  rewrite Hn. apply bind_Continue. reflexivity.
Qed.

Lemma from_exif_eq (path : string) (f : file) (w : world) :
  fs w !! path = Some f →
  ((title_time ← get_exif_time path;
    bad ← and_not_valid title_time "EXIF timestamp";
    if (bad : bool) then continue else mret title_time)
   ≫= (λ title_time : option Q,
         if truthy title_time then
           match title_time with
           | Some title_time =>
               mod_time ← getmtime (basename path);
               ok ← valid_timestamp mod_time "date modified";
               if negb ok then continue else mret (title_time, mod_time)
           | None => continue
           end
         else
           (if negb (recognized (basename path)) then
              logging_error ("Unrecognized name format & no EXIF: " +:+ basename path)
            else mret ());;
           continue)) w
  = from_exif path f w.
Proof.
  intros Hf. unfold from_exif.
  destruct (exif_DateTimeOriginal f) as [v|] eqn:He.
  - pose proof (get_exif_time_tag path w f v Hf He) as Hg.
    destruct (String.length v =? 19)%nat eqn:Hl.
    + apply Nat.eqb_eq in Hl.
      destruct (parse_fields v) as [dt|] eqn:Hp.
      * apply parse_fields_spec in Hp.
        rewrite (parse_time_str_valid v dt _ Hl Hp) in Hg.
        destruct (mktime dt) as [t|].
        2: { apply bind_Raise. apply bind_Raise. exact Hg. }
        unfold checked. destruct (float_truthy t) eqn:Ht.
        -- case_bool_decide as Hw.
           ++ erewrite bind_Ret.
              2: { rewrite (bind_Ret _ _ _ _ _ Hg). unfold and_not_valid. rewrite Ht.
                   rewrite (bind_Ret _ _ _ (with_open w path) false); [reflexivity |].
                   rewrite (bind_Ret _ _ _ _ _ (valid_timestamp_in _ _ _ Hw)). reflexivity. }
              unfold truthy. rewrite Ht. apply finish_eq.
           ++ unfold rejected.
              destruct (fromtimestamp_str t) as [time_str|] eqn:Hs.
              ** apply bind_Continue.
                 rewrite (bind_Ret _ _ _ _ _ Hg). unfold and_not_valid. rewrite Ht.
                 rewrite (bind_Ret _ _ _ (with_error (with_open w path)
                                            (invalid_msg "EXIF timestamp" time_str)) true);
                   [reflexivity |].
                 rewrite (bind_Ret _ _ _ _ _ (valid_timestamp_out _ _ _ _ Hw Hs)).
                 reflexivity.
              ** apply bind_Raise.
                 rewrite (bind_Ret _ _ _ _ _ Hg). unfold and_not_valid. rewrite Ht.
                 apply bind_Raise. apply bind_Raise.
                 apply valid_timestamp_raise; assumption.
        -- erewrite bind_Ret.
           2: { rewrite (bind_Ret _ _ _ _ _ Hg). unfold and_not_valid. rewrite Ht.
                reflexivity. }
           unfold truthy. rewrite Ht. apply no_time_eq.
      * assert (Hc : ¬ ∃ dt, components_valid v dt).
        { intros [dt Hc]. apply parse_fields_spec in Hc. congruence. }
        rewrite (parse_time_str_bad_fields v _ Hl Hc) in Hg.
        erewrite bind_Ret.
        2: { rewrite (bind_Ret _ _ _ _ _ Hg). reflexivity. }
        apply no_time_eq.
    + apply Nat.eqb_neq in Hl.
      rewrite (parse_time_str_bad_length v _ Hl) in Hg.
      erewrite bind_Ret.
      2: { rewrite (bind_Ret _ _ _ _ _ Hg). reflexivity. }
      apply no_time_eq.
  - erewrite bind_Ret.
    2: { rewrite (bind_Ret _ _ _ _ _ (get_exif_time_no_tag path w f Hf He)). reflexivity. }
    apply no_time_eq.
Qed.

(** The loop body up to the comparison is [outcome]. *)
Lemma evaluate_outcome (path : string) (w : world) : evaluate path w = outcome path w.
Proof.
  unfold outcome. destruct (fs w !! path) as [f|] eqn:Hf.
  2: { apply evaluate_missing, Hf. }
  destruct (filename_time NAME_FORMATS (basename path)) as [t0| |e] eqn:Hn.
  2: { apply evaluate_filename_continue with f; assumption. }
  2: { apply evaluate_filename_raises with f; assumption. }
  destruct (truthy t0) eqn:Ht0.
  - destruct t0 as [t|]; [|discriminate]. simpl in Ht0. rewrite Ht0.
    unfold checked. rewrite Ht0.
    case_bool_decide as Hw.
    + rewrite (evaluate_filename_valid path w f t Hf Hn Ht0 Hw). reflexivity.
    + apply evaluate_filename_invalid with f; assumption.
  - rewrite (evaluate_no_filename_time path w f t0 Hf Hn Ht0).
    assert (Hgoal : (if exifread then from_exif path f w else no_time path w)
                    = match t0 with
                      | Some t =>
                          if float_truthy t then checked path "filename timestamp" t w
                          else if exifread then from_exif path f w else no_time path w
                      | None => if exifread then from_exif path f w else no_time path w
                      end).
    { destruct t0 as [t|]; [|reflexivity]. simpl in Ht0. rewrite Ht0. reflexivity. }
    rewrite <- Hgoal. destruct exifread.
    + apply from_exif_eq, Hf.
    + rewrite (bind_Ret _ _ w w t0) by reflexivity. rewrite Ht0. apply no_time_eq.
Qed.

Lemma loop_body_outcome (a : args) (path : string) (w : world) :
  loop_body a path w
  = match outcome path w with
    | (Ret tm, w1) => correct a path tm w1
    | (Continue, w1) => (Continue, w1)
    | (Raise e, w1) => (Raise e, w1)
    end.
Proof.
  rewrite loop_body_split. unfold mbind, M_bind. rewrite evaluate_outcome.
  destruct (outcome path w) as [[tm| |e] w1]; reflexivity.
Qed.

(** A well-formed metadata time that [time.mktime] accepts, for a file whose
    name gave no time. *)
Lemma evaluate_exif_time (path : string) (w : world) (f : file) (t0 : option Q)
    (time_str : string) (dt : datetime) (t : Q) :
  fs w !! path = Some f →
  filename_time NAME_FORMATS (basename path) = Ret t0 → truthy t0 = false →
  exifread = true →
  exif_DateTimeOriginal f = Some time_str →
  String.length time_str = 19%nat → components_valid time_str dt →
  mktime dt = Some t →
  evaluate path w = checked path "EXIF timestamp" t (with_open w path).
Proof.
  intros Hf Hn Ht0 Hx He Hl Hc Ht.
  rewrite evaluate_outcome. unfold outcome. rewrite Hf, Hn, Hx.
  assert (Hexif : from_exif path f w = checked path "EXIF timestamp" t (with_open w path)).
  { unfold from_exif. rewrite He. apply Nat.eqb_eq in Hl. rewrite Hl.
    apply parse_fields_spec in Hc. rewrite Hc, Ht. reflexivity. }
  destruct t0 as [t'|]; [simpl in Ht0; rewrite Ht0 |]; exact Hexif.
Qed.

(** ** The validator in the loop *)

(** C4 (the program differs). The validator passes a time exactly when it
    lies between the constant [MIN_DATE] and the time of the start of the run
    plus seven days, both ends included. [MIN_DATE] is not below the lower
    end and one second less is; the start of the run is not above the upper
    end and eight days later is; so one second less than [MIN_DATE] and eight
    days after the start fail, and in a run that starts no earlier than
    [MIN_DATE] both [MIN_DATE] and the time of the start pass. The upper end
    is the module constant [MAX_DATE], the same at every call. On failure
    the validator formats the time with [datetime.datetime.fromtimestamp]:
    where that gives a date, one error-level diagnostic names the source and
    the loop goes on with the next file; where it raises, for a time outside
    the years 1 to 9999, no diagnostic is logged, [ValueError] leaves the
    validator and the loop, and the run ends there. *)
Theorem C4_validator (timestamp : Q) (description : string) (w : world) :
  MIN_DATE = inject_Z 788936400
  ∧ (MAX_DATE == now + inject_Z (7 * 86400))%Q
  ∧ (in_window timestamp ↔ (MIN_DATE <= timestamp)%Q ∧ (timestamp <= MAX_DATE)%Q)
  ∧ (in_window timestamp → valid_timestamp timestamp description w = (Ret true, w))
  ∧ (¬ in_window timestamp →
     (∀ time_str, fromtimestamp_str timestamp = Some time_str →
        valid_timestamp timestamp description w
        = (Ret false, with_error w ("Warning: Invalid " +:+ description +:+ ": "
                                    +:+ time_str)))
     ∧ (fromtimestamp_str timestamp = None →
        valid_timestamp timestamp description w = (Raise ValueError, w)))
  ∧ ((MIN_DATE <= MIN_DATE)%Q ∧ ¬ (MIN_DATE <= MIN_DATE - 1)%Q)
  ∧ ((now <= MAX_DATE)%Q ∧ ¬ (now + inject_Z (8 * 86400) <= MAX_DATE)%Q)
  ∧ ((MIN_DATE <= now)%Q → in_window MIN_DATE ∧ in_window now)
  ∧ ¬ in_window (MIN_DATE - 1)
  ∧ ¬ in_window (now + inject_Z (8 * 86400))
  ∧ (∀ a path f,
       fs w !! path = Some f →
       filename_time NAME_FORMATS (basename path) = Ret (Some timestamp) →
       float_truthy timestamp = true → ¬ in_window timestamp →
       loop_body a path w
       = match fromtimestamp_str timestamp with
         | Some time_str =>
             (Continue, with_error w (invalid_msg "filename timestamp" time_str))
         | None => (Raise ValueError, w)
         end)
  ∧ (∀ a path f t0 time_str dt,
       fs w !! path = Some f →
       filename_time NAME_FORMATS (basename path) = Ret t0 → truthy t0 = false →
       exifread = true → exif_DateTimeOriginal f = Some time_str →
       String.length time_str = 19%nat → components_valid time_str dt →
       mktime dt = Some timestamp →
       float_truthy timestamp = true → ¬ in_window timestamp →
       loop_body a path w
       = match fromtimestamp_str timestamp with
         | Some time_str =>
             (Continue,
              with_error (with_open w path) (invalid_msg "EXIF timestamp" time_str))
         | None => (Raise ValueError, with_open w path)
         end)
  ∧ (∀ a path f g t,
       fs w !! path = Some f →
       filename_time NAME_FORMATS (basename path) = Ret (Some t) →
       in_window t →
       fs w !! basename path = Some g → timestamp = st_mtime g → ¬ in_window timestamp →
       loop_body a path w
       = match fromtimestamp_str timestamp with
         | Some time_str => (Continue, with_error w (invalid_msg "date modified" time_str))
         | None => (Raise ValueError, w)
         end)
  ∧ (∀ a path rest,
       images a = path :: rest →
       (loop_body a path w).1 = Raise ValueError →
       (main a w).1 = Raise ValueError ∧ (main a w).2 = (loop_body a path w).2).
Proof.
  assert (Hmin : (MIN_DATE == inject_Z 788936400)%Q) by reflexivity.
  assert (Hmax : (MAX_DATE == now + inject_Z 604800)%Q) by reflexivity.
  change (inject_Z 788936400) with 788936400%Q in Hmin.
  change (inject_Z 604800) with 604800%Q in Hmax.
  split; [reflexivity |].
  split; [reflexivity |].
  split; [reflexivity |].
  split; [apply valid_timestamp_in |].
  split.
  { intros Hw. split; [intros time_str; apply valid_timestamp_out, Hw |].
    apply valid_timestamp_raise, Hw. }
  split; [split; [lra | intros H; lra] |].
  split; [split; [lra | intros H; change (inject_Z (8 * 86400)) with 691200%Q in H; lra] |].
  split; [intros Hnow; split; split; lra |].
  split; [intros [H _]; lra |].
  split; [intros [_ H]; change (inject_Z (8 * 86400)) with 691200%Q in H; lra |].
  split; [|split; [|split]].
  - intros a path f Hf Hn Ht Hw. rewrite loop_body_outcome.
    rewrite <- evaluate_outcome, (evaluate_filename_invalid path w f _ Hf Hn Ht Hw).
    unfold rejected. destruct (fromtimestamp_str timestamp); reflexivity.
  - intros a path f t0 time_str dt Hf Hn Ht0 Hx He Hl Hc Hm Ht Hw.
    rewrite loop_body_outcome.
    rewrite <- evaluate_outcome,
      (evaluate_exif_time path w f t0 time_str dt _ Hf Hn Ht0 Hx He Hl Hc Hm).
    unfold checked. rewrite Ht. rewrite bool_decide_eq_false_2 by assumption.
    unfold rejected. destruct (fromtimestamp_str timestamp); reflexivity.
  - intros a path f g t Hf Hn Hw Hg -> Hm. pose proof (in_window_truthy t Hw) as Ht.
    rewrite loop_body_outcome.
    rewrite <- evaluate_outcome, (evaluate_filename_valid path w f t Hf Hn Ht Hw).
    unfold finish. rewrite Hg. rewrite bool_decide_eq_false_2 by assumption.
    unfold rejected. destruct (fromtimestamp_str (st_mtime g)); reflexivity.
  - intros a path rest Hi Hr. unfold main. rewrite Hi. simpl.
    destruct (loop_body a path w) as [[[]| |e] w1]; simpl in *; try discriminate.
    injection Hr as ->. auto.
Qed.

(** ** Report and correction *)

Lemma correct_none (a : args) (path : string) (tm : Q * Q) (w : world) :
  discrepancy a tm.1 tm.2 = false → correct a path tm w = (Ret (), w).
Proof. intros H. unfold correct. rewrite H. reflexivity. Qed.

Lemma correct_simulated (a : args) (path : string) (tm : Q * Q) (w : world) :
  discrepancy a tm.1 tm.2 = true → no_edit a = true →
  correct a path tm w
  = (Ret (), with_print w (report (basename path) (time_diff tm.1 tm.2))).
Proof. intros H Hn. unfold correct. rewrite H, Hn. reflexivity. Qed.

Lemma correct_performed (a : args) (path : string) (tm : Q * Q) (w : world) (f : file) :
  discrepancy a tm.1 tm.2 = true → no_edit a = false → fs w !! path = Some f →
  correct a path tm w
  = (Ret (), with_utime (with_print w (report (basename path) (time_diff tm.1 tm.2)))
                        path tm.1 f).
Proof.
  intros H Hn Hf. unfold correct. rewrite H, Hn. cbn [negb].
  rewrite (bind_Ret _ _ w (with_print w (report (basename path) (time_diff tm.1 tm.2))) ())
    by reflexivity.
  unfold utime. cbn [fs with_print]. rewrite Hf. reflexivity.
Qed.

Lemma correct_preserves_opened (a : args) (path : string) (tm : Q * Q) :
  preserves opened (correct a path tm).
Proof. preserves_tac. Qed.

(** The metadata is read only after the file name gave nothing usable. *)
Lemma loop_body_opened (a : args) (path : string) (w : world) :
  opened (loop_body a path w).2 ≠ opened w →
  exifread = true ∧ is_Some (fs w !! path)
  ∧ ∃ t0, filename_time NAME_FORMATS (basename path) = Ret t0 ∧ truthy t0 = false.
Proof.
  intros H. destruct (fs w !! path) as [f|] eqn:Hf.
  2: { rewrite (loop_body_Continue a path w w (evaluate_missing path w Hf)) in H. done. }
  destruct (filename_time NAME_FORMATS (basename path)) as [t0| |e] eqn:Hn.
  - destruct (truthy t0) eqn:Ht0.
    + exfalso. apply H. destruct t0 as [t|]; [|discriminate]. simpl in Ht0.
      rewrite loop_body_split.
      rewrite (bind_at _ _ _ _ (evaluate_filename_time path w f t Hf Hn Ht0)).
      apply preserves_bind; [preserves_tac | apply correct_preserves_opened].
    + destruct exifread eqn:Hx; [eauto |].
      exfalso. apply H. rewrite loop_body_split.
      pose proof (evaluate_no_filename_time path w f t0 Hf Hn Ht0) as He.
      rewrite (bind_at _ _ _ _ He). rewrite Hx.
      apply preserves_bind; [preserves_tac | apply correct_preserves_opened].
  - rewrite (loop_body_Continue a path w w (evaluate_filename_continue path w f Hf Hn)) in H.
    done.
  - rewrite (loop_body_Raise a path w w e (evaluate_filename_raises path w f e Hf Hn)) in H.
    done.
Qed.

Lemma loop_body_simulated (a : args) (path : string) :
  no_edit a = true → preserves mtimes (loop_body a path).
Proof.
  intros Hn w. rewrite loop_body_split. revert w.
  apply preserves_bind; [apply evaluate_preserves_mtimes |].
  intros tm. unfold correct. rewrite Hn. cbn [negb]. preserves_tac.
Qed.

(** The files after the loop body up to the comparison: as they were, or as
    the read of the metadata left them. *)
Lemma outcome_fs (path : string) (w : world) :
  fs (outcome path w).2 = fs w ∨ fs (outcome path w).2 = fs (with_open w path).
Proof.
  unfold outcome, from_exif, checked, finish, rejected, no_time.
  repeat case_match; simpl; auto.
Qed.

Lemma outcome_preserves_mtimes (path : string) (w : world) :
  mtimes (outcome path w).2 = mtimes w.
Proof. rewrite <- evaluate_outcome. apply evaluate_preserves_mtimes. Qed.

Lemma outcome_preserves_stdout (path : string) (w : world) :
  stdout (outcome path w).2 = stdout w.
Proof. rewrite <- evaluate_outcome. apply evaluate_preserves_stdout. Qed.

Lemma outcome_Ret_exists (path : string) (w w1 : world) (tm : Q * Q) :
  outcome path w = (Ret tm, w1) → ∃ f1, fs w1 !! path = Some f1.
Proof.
  intros E. pose proof (outcome_preserves_mtimes path w) as Hm. rewrite E in Hm.
  simpl in Hm. rewrite <- evaluate_outcome in E.
  destruct (evaluate_Ret_exists path w w1 tm E) as [f Hf].
  destruct (mtimes_lookup_Some w w1 path f Hm Hf) as (f1 & Hf1 & _). eauto.
Qed.

Lemma discrepancy_set_no_edit (b : bool) (a : args) (title_time mod_time : Q) :
  discrepancy (set_no_edit b a) title_time mod_time = discrepancy a title_time mod_time.
Proof. reflexivity. Qed.

Lemma for_each_preserves {X} (proj : world → X) (body : string → M unit) (l : list string) :
  (∀ x, preserves proj (body x)) → ∀ w, proj (for_each body l w).2 = proj w.
Proof.
  intros Hb. induction l as [|x l IH]; intros w; [reflexivity |].
  simpl. specialize (Hb x w). destruct (body x w) as [[[]| |e] w1]; simpl in *.
  - rewrite IH. exact Hb.
  - rewrite IH. exact Hb.
  - exact Hb.
Qed.

(** C3 (the program differs). The modification time that is validated and
    compared is read from the bare file name, not from the path given: with
    no file of that name in the working directory the run ends in [OSError],
    and with one there its time is the one compared. *)
Theorem C3_mtime_read_from_bare_name (a : args) (path : string) (w : world) (f : file) (t : Q) :
  fs w !! path = Some f →
  filename_time NAME_FORMATS (basename path) = Ret (Some t) →
  in_window t →
  (fs w !! basename path = None →
     loop_body a path w = (Raise OSError, w)
     ∧ ∀ rest, images a = path :: rest → main a w = (Raise OSError, w))
  ∧ (∀ g, fs w !! basename path = Some g → in_window (st_mtime g) →
       loop_body a path w = correct a path (t, st_mtime g) w).
Proof.
  intros Hf Hn Hw. pose proof (in_window_truthy t Hw) as Ht.
  pose proof (evaluate_filename_valid path w f t Hf Hn Ht Hw) as He.
  unfold finish in He. split.
  - intros Hb. rewrite Hb in He.
    assert (Hl : loop_body a path w = (Raise OSError, w)) by apply loop_body_Raise, He.
    split; [exact Hl |].
    intros rest Hi. unfold main. rewrite Hi. simpl. rewrite Hl. reflexivity.
  - intros g Hb Hm. rewrite Hb, bool_decide_eq_true_2 in He by assumption.
    apply loop_body_Ret, He.
Qed.

(** C6. Metadata is read only when the file name gave no usable time, and
    after the file name was tried. For a file whose name gives a valid time
    the metadata is not read and the only change ever made to the files sets
    the times of the path to the time of the name; with a valid modification
    time that differs enough, that correction is made, whatever the metadata
    says. *)
Theorem C6_filename_before_metadata (a : args) (path : string) (w : world) :
  (opened (loop_body a path w).2 ≠ opened w →
     ∃ t0, filename_time NAME_FORMATS (basename path) = Ret t0 ∧ truthy t0 = false)
  ∧ (∀ f e,
       fs w !! path = Some f →
       filename_time NAME_FORMATS (basename path) = Raise e →
       loop_body a path w = (Raise e, w))
  ∧ (∀ f t,
       fs w !! path = Some f →
       filename_time NAME_FORMATS (basename path) = Ret (Some t) →
       in_window t →
       opened (loop_body a path w).2 = opened w
       ∧ (fs (loop_body a path w).2 = fs w
          ∨ fs (loop_body a path w).2
            = <[path := mk_file t t (exif_DateTimeOriginal f)]> (fs w)))
  ∧ (∀ f g t,
       fs w !! path = Some f →
       filename_time NAME_FORMATS (basename path) = Ret (Some t) →
       in_window t →
       fs w !! basename path = Some g → in_window (st_mtime g) →
       loop_body a path w = correct a path (t, st_mtime g) w
       ∧ opened (loop_body a path w).2 = opened w
       ∧ (discrepancy a t (st_mtime g) = true → no_edit a = false →
          loop_body a path w
          = (Ret (), with_utime (with_print w (report (basename path)
                                                 (time_diff t (st_mtime g))))
                                path t f))).
Proof.
  split; [|split; [|split]].
  - intros H. apply loop_body_opened in H as (_ & _ & H). exact H.
  - intros f e Hf Hn. apply loop_body_Raise, evaluate_filename_raises with f; assumption.
  - intros f t Hf Hn Hw. pose proof (in_window_truthy t Hw) as Ht.
    pose proof (evaluate_filename_valid path w f t Hf Hn Ht Hw) as He.
    unfold finish, rejected in He.
    destruct (fs w !! basename path) as [g|].
    + case_bool_decide.
      * rewrite (loop_body_Ret a path w w _ He). split; [apply correct_preserves_opened |].
        destruct (discrepancy a t (st_mtime g)) eqn:Hd;
          [destruct (no_edit a) eqn:Hne |].
        -- rewrite correct_simulated by assumption. left. reflexivity.
        -- rewrite (correct_performed a path (t, st_mtime g) w f) by assumption.
           right. reflexivity.
        -- rewrite correct_none by assumption. left. reflexivity.
      * destruct (fromtimestamp_str (st_mtime g)).
        -- rewrite (loop_body_Continue a path w _ He).
           split; [reflexivity | left; reflexivity].
        -- rewrite (loop_body_Raise a path w _ _ He).
           split; [reflexivity | left; reflexivity].
    + rewrite (loop_body_Raise a path w _ _ He). split; [reflexivity | left; reflexivity].
  - intros f g t Hf Hn Hw Hb Hm. pose proof (in_window_truthy t Hw) as Ht.
    assert (Hl : loop_body a path w = correct a path (t, st_mtime g) w).
    { apply loop_body_Ret. rewrite (evaluate_filename_valid path w f t) by assumption.
      unfold finish. rewrite Hb, bool_decide_eq_true_2 by assumption. reflexivity. }
    split; [exact Hl |]. split.
    + rewrite Hl. apply correct_preserves_opened.
    + intros Hd He. rewrite Hl. apply correct_performed; assumption.
Qed.

Lemma with_utime_exif (w : world) (path : string) (t : Q) (f f' : file) :
  exif_DateTimeOriginal f' = exif_DateTimeOriginal f →
  with_utime w path t f' = with_utime w path t f.
Proof. intros H. unfold with_utime. rewrite H. reflexivity. Qed.

(** One turn with and without the simulation flag. *)
Lemma loop_body_flag (a : args) (path : string) (w : world) :
  (loop_body (set_no_edit false a) path w = loop_body (set_no_edit true a) path w
   ∧ stdout (loop_body (set_no_edit true a) path w).2 = stdout w)
  ∨ (∃ t m w1 f1,
       stdout w1 = stdout w ∧ mtimes w1 = mtimes w ∧ fs w1 !! path = Some f1
       ∧ discrepancy a t m = true
       ∧ loop_body (set_no_edit true a) path w
         = (Ret (), with_print w1 (report (basename path) (time_diff t m)))
       ∧ loop_body (set_no_edit false a) path w
         = (Ret (), with_utime (with_print w1 (report (basename path) (time_diff t m)))
                               path t f1)).
Proof.
  rewrite !loop_body_outcome.
  pose proof (outcome_preserves_mtimes path w) as Hm.
  pose proof (outcome_preserves_stdout path w) as Hout.
  destruct (outcome path w) as [[[t m]| |e] w1] eqn:E; simpl in Hm, Hout.
  - destruct (outcome_Ret_exists path w w1 (t, m) E) as [f1 Hf1].
    destruct (discrepancy a t m) eqn:D.
    + right. exists t, m, w1, f1. do 4 (split; [done |]). split.
      * apply correct_simulated; done.
      * apply correct_performed; done.
    + left. rewrite !correct_none by done. done.
  - left. done.
  - left. done.
Qed.

(** C8. When a correction is warranted the report line is printed, the same
    with and without the simulation flag; without the flag the access and
    modification times of the path are then set to the true time, and with
    it no modification time changes. When none is warranted the flag makes
    no difference. The two sources of the true time, the file name and the
    metadata, are spelled out. *)
Theorem C8_simulation_flag (a : args) (path : string) (w : world) :
  let sim := loop_body (set_no_edit true a) path w in
  let real := loop_body (set_no_edit false a) path w in
  stdout sim.2 = stdout real.2
  ∧ log sim.2 = log real.2
  ∧ opened sim.2 = opened real.2
  ∧ sim.1 = real.1
  ∧ mtimes sim.2 = mtimes w
  ∧ mtimes (main (set_no_edit true a) w).2 = mtimes w
  ∧ ((real = sim ∧ stdout sim.2 = stdout w)
     ∨ (∃ title_time mod_time w1 f1,
          stdout w1 = stdout w ∧ mtimes w1 = mtimes w ∧ fs w1 !! path = Some f1
          ∧ discrepancy a title_time mod_time = true
          ∧ sim = (Ret (), with_print w1 (report (basename path)
                                            (time_diff title_time mod_time)))
          ∧ real = (Ret (), with_utime (with_print w1 (report (basename path)
                                                         (time_diff title_time mod_time)))
                                       path title_time f1)
          ∧ fs real.2 !! path
            = Some (mk_file title_time title_time (exif_DateTimeOriginal f1))))
  ∧ (∀ f g t,
       fs w !! path = Some f →
       filename_time NAME_FORMATS (basename path) = Ret (Some t) → in_window t →
       fs w !! basename path = Some g → in_window (st_mtime g) →
       discrepancy a t (st_mtime g) = true →
       sim = (Ret (), with_print w (report (basename path) (time_diff t (st_mtime g))))
       ∧ real = (Ret (), with_utime (with_print w (report (basename path)
                                                     (time_diff t (st_mtime g))))
                                    path t f)
       ∧ fs sim.2 = fs w
       ∧ fs real.2 = <[path := mk_file t t (exif_DateTimeOriginal f)]> (fs w))
  ∧ (∀ f g t0 time_str dt t,
       fs w !! path = Some f →
       filename_time NAME_FORMATS (basename path) = Ret t0 → truthy t0 = false →
       exifread = true → exif_DateTimeOriginal f = Some time_str →
       String.length time_str = 19%nat → components_valid time_str dt →
       mktime dt = Some t → in_window t →
       fs w !! basename path = Some g → in_window (st_mtime g) →
       discrepancy a t (st_mtime g) = true →
       sim = (Ret (), with_print (with_open w path)
                        (report (basename path) (time_diff t (st_mtime g))))
       ∧ real = (Ret (), with_utime (with_print (with_open w path)
                                       (report (basename path) (time_diff t (st_mtime g))))
                                    path t f)
       ∧ fs real.2 = <[path := mk_file t t (exif_DateTimeOriginal f)]> (fs (with_open w path))).
Proof.
  intros sim real. subst sim real.
  assert (Hmain : mtimes (main (set_no_edit true a) w).2 = mtimes w).
  { unfold main. apply for_each_preserves. intros x. apply loop_body_simulated. reflexivity. }
  assert (Hsim : mtimes (loop_body (set_no_edit true a) path w).2 = mtimes w)
    by (apply loop_body_simulated; reflexivity).
  assert (Hsame : stdout (loop_body (set_no_edit true a) path w).2
                  = stdout (loop_body (set_no_edit false a) path w).2
                  ∧ log (loop_body (set_no_edit true a) path w).2
                    = log (loop_body (set_no_edit false a) path w).2
                  ∧ opened (loop_body (set_no_edit true a) path w).2
                    = opened (loop_body (set_no_edit false a) path w).2
                  ∧ (loop_body (set_no_edit true a) path w).1
                    = (loop_body (set_no_edit false a) path w).1).
  { destruct (loop_body_flag a path w)
      as [[-> _]|(t & m & w1 & f1 & _ & _ & _ & _ & -> & ->)]; done. }
  destruct Hsame as (H1 & H2 & H3 & H4).
  do 6 (split; [assumption |]).
  split; [|split].
  - destruct (loop_body_flag a path w)
      as [[Heq Hout]|(t & m & w1 & f1 & Hout & Hm & Hf1 & Hd & Hs & Hr)].
    + left. done.
    + right. exists t, m, w1, f1. do 6 (split; [done |]).
      rewrite Hr. simpl. apply lookup_insert_eq.
  - intros f g t Hf Hn Hw Hg Hm Hd. pose proof (in_window_truthy t Hw) as Ht.
    assert (He : outcome path w = (Ret (t, st_mtime g), w)).
    { rewrite <- evaluate_outcome, (evaluate_filename_valid path w f t Hf Hn Ht Hw).
      unfold finish. rewrite Hg, bool_decide_eq_true_2 by assumption. reflexivity. }
    rewrite !loop_body_outcome, He.
    rewrite (correct_simulated (set_no_edit true a) path (t, st_mtime g) w) by done.
    rewrite (correct_performed (set_no_edit false a) path (t, st_mtime g) w f) by done.
    done.
  - intros f g t0 time_str dt t Hf Hn Ht0 Hx He Hl Hc Hmk Hw Hg Hm Hd.
    pose proof (in_window_truthy t Hw) as Ht.
    destruct (mtimes_lookup_Some w (with_open w path) (basename path) g
                (mtimes_with_open w path) Hg) as (g1 & Hg1 & Hgm & _).
    destruct (mtimes_lookup_Some w (with_open w path) path f
                (mtimes_with_open w path) Hf) as (f1 & Hf1 & _ & Hfe).
    assert (Ho : outcome path w = (Ret (t, st_mtime g), with_open w path)).
    { rewrite <- evaluate_outcome,
        (evaluate_exif_time path w f t0 time_str dt t Hf Hn Ht0 Hx He Hl Hc Hmk).
      unfold checked. rewrite Ht, bool_decide_eq_true_2 by assumption.
      unfold finish. rewrite Hg1, Hgm, bool_decide_eq_true_2 by assumption. reflexivity. }
    rewrite !loop_body_outcome, Ho.
    rewrite (correct_simulated (set_no_edit true a) path (t, st_mtime g) _) by done.
    rewrite (correct_performed (set_no_edit false a) path (t, st_mtime g) _ f1) by done.
    cbn [fst snd]. rewrite (with_utime_exif _ path t f f1 Hfe). done.
Qed.

(** C10. The residual after snapping to the nearest hour is at most 1800
    seconds, so with [max_tz_diff] above 1800 no correction is ever due:
    nothing is reported and no modification time is changed; the files are
    as they were or, after a turn that read the metadata, as that read left
    them. *)
Theorem C10_tz_slack_at_most_half_hour (a : args) :
  (∀ title_time mod_time, 0 ≤ tz_diff (time_diff title_time mod_time) ≤ 1800)
  ∧ tz_diff 1800 = 1800
  ∧ (1800 < max_tz_diff a →
     (∀ title_time mod_time, discrepancy a title_time mod_time = false)
     ∧ (∀ path w, (fs (loop_body a path w).2 = fs w
                   ∨ fs (loop_body a path w).2 = fs (with_open w path))
                  ∧ mtimes (loop_body a path w).2 = mtimes w
                  ∧ stdout (loop_body a path w).2 = stdout w)
     ∧ (∀ w, mtimes (main a w).2 = mtimes w ∧ stdout (main a w).2 = stdout w)).
Proof.
  split; [intros; apply tz_diff_bound |].
  split; [vm_compute; reflexivity |].
  intros H.
  assert (Hd : ∀ t m, discrepancy a t m = false)
    by (intros; apply discrepancy_large_tz; exact H).
  assert (Hbody : ∀ path w, (fs (loop_body a path w).2 = fs w
                             ∨ fs (loop_body a path w).2 = fs (with_open w path))
                            ∧ mtimes (loop_body a path w).2 = mtimes w
                            ∧ stdout (loop_body a path w).2 = stdout w).
  { intros path w. rewrite loop_body_outcome.
    pose proof (outcome_fs path w) as Hfs.
    pose proof (outcome_preserves_mtimes path w) as Hm.
    pose proof (outcome_preserves_stdout path w) as Hout.
    destruct (outcome path w) as [[[t m]| |e] w1] eqn:E; simpl in Hfs, Hm, Hout.
    - rewrite correct_none by apply Hd. done.
    - done.
    - done. }
  split; [exact Hd |]. split; [exact Hbody |].
  intros w. unfold main. split.
  - apply for_each_preserves. intros x w'. apply Hbody.
  - apply for_each_preserves. intros x w'. apply Hbody.
Qed.

(** ** The name formats *)

Lemma is_digit_cases (c : ascii) :
  is_digit c = true →
  c ∈ ["0"; "1"; "2"; "3"; "4"; "5"; "6"; "7"; "8"; "9"]%char.
Proof.
  destruct c as [[] [] [] [] [] [] [] []]; intros H; try discriminate H;
    repeat (first [left | right]).
Qed.

Lemma two_digit_int (g : string) :
  two_digit g → ∃ v, py_int g = Some v ∧ 0 ≤ v ≤ 99.
Proof.
  intros (c1 & c2 & -> & H1 & H2).
  apply is_digit_cases in H1. apply is_digit_cases in H2.
  repeat (apply elem_of_cons in H1 as [->|H1]);
    try (apply elem_of_nil in H1; contradiction);
  repeat (apply elem_of_cons in H2 as [->|H2]);
    try (apply elem_of_nil in H2; contradiction);
  (eexists; split; [vm_compute; reflexivity | lia]).
Qed.

Lemma year_20xx_int (g : string) :
  year_20xx g → ∃ v, py_int g = Some v ∧ 2000 ≤ v ≤ 2099.
Proof.
  intros (c1 & c2 & -> & H1 & H2).
  apply is_digit_cases in H1. apply is_digit_cases in H2.
  repeat (apply elem_of_cons in H1 as [->|H1]);
    try (apply elem_of_nil in H1; contradiction);
  repeat (apply elem_of_cons in H2 as [->|H2]);
    try (apply elem_of_nil in H2; contradiction);
  (eexists; split; [vm_compute; reflexivity | lia]).
Qed.

Lemma rmatch_Cat (r1 r2 : regex) pos s caps k :
  rmatch (Cat r1 r2) pos s caps k
  = rmatch r1 pos s caps (λ pos' s' caps', rmatch r2 pos' s' caps' k).
Proof. reflexivity. Qed.

Lemma match_lit_inv (l : string) pos s pos' s' :
  match_lit l pos s = Some (pos', s') → s = l +:+ s'.
Proof.
  revert pos s. induction l as [|c l IH]; intros pos s H; simpl in *.
  - injection H as _ ->. reflexivity.
  - destruct s as [|x s]; [discriminate |].
    destruct (Ascii.eqb x c) eqn:E; [|discriminate].
    apply Ascii.eqb_eq in E as ->. apply IH in H as ->. reflexivity.
Qed.

Lemma rmatch_Lit_inv (l : string) pos s caps k g :
  rmatch (Lit l) pos s caps k = Some g →
  ∃ pos' s', s = l +:+ s' ∧ k pos' s' caps = Some g.
Proof.
  simpl. destruct (match_lit l pos s) as [[pos' s']|] eqn:E; [|discriminate].
  intros H. exists pos', s'. split; [eapply match_lit_inv, E | exact H].
Qed.

Lemma rmatch_Alt_inv (r1 r2 : regex) pos s caps k g :
  rmatch (Alt r1 r2) pos s caps k = Some g →
  rmatch r1 pos s caps k = Some g ∨ rmatch r2 pos s caps k = Some g.
Proof. simpl. destruct (rmatch r1 pos s caps k); [left | right]; assumption. Qed.

Lemma substring_0_0 (s : string) : substring 0 0 s = "".
Proof. destruct s; reflexivity. Qed.

Lemma rmatch_d2_inv pos s caps k g :
  rmatch d2 pos s caps k = Some g →
  ∃ pos' grp s', two_digit grp ∧ s = grp +:+ s' ∧ k pos' s' (caps ++ [grp]) = Some g.
Proof.
  unfold d2. simpl. destruct s as [|c1 [|c2 s']]; try discriminate.
  - destruct (is_digit c1); discriminate.
  - destruct (is_digit c1) eqn:H1; [|discriminate].
    destruct (is_digit c2) eqn:H2; [|discriminate].
    replace (S (S pos) - pos)%nat with 2%nat by lia. simpl. rewrite substring_0_0.
    intros H. exists (S (S pos)), (String c1 (String c2 "")), s'.
    split; [exists c1, c2; auto | split; [reflexivity | exact H]].
Qed.

Lemma rmatch_y4_inv pos s caps k g :
  rmatch y4 pos s caps k = Some g →
  ∃ pos' grp s', year_20xx grp ∧ s = grp +:+ s' ∧ k pos' s' (caps ++ [grp]) = Some g.
Proof.
  unfold y4. simpl. destruct s as [|a [|b [|c1 [|c2 s']]]]; try discriminate.
  - destruct (Ascii.eqb a "2"); discriminate.
  - destruct (Ascii.eqb a "2"); [destruct (Ascii.eqb b "0")|]; discriminate.
  - destruct (Ascii.eqb a "2"); [destruct (Ascii.eqb b "0")|]; try discriminate.
    destruct (is_digit c1); discriminate.
  - destruct (Ascii.eqb a "2") eqn:Ha; [|discriminate].
    destruct (Ascii.eqb b "0") eqn:Hb; [|discriminate].
    apply Ascii.eqb_eq in Ha as ->. apply Ascii.eqb_eq in Hb as ->.
    destruct (is_digit c1) eqn:H1; [|discriminate].
    destruct (is_digit c2) eqn:H2; [|discriminate].
    replace (S (S (S (S pos))) - pos)%nat with 4%nat by lia. simpl. rewrite substring_0_0.
    intros H. exists (S (S (S (S pos)))), (String "2" (String "0" (String c1 (String c2 "")))), s'.
    split; [exists c1, c2; auto | split; [reflexivity | exact H]].
Qed.

Lemma rmatch_Digits3_inv pos s caps k g :
  rmatch (Digits 3 3) pos s caps k = Some g →
  ∃ pos' s', k pos' s' caps = Some g.
Proof.
  simpl. destruct s as [|c1 [|c2 [|c3 s']]]; try discriminate.
  - destruct (is_digit c1); discriminate.
  - destruct (is_digit c1); [destruct (is_digit c2)|]; discriminate.
  - destruct (is_digit c1); [destruct (is_digit c2); [destruct (is_digit c3)|]|]; try discriminate.
    eauto.
Qed.

Lemma rmatch_Eos_inv pos s caps k g :
  rmatch Eos pos s caps k = Some g → k pos s caps = Some g.
Proof. simpl. destruct (at_end s); [auto | discriminate]. Qed.

Lemma rmatch_Bos_inv pos s caps k g :
  rmatch Bos pos s caps k = Some g → k pos s caps = Some g.
Proof. simpl. destruct (pos =? 0)%nat; [auto | discriminate]. Qed.

Lemma search_from_inv (r : regex) pos s g :
  search_from r pos s = Some g →
  ∃ pos' s', rmatch r pos' s' [] (λ _ _ caps, Some caps) = Some g.
Proof.
  revert pos. induction s as [|c s IH]; intros pos; simpl.
  - destruct (rmatch r pos "" [] _) eqn:E; [|discriminate]. intros [= <-]. eauto.
  - destruct (rmatch r pos (String c s) [] _) eqn:E.
    + intros [= <-]. eauto.
    + apply IH.
Qed.

Ltac rmatch_inv H :=
  repeat
    (cbv beta in H;
     lazymatch type of H with
     | rmatch (Cat _ _) _ _ _ _ = Some _ => rewrite rmatch_Cat in H
     | rmatch Bos _ _ _ _ = Some _ => apply rmatch_Bos_inv in H
     | rmatch Eos _ _ _ _ = Some _ => apply rmatch_Eos_inv in H
     | rmatch (Lit _) _ _ _ _ = Some _ => apply rmatch_Lit_inv in H as (? & ? & _ & H)
     | rmatch (Alt _ _) _ _ _ _ = Some _ => apply rmatch_Alt_inv in H as [H|H]
     | rmatch d2 _ _ _ _ = Some _ => apply rmatch_d2_inv in H as (? & ? & ? & ? & _ & H)
     | rmatch y4 _ _ _ _ = Some _ => apply rmatch_y4_inv in H as (? & ? & ? & ? & _ & H)
     | rmatch (Digits 3 3) _ _ _ _ = Some _ => apply rmatch_Digits3_inv in H as (? & ? & H)
     end).

Lemma name_format_groups (r : regex) (name : string) (groups : list string) :
  r ∈ NAME_FORMATS → re_search r name = Some groups → six_fields groups.
Proof.
  intros Hr H. apply search_from_inv in H as (pos & s & H).
  unfold NAME_FORMATS in Hr.
  repeat (apply elem_of_cons in Hr as [->|Hr]); [..|apply elem_of_nil in Hr; contradiction].
  all: rmatch_inv H.
  all: simpl in H; injection H as <-; unfold six_fields; eauto 20.
Qed.

(** ** The file name extractor *)

Lemma filename_time_no_match (formats : list regex) (name : string) :
  (∀ r, r ∈ formats → re_search r name = None) → filename_time formats name = Ret None.
Proof.
  induction formats as [|r l IH]; intros H; [reflexivity |].
  simpl. rewrite (H r) by left. apply IH. intros r' Hr'. apply H. right. exact Hr'.
Qed.

Lemma filename_time_first_match (pre post : list regex) (r : regex) (name : string)
    (groups : list string) :
  (∀ r', r' ∈ pre → re_search r' name = None) →
  re_search r name = Some groups →
  filename_time (pre ++ r :: post) name
  = match time_of_match groups with
    | Ret t => Ret (Some t)
    | Continue => Continue
    | Raise e => Raise e
    end.
Proof.
  intros Hpre Hr. induction pre as [|r' l IH]; simpl.
  - rewrite Hr. reflexivity.
  - rewrite (Hpre r') by left. apply IH. intros r'' H. apply Hpre. right. exact H.
Qed.

(** On the years of the name formats [time.mktime] does not fail. *)
Lemma time_of_match_fields (g1 g2 g3 g4 g5 g6 : string) (y mo d h mi s : Z) :
  1900 ≤ y →
  py_int g1 = Some y → py_int g2 = Some mo → py_int g3 = Some d →
  py_int g4 = Some h → py_int g5 = Some mi → py_int g6 = Some s →
  time_of_match [g1; g2; g3; g4; g5; g6]
  = match datetime_new y mo d h mi s with
    | Some dt => Ret (local_seconds dt)
    | None => Raise ValueError
    end.
Proof.
  intros Hy H1 H2 H3 H4 H5 H6. unfold time_of_match, group. simpl.
  rewrite H1, H2, H3, H4, H5, H6. simpl.
  destruct (datetime_new y mo d h mi s) as [dt|] eqn:E; [|reflexivity].
  apply datetime_new_Some in E as [_ ->]. simpl.
  rewrite mktime_from_1900 by exact Hy. reflexivity.
Qed.

Lemma datetime_new_valid (y mo d h mi s : Z) :
  calendar_valid y mo d h mi s → datetime_new y mo d h mi s = Some (mk_datetime y mo d h mi s).
Proof. intros H. apply datetime_new_Some. auto. Qed.

Lemma datetime_new_invalid (y mo d h mi s : Z) :
  ¬ calendar_valid y mo d h mi s → datetime_new y mo d h mi s = None.
Proof.
  intros H. destruct (datetime_new y mo d h mi s) as [dt|] eqn:E; [|reflexivity].
  apply datetime_new_Some in E as [E _]. contradiction.
Qed.

Lemma six_fields_int (groups : list string) :
  six_fields groups →
  ∃ g1 g2 g3 g4 g5 g6 y mo d h mi s,
    groups = [g1; g2; g3; g4; g5; g6]
    ∧ py_int g1 = Some y ∧ py_int g2 = Some mo ∧ py_int g3 = Some d
    ∧ py_int g4 = Some h ∧ py_int g5 = Some mi ∧ py_int g6 = Some s
    ∧ 2000 ≤ y ≤ 2099 ∧ 0 ≤ mo ≤ 99 ∧ 0 ≤ d ≤ 99
    ∧ 0 ≤ h ≤ 99 ∧ 0 ≤ mi ≤ 99 ∧ 0 ≤ s ≤ 99.
Proof.
  intros (g1 & g2 & g3 & g4 & g5 & g6 & -> & H1 & H2 & H3 & H4 & H5 & H6).
  apply year_20xx_int in H1 as (y & Hy & ?).
  apply two_digit_int in H2 as (mo & Hmo & ?).
  apply two_digit_int in H3 as (d & Hd & ?).
  apply two_digit_int in H4 as (h & Hh & ?).
  apply two_digit_int in H5 as (mi & Hmi & ?).
  apply two_digit_int in H6 as (se & Hse & ?).
  exists g1, g2, g3, g4, g5, g6, y, mo, d, h, mi, se. auto 20.
Qed.

Lemma name_format_year (pre post : list regex) (r : regex) (name : string)
    (g1 g2 g3 g4 g5 g6 : string) (y : Z) :
  NAME_FORMATS = pre ++ r :: post →
  re_search r name = Some [g1; g2; g3; g4; g5; g6] → py_int g1 = Some y →
  2000 ≤ y ≤ 2099.
Proof.
  intros Hl Hr H1.
  assert (Hin : r ∈ NAME_FORMATS) by (rewrite Hl; apply elem_of_app; right; left).
  pose proof (name_format_groups r name _ Hin Hr) as Hsix.
  apply six_fields_int in Hsix
    as (g1' & g2' & g3' & g4' & g5' & g6' & y' & mo & d & h & mi & se & Heq & H1' & _ & _ & _
        & _ & _ & Hy & _).
  injection Heq as <- _ _ _ _ _. congruence.
Qed.

(** C5 (as amended). The name formats are tried in order; the first that
    matches, when its fields form a calendar date and time, gives the time
    whose six fields are the integers of its six groups, read as local time
    (the UTC reading less the local offset, which is what [time.mktime]
    gives from the year 1900 on); if none matches there is no time. The groups of a match are always six runs of digits, so the fields
    always exist. [IMG_20140310_153045.jpg] gives
    2014-03-10 15:30:45. *)
Theorem C5_filename_time_extractor (name : string) :
  ((∀ r, r ∈ NAME_FORMATS → re_search r name = None) →
     filename_time NAME_FORMATS name = Ret None)
  ∧ (∀ pre r post g1 g2 g3 g4 g5 g6 y mo d h mi s,
       NAME_FORMATS = pre ++ r :: post →
       (∀ r', r' ∈ pre → re_search r' name = None) →
       re_search r name = Some [g1; g2; g3; g4; g5; g6] →
       py_int g1 = Some y → py_int g2 = Some mo → py_int g3 = Some d →
       py_int g4 = Some h → py_int g5 = Some mi → py_int g6 = Some s →
       calendar_valid y mo d h mi s →
       filename_time NAME_FORMATS name = Ret (Some (local_seconds (mk_datetime y mo d h mi s))))
  ∧ (∀ r groups,
       r ∈ NAME_FORMATS → re_search r name = Some groups →
       ∃ g1 g2 g3 g4 g5 g6 y mo d h mi s,
         groups = [g1; g2; g3; g4; g5; g6]
         ∧ py_int g1 = Some y ∧ py_int g2 = Some mo ∧ py_int g3 = Some d
         ∧ py_int g4 = Some h ∧ py_int g5 = Some mi ∧ py_int g6 = Some s
         ∧ 2000 ≤ y ≤ 2099 ∧ 0 ≤ mo ≤ 99 ∧ 0 ≤ d ≤ 99
         ∧ 0 ≤ h ≤ 99 ∧ 0 ≤ mi ≤ 99 ∧ 0 ≤ s ≤ 99)
  ∧ (∀ dt, local_seconds dt = inject_Z (timegm dt - utc_offset dt)
           ∧ (1900 ≤ year dt → mktime dt = Some (local_seconds dt)))
  ∧ filename_time NAME_FORMATS "IMG_20140310_153045.jpg"
    = Ret (Some (local_seconds (mk_datetime 2014 3 10 15 30 45)))
  ∧ timegm (mk_datetime 2014 3 10 15 30 45) = 1394465445.
Proof.
  split; [apply filename_time_no_match |].
  split; [|split].
  - intros pre r post g1 g2 g3 g4 g5 g6 y mo d h mi s Hl Hpre Hr H1 H2 H3 H4 H5 H6 Hv.
    pose proof (name_format_year pre post r name _ _ _ _ _ _ y Hl Hr H1) as Hy.
    rewrite Hl. rewrite (filename_time_first_match pre post r name _ Hpre Hr).
    rewrite (time_of_match_fields _ _ _ _ _ _ y mo d h mi s) by (assumption || lia).
    rewrite (datetime_new_valid _ _ _ _ _ _ Hv). reflexivity.
  - intros r groups Hr H. apply six_fields_int. apply name_format_groups with r name; assumption.
  - split; [intros dt; split; [reflexivity | apply mktime_from_1900] |].
    split; [|vm_compute; reflexivity].
    reflexivity.
Qed.

(** C2 (the program differs). A file name that matches a name format with
    fields that are no calendar date or time raises [ValueError] in the
    loop: the run ends there and the files after it are not looked at. *)
Theorem C2_invalid_fields_raise (a : args) (path : string) (rest : list string) (w : world)
    (f : file) (pre post : list regex) (r : regex) (g1 g2 g3 g4 g5 g6 : string)
    (y mo d h mi s : Z) :
  fs w !! path = Some f →
  NAME_FORMATS = pre ++ r :: post →
  (∀ r', r' ∈ pre → re_search r' (basename path) = None) →
  re_search r (basename path) = Some [g1; g2; g3; g4; g5; g6] →
  py_int g1 = Some y → py_int g2 = Some mo → py_int g3 = Some d →
  py_int g4 = Some h → py_int g5 = Some mi → py_int g6 = Some s →
  ¬ calendar_valid y mo d h mi s →
  filename_time NAME_FORMATS (basename path) = Raise ValueError
  ∧ loop_body a path w = (Raise ValueError, w)
  ∧ (images a = path :: rest → main a w = (Raise ValueError, w)).
Proof.
  intros Hf Hl Hpre Hr H1 H2 H3 H4 H5 H6 Hv.
  assert (Hn : filename_time NAME_FORMATS (basename path) = Raise ValueError).
  { pose proof (name_format_year pre post r _ _ _ _ _ _ _ y Hl Hr H1) as Hy.
    rewrite Hl. rewrite (filename_time_first_match pre post r _ _ Hpre Hr).
    rewrite (time_of_match_fields _ _ _ _ _ _ y mo d h mi s) by (assumption || lia).
    rewrite (datetime_new_invalid _ _ _ _ _ _ Hv). reflexivity. }
  assert (Hb : loop_body a path w = (Raise ValueError, w)).
  { apply loop_body_Raise, evaluate_filename_raises with f; assumption. }
  split; [exact Hn |]. split; [exact Hb |].
  intros Hi. unfold main. rewrite Hi. simpl. rewrite Hb. reflexivity.
Qed.

(** ** No source of time *)

Lemma get_exif_time_None (path : string) (w : world) (f : file) :
  fs w !! path = Some f →
  (get_exif_time path w).1 = Ret None →
  ∃ msg, get_exif_time path w = (Ret None, with_info (with_open w path) msg).
Proof.
  intros Hf H. destruct (exif_DateTimeOriginal f) as [v|] eqn:He.
  - rewrite (get_exif_time_tag path w f v Hf He) in *.
    unfold parse_time_str in *. destruct (negb (String.length v =? 19)%nat).
    + eexists. reflexivity.
    + destruct (parse_fields v) as [dt|]; [|eexists; reflexivity].
      destruct (mktime dt); discriminate.
  - eexists. apply get_exif_time_no_tag with f; assumption.
Qed.

Lemma recognized_spec (name : string) :
  recognized name = true ↔ ∃ r, r ∈ IGNORE_FORMATS ∧ is_Some (re_search r name).
Proof.
  unfold recognized. rewrite existsb_exists. split.
  - intros (r & Hin & H). exists r. split; [apply list_elem_of_In, Hin |].
    apply bool_decide_eq_true in H. exact H.
  - intros (r & Hin & H). exists r. split; [apply list_elem_of_In, Hin |].
    apply bool_decide_eq_true. exact H.
Qed.

Lemma loop_body_no_source (a : args) (path : string) (w : world) (f : file) :
  fs w !! path = Some f →
  filename_time NAME_FORMATS (basename path) = Ret None →
  (exifread = true → (get_exif_time path w).1 = Ret None) →
  (loop_body a path w).1 = Continue
  ∧ fs (loop_body a path w).2 = fs (if exifread then with_open w path else w)
  ∧ stdout (loop_body a path w).2 = stdout w
  ∧ ∃ infos,
      (exifread = true → ∃ msg, infos = [(INFO, msg)])
      ∧ (exifread = false → infos = [])
      ∧ log (loop_body a path w).2
        = log w ++ infos
          ++ (if recognized (basename path) then []
              else [(ERROR, "Unrecognized name format & no EXIF: " +:+ basename path)]).
Proof.
  intros Hf Hn Hx.
  pose proof (evaluate_no_filename_time path w f None Hf Hn eq_refl) as He.
  destruct exifread eqn:Hexif.
  - destruct (get_exif_time_None path w f Hf (Hx eq_refl)) as [msg Hg].
    assert (Hs : (title_time ← get_exif_time path;
                  bad ← and_not_valid title_time "EXIF timestamp";
                  if (bad : bool) then continue else mret title_time) w
                 = (Ret None, with_info (with_open w path) msg)).
    { rewrite (bind_Ret _ _ _ _ _ Hg). reflexivity. }
    rewrite (bind_Ret _ _ _ _ _ Hs) in He. cbn [truthy] in He.
    destruct (recognized (basename path)) eqn:Hrec; cbn [negb] in He.
    + rewrite (loop_body_Continue a path w _ He). simpl.
      repeat split; try done. exists [(INFO, msg)].
      split; [eauto |]. split; [done |].
      rewrite app_nil_r. done.
    + rewrite (loop_body_Continue a path w
                 (with_error (with_info (with_open w path) msg)
                    (unrecognized_msg (basename path)))) by exact He.
      simpl. repeat split; try done. exists [(INFO, msg)].
      split; [eauto |]. split; [done |].
      rewrite <- app_assoc. done.
  - rewrite (bind_Ret _ _ w w None) in He by reflexivity. cbn [truthy] in He.
    destruct (recognized (basename path)) eqn:Hrec; cbn [negb] in He.
    + rewrite (loop_body_Continue a path w _ He). simpl.
      repeat split; try done. exists []. split; [done |].
      split; [done |]. rewrite !app_nil_r. done.
    + rewrite (loop_body_Continue a path w
                 (with_error w (unrecognized_msg (basename path)))) by exact He.
      simpl. repeat split; try done. exists []. split; [done |].
      split; done.
Qed.

Lemma stderr_app (a : args) (w : world) (l : list (Z * string)) (w' : world) :
  log w' = log w ++ l →
  stderr a w' = stderr a w ++ (handler_format <$> filter (λ r, handler_level a ≤ r.1) l).
Proof. intros H. unfold stderr. rewrite H, filter_app, fmap_app. reflexivity. Qed.

(** C9 (as amended). When neither the file name nor the metadata gives a
    time the file is skipped with nothing reported and no modification time
    changed: the files are as they were or, where [exifread] is there, as
    the read of the metadata left them. The only diagnostics are the informational one of the metadata extractor,
    when [exifread] is there, and, unless the name matches an ignore format,
    one error-level diagnostic that the name format is unrecognized and
    there is no EXIF. For a name that matches an ignore format nothing
    reaches standard error below [--verbose]. *)
Theorem C9_no_timestamp_source (a : args) (path : string) (w : world) (f : file) :
  fs w !! path = Some f →
  filename_time NAME_FORMATS (basename path) = Ret None →
  (exifread = true → (get_exif_time path w).1 = Ret None) →
  (recognized (basename path) = true
   ↔ ∃ r, r ∈ IGNORE_FORMATS ∧ is_Some (re_search r (basename path)))
  ∧ (loop_body a path w).1 = Continue
  ∧ fs (loop_body a path w).2 = fs (if exifread then with_open w path else w)
  ∧ mtimes (loop_body a path w).2 = mtimes w
  ∧ stdout (loop_body a path w).2 = stdout w
  ∧ (∃ infos,
      (exifread = true → ∃ msg, infos = [(INFO, msg)])
      ∧ (exifread = false → infos = [])
      ∧ log (loop_body a path w).2
        = log w ++ infos
          ++ (if recognized (basename path) then []
              else [(ERROR, "Unrecognized name format & no EXIF: " +:+ basename path)]))
  ∧ (recognized (basename path) = true → INFO < loglevel a →
     stderr a (loop_body a path w).2 = stderr a w).
Proof.
  intros Hf Hn Hx. split; [apply recognized_spec |].
  destruct (loop_body_no_source a path w f Hf Hn Hx) as (Hr & Hfs & Hout & infos & Hi1 & Hi2 & Hlog).
  split; [exact Hr |]. split; [exact Hfs |]. split.
  { unfold mtimes. rewrite Hfs.
    destruct exifread; [exact (mtimes_with_open w path) | reflexivity]. }
  split; [exact Hout |].
  split; [exists infos; auto |].
  intros Hrec Hlvl. rewrite Hrec, app_nil_r in Hlog.
  rewrite (stderr_app _ _ _ _ Hlog). unfold handler_level.
  destruct exifread.
  - destruct (Hi1 eq_refl) as [msg ->]. rewrite filter_cons_False by (simpl; lia).
    rewrite filter_nil, fmap_nil, app_nil_r. reflexivity.
  - rewrite (Hi2 eq_refl). rewrite filter_nil, fmap_nil, app_nil_r. reflexivity.
Qed.

(** ** Further properties of the comparison *)

(** The residual in closed form: the distance from [d] to the nearest
    multiple of 3600, a tie at half an hour counting as 1800. *)
Lemma tz_diff_mod (d : Z) : tz_diff d = Z.min (d mod 3600) (3600 - d mod 3600).
Proof.
  unfold tz_diff. pose proof (tz_residual d) as H.
  generalize dependent (py_round (inject_Z d / 60 / 60)). intros r H.
  pose proof (Z.div_mod d 3600 ltac:(lia)) as Hd.
  pose proof (Z.mod_pos_bound d 3600 ltac:(lia)) as Hm.
  generalize dependent (d / 3600). generalize dependent (d mod 3600). intros m Hm q Hd.
  lia.
Qed.

Lemma time_diff_sym (t m : Q) : time_diff t m = time_diff m t.
Proof. unfold time_diff. rewrite Qabs_Qminus. reflexivity. Qed.

Lemma time_diff_small (t m : Q) : (Qabs (t - m) < 1 # 2)%Q → time_diff t m = 0.
Proof.
  intros H. pose proof (time_diff_nonneg t m) as Hn.
  pose proof (py_round_bounds (Qabs (t - m))) as [H1 _].
  fold (time_diff t m) in H1.
  assert (Hlt : (inject_Z (time_diff t m) < inject_Z 1)%Q)
    by (change (inject_Z 1) with 1%Q; lra).
  rewrite <- Zlt_Qlt in Hlt. lia.
Qed.

Lemma time_diff_large (t m : Q) : (1 # 2 <= Qabs (t - m))%Q → 1 ≤ time_diff t m.
Proof.
  intros H. unfold time_diff, py_round.
  assert (Hb : Qle_bool 0 (Qabs (t - m)) = true) by (apply Qle_bool_iff, Qabs_nonneg).
  rewrite Hb. apply (Qfloor_resp_le 1). lra.
Qed.

Lemma tz_diff_whole_hours (n : Z) : tz_diff (Z.abs (3600 * n)) = 0.
Proof.
  rewrite tz_diff_mod.
  replace (Z.abs (3600 * n)) with (Z.abs n * 3600) by lia.
  rewrite Z.mod_mul by lia. reflexivity.
Qed.

(** X1. The residual of the time zone test is the distance from the rounded
    difference to the nearest multiple of 3600: the remainder modulo 3600 or
    its complement, whichever is smaller, so that exactly half an hour off a
    whole hour gives 1800. *)
Theorem X1_tz_diff_closed_form (d : Z) :
  tz_diff d = Z.min (d mod 3600) (3600 - d mod 3600).
Proof. apply tz_diff_mod. Qed.

(** X2. When the two times are a whole number of hours apart, in either
    direction, and [max_tz_diff] is positive, no correction is due, however
    large the difference and whatever [max_diff]. *)
Theorem X2_whole_hours_forgiven (a : args) (mod_time : Q) (n : Z) :
  0 < max_tz_diff a →
  discrepancy a (mod_time + inject_Z (3600 * n)) mod_time = false
  ∧ discrepancy a mod_time (mod_time + inject_Z (3600 * n)) = false.
Proof.
  intros H.
  assert (Hd : time_diff (mod_time + inject_Z (3600 * n)) mod_time = Z.abs (3600 * n))
    by apply time_diff_whole.
  split; apply not_true_is_false; rewrite discrepancy_spec.
  - rewrite Hd, tz_diff_whole_hours. lia.
  - rewrite time_diff_sym, Hd, tz_diff_whole_hours. lia.
Qed.

(** X3. [max_tz_diff] of 0 or less turns the time zone allowance off: the
    decision is then [time_diff > max_diff] alone. With [max_diff = 0] as
    well, a correction is due exactly when the times are half a second or
    more apart; with a negative [max_diff], always. *)
Theorem X3_allowance_off (a : args) (title_time mod_time : Q) :
  max_tz_diff a ≤ 0 →
  discrepancy a title_time mod_time = (max_diff a <? time_diff title_time mod_time)
  ∧ (max_diff a = 0 →
     (discrepancy a title_time mod_time = true ↔ (1 # 2 <= Qabs (title_time - mod_time))%Q))
  ∧ (max_diff a < 0 → discrepancy a title_time mod_time = true).
Proof.
  intros Htz.
  assert (He : discrepancy a title_time mod_time
               = (max_diff a <? time_diff title_time mod_time)).
  { unfold discrepancy.
    pose proof (tz_diff_bound (time_diff title_time mod_time)) as Hb.
    replace (max_tz_diff a <=? tz_diff (time_diff title_time mod_time)) with true
      by (symmetry; apply Z.leb_le; lia).
    apply andb_true_r. }
  split; [exact He |]. split.
  - intros H0. rewrite He, H0, Z.ltb_lt. split.
    + intros Hlt. destruct (Qlt_le_dec (Qabs (title_time - mod_time)) (1 # 2)) as [Hs|Hs];
        [|exact Hs].
      apply time_diff_small in Hs. lia.
    + intros Hl. apply time_diff_large in Hl. lia.
  - intros Hneg. rewrite He. apply Z.ltb_lt.
    pose proof (time_diff_nonneg title_time mod_time). lia.
Qed.

(** X4. The decision does not depend on which of the two times is the later
    one, and raising either threshold never turns a file that needed no
    correction into one that needs it. *)
Theorem X4_decision_symmetric_monotone (a a' : args) (title_time mod_time : Q) :
  discrepancy a title_time mod_time = discrepancy a mod_time title_time
  ∧ (max_diff a ≤ max_diff a' → max_tz_diff a ≤ max_tz_diff a' →
     discrepancy a title_time mod_time = false →
     discrepancy a' title_time mod_time = false).
Proof.
  split.
  - unfold discrepancy. rewrite (time_diff_sym title_time mod_time). reflexivity.
  - intros H1 H2 Hd. apply not_true_is_false. intros Hd'.
    apply discrepancy_spec in Hd'.
    assert (discrepancy a title_time mod_time = true)
      by (apply discrepancy_spec; lia).
    congruence.
Qed.

(** ** What reaches the comparison *)

Lemma mtimes_after_read (path : string) (w : world) : mtimes (after_read path w) = mtimes w.
Proof.
  unfold after_read. destruct (reads_metadata path); [apply mtimes_with_open | reflexivity].
Qed.

Lemma fs_with_open_missing (path : string) (w : world) :
  fs w !! path = None → fs (with_open w path) = fs w.
Proof. intros H. unfold with_open. simpl. rewrite H. reflexivity. Qed.

Lemma finish_fs (path : string) (t : Q) (w : world) : fs (finish path t w).2 = fs w.
Proof. unfold finish, rejected. repeat case_match; reflexivity. Qed.

Lemma no_time_fs (path : string) (w : world) : fs (no_time path w).2 = fs w.
Proof. unfold no_time. simpl. case_match; reflexivity. Qed.

Lemma checked_fs (path d : string) (t : Q) (w : world) : fs (checked path d t w).2 = fs w.
Proof.
  unfold checked, rejected. repeat case_match; first [apply finish_fs | apply no_time_fs | reflexivity].
Qed.

Lemma from_exif_fs (path : string) (f : file) (w : world) :
  fs (from_exif path f w).2 = fs (with_open w path).
Proof.
  unfold from_exif.
  destruct (exif_DateTimeOriginal f) as [v|];
    [|exact (no_time_fs path (with_info (with_open w path) (no_tag_msg path)))].
  destruct (String.length v =? 19)%nat;
    [|exact (no_time_fs path (with_info (with_open w path) (bad_length_msg v)))].
  destruct (parse_fields v) as [dt|];
    [|exact (no_time_fs path (with_info (with_open w path) (bad_fields_msg v)))].
  destruct (mktime dt); [apply checked_fs | reflexivity].
Qed.

(** The files after the loop body up to the comparison. *)
Lemma outcome_after_read (path : string) (w : world) :
  fs (outcome path w).2 = fs (after_read path w).
Proof.
  unfold outcome, after_read, reads_metadata.
  destruct (fs w !! path) as [f|] eqn:Hf.
  2: { simpl. case_match; [symmetry; apply fs_with_open_missing, Hf | reflexivity]. }
  destruct (filename_time NAME_FORMATS (basename path)) as [[t|]| |e].
  - destruct (float_truthy t); cbn [negb].
    + rewrite andb_false_r. apply checked_fs.
    + rewrite andb_true_r. destruct exifread; [apply from_exif_fs | apply no_time_fs].
  - rewrite andb_true_r. destruct exifread; [apply from_exif_fs | apply no_time_fs].
  - rewrite andb_false_r. reflexivity.
  - rewrite andb_false_r. reflexivity.
Qed.

Lemma checked_Ret_inv (path d : string) (t : Q) (w' w1 : world) (t1 m : Q) :
  checked path d t w' = (Ret (t1, m), w1) →
  in_window t ∧ t1 = t ∧ w1 = w'
  ∧ ∃ g', fs w' !! basename path = Some g' ∧ m = st_mtime g' ∧ in_window m.
Proof.
  unfold checked, finish, rejected, no_time. intros H.
  destruct (float_truthy t); [|discriminate].
  case_bool_decide as Hw; [|destruct (fromtimestamp_str t); discriminate].
  destruct (fs w' !! basename path) as [g'|]; [|discriminate].
  case_bool_decide as Hm; [|destruct (fromtimestamp_str (st_mtime g')); discriminate].
  injection H as <- <- <-. eauto 10.
Qed.

Lemma from_exif_Ret_inv (path : string) (f : file) (w w1 : world) (tm : Q * Q) :
  from_exif path f w = (Ret tm, w1) →
  ∃ v dt t,
    exif_DateTimeOriginal f = Some v ∧ String.length v = 19%nat
    ∧ components_valid v dt ∧ mktime dt = Some t
    ∧ checked path "EXIF timestamp" t (with_open w path) = (Ret tm, w1).
Proof.
  unfold from_exif, no_time. intros H.
  destruct (exif_DateTimeOriginal f) as [v|]; [|discriminate].
  destruct (String.length v =? 19)%nat eqn:Hl; [|discriminate].
  destruct (parse_fields v) as [dt|] eqn:Hp; [|discriminate].
  destruct (mktime dt) as [t|] eqn:Ht; [|discriminate].
  exists v, dt, t. apply Nat.eqb_eq in Hl. apply parse_fields_spec in Hp. auto.
Qed.

(** What holds when the comparison is reached. *)
Lemma outcome_Ret_inv (path : string) (w w1 : world) (t m : Q) :
  outcome path w = (Ret (t, m), w1) →
  ∃ f g, fs w !! path = Some f ∧ fs w !! basename path = Some g ∧ m = st_mtime g
         ∧ in_window t ∧ in_window m ∧ time_source path f t.
Proof.
  intros H. unfold outcome in H.
  destruct (fs w !! path) as [f|] eqn:Hf; [|discriminate].
  assert (Hexif : exifread = true →
            (∃ t0, filename_time NAME_FORMATS (basename path) = Ret t0 ∧ truthy t0 = false) →
            from_exif path f w = (Ret (t, m), w1) →
            ∃ g, fs w !! basename path = Some g ∧ m = st_mtime g
                 ∧ in_window t ∧ in_window m ∧ time_source path f t).
  { intros Hx Hn0 He.
    apply from_exif_Ret_inv in He as (v & dt & t' & Hv & Hl & Hc & Hmk & He).
    apply checked_Ret_inv in He as (Hw & <- & _ & g' & Hg' & -> & Hm).
    pose proof (mtimes_lookup w (with_open w path) (basename path) (mtimes_with_open w path))
      as Hlk.
    rewrite Hg' in Hlk. destruct (fs w !! basename path) as [g|]; [|contradiction].
    destruct Hlk as [Hgm _]. exists g. rewrite <- Hgm.
    do 4 (split; [done |]). right. split; [exact Hx |]. split; [exact Hn0 |].
    exists v, dt. done. }
  destruct (filename_time NAME_FORMATS (basename path)) as [[t'|]| |e] eqn:Hn;
    try discriminate.
  - destruct (float_truthy t') eqn:Ht.
    + apply checked_Ret_inv in H as (Hw & <- & _ & g' & Hg' & -> & Hm).
      exists f, g'. do 5 (split; [done |]). left. exact Hn.
    + destruct exifread eqn:Hx; [|discriminate].
      destruct (Hexif eq_refl ltac:(exists (Some t'); auto) H) as (g & Hrest).
      exists f, g. split; [reflexivity | exact Hrest].
  - destruct exifread eqn:Hx; [|discriminate].
    destruct (Hexif eq_refl ltac:(exists None; auto) H) as (g & Hrest).
    exists f, g. split; [reflexivity | exact Hrest].
Qed.

(** What one turn of the loop does to the files and to the standard output. *)
Lemma loop_body_effect (a : args) (path : string) (w : world) :
  (stdout (loop_body a path w).2 = stdout w
   ∧ fs (loop_body a path w).2 = fs (after_read path w))
  ∨ (∃ t m f g,
       fs w !! path = Some f ∧ fs w !! basename path = Some g ∧ m = st_mtime g
       ∧ in_window t ∧ in_window m ∧ time_source path f t
       ∧ discrepancy a t m = true
       ∧ (loop_body a path w).1 = Ret ()
       ∧ stdout (loop_body a path w).2 = stdout w ++ [report (basename path) (time_diff t m)]
       ∧ fs (loop_body a path w).2
         = if no_edit a then fs (after_read path w)
           else <[path := mk_file t t (exif_DateTimeOriginal f)]> (fs (after_read path w))).
Proof.
  rewrite loop_body_outcome.
  pose proof (outcome_after_read path w) as Hfs.
  pose proof (outcome_preserves_stdout path w) as Hout.
  pose proof (outcome_preserves_mtimes path w) as Hmt.
  destruct (outcome path w) as [[[t m]| |e] w1] eqn:E; simpl in Hfs, Hout, Hmt.
  - destruct (outcome_Ret_inv path w w1 t m E) as (f & g & Hf & Hg & Hm & Hwt & Hwm & Hsrc).
    destruct (discrepancy a t m) eqn:D.
    + right. exists t, m, f, g. do 7 (split; [done |]).
      destruct (no_edit a) eqn:Hne.
      * rewrite (correct_simulated a path (t, m) w1) by done. simpl.
        rewrite Hout, Hfs. done.
      * destruct (mtimes_lookup_Some w w1 path f Hmt Hf) as (f1 & Hf1 & _ & He1).
        rewrite (correct_performed a path (t, m) w1 f1) by done.
        simpl. rewrite Hout, Hfs, He1. done.
    + left. rewrite correct_none by done. done.
  - left. done.
  - left. done.
Qed.

(** ** What a run does to the files *)

Lemma file_step_refl (a : args) (p : string) (f : file) : file_step a p f f.
Proof. split; [reflexivity | left; reflexivity]. Qed.

Lemma file_step_trans (a : args) (p : string) (f1 f2 f3 : file) :
  file_step a p f1 f2 → file_step a p f2 f3 → file_step a p f1 f3.
Proof.
  intros [He12 H12] [He23 H23]. split; [congruence |].
  destruct H23 as [->|[(Hi & Hr & Hm)|(Hi & Hn & Hw & Ha)]].
  - exact H12.
  - destruct H12 as [->|[(_ & _ & Hm')|(_ & Hn & Hw & _)]].
    + right. left. done.
    + right. left. split; [done |]. split; [done | congruence].
    + right. right. rewrite Hm. auto.
  - right. right. done.
Qed.

Lemma times_only_refl (a : args) (w w' : world) : fs w' = fs w → times_only a w w'.
Proof. intros H p. rewrite H. destruct (fs w !! p); [apply file_step_refl | exact I]. Qed.

Lemma times_only_trans (a : args) (w1 w2 w3 : world) :
  times_only a w1 w2 → times_only a w2 w3 → times_only a w1 w3.
Proof.
  intros H12 H23 p. specialize (H12 p). specialize (H23 p).
  destruct (fs w1 !! p) as [f1|], (fs w2 !! p) as [f2|], (fs w3 !! p) as [f3|];
    try done.
  eapply file_step_trans; eassumption.
Qed.

Lemma after_read_times_only (a : args) (path : string) (w : world) :
  path ∈ images a → times_only a w (after_read path w).
Proof.
  intros Hin. unfold after_read.
  destruct (reads_metadata path) eqn:Hr; [|apply times_only_refl; reflexivity].
  intros p. unfold with_open. simpl. destruct (fs w !! path) as [f|] eqn:Hf.
  - destruct (decide (p = path)) as [->|Hp].
    + rewrite Hf, lookup_insert_eq. split; [reflexivity |]. right. left. done.
    + rewrite lookup_insert_ne by done. destruct (fs w !! p); [apply file_step_refl | exact I].
  - destruct (fs w !! p); [apply file_step_refl | exact I].
Qed.

Lemma loop_body_times_only (a : args) (path : string) (w : world) :
  path ∈ images a → times_only a w (loop_body a path w).2.
Proof.
  intros Hin.
  pose proof (after_read_times_only a path w Hin) as Hread.
  destruct (loop_body_effect a path w)
    as [[_ Hfs]|(t & m & f & g & Hf & _ & _ & Hwt & _ & _ & _ & _ & _ & Hfs)].
  - intros p. rewrite Hfs. apply Hread.
  - destruct (no_edit a) eqn:Hne; [intros p; rewrite Hfs; apply Hread |].
    intros p. rewrite Hfs. destruct (decide (p = path)) as [->|Hp].
    + rewrite Hf, lookup_insert_eq. split; [reflexivity |]. right. right. simpl. auto.
    + rewrite lookup_insert_ne by done. apply Hread.
Qed.



(** X6. One turn of the loop either prints nothing and leaves the files as
    they were, but for the access time of the path where its metadata was
    read, or prints exactly one report line; in that case both the true time
    and the modification time read passed the validator, the true time came
    from the file name or, when the name gave none, from the EXIF tag, the
    comparison asked for a correction, and the one further change to the
    files, made unless the run is a simulation, sets the times of the path
    to the true time. *)
Theorem X6_report_only_after_validation (a : args) (path : string) (w : world) :
  (stdout (loop_body a path w).2 = stdout w
   ∧ fs (loop_body a path w).2 = fs (if reads_metadata path then with_open w path else w))
  ∨ (∃ t m f g,
       fs w !! path = Some f ∧ fs w !! basename path = Some g ∧ m = st_mtime g
       ∧ in_window t ∧ in_window m ∧ time_source path f t
       ∧ discrepancy a t m = true
       ∧ (loop_body a path w).1 = Ret ()
       ∧ stdout (loop_body a path w).2 = stdout w ++ [report (basename path) (time_diff t m)]
       ∧ fs (loop_body a path w).2
         = if no_edit a then fs (if reads_metadata path then with_open w path else w)
           else <[path := mk_file t t (exif_DateTimeOriginal f)]>
                  (fs (if reads_metadata path then with_open w path else w))).
Proof. apply loop_body_effect. Qed.

(** ** What a run prints *)

Lemma for_each_stdout (a : args) (l : list string) (w : world) :
  ∃ lines,
    stdout (for_each (loop_body a) l w).2 = stdout w ++ lines
    ∧ (length lines ≤ length l)%nat
    ∧ Forall (λ line, ∃ p d, p ∈ l ∧ max_diff a < d ∧ line = report (basename p) d) lines.
Proof.
  revert w. induction l as [|x l IH]; intros w.
  { exists []. simpl. rewrite app_nil_r. split; [done |]. split; [done | constructor]. }
  simpl.
  assert (Hx : ∃ l1, stdout (loop_body a x w).2 = stdout w ++ l1 ∧ (length l1 ≤ 1)%nat
                     ∧ Forall (λ line, ∃ p d, p ∈ x :: l ∧ max_diff a < d
                                              ∧ line = report (basename p) d) l1).
  { destruct (loop_body_effect a x w)
      as [[Hout _]|(t & m & f & g & _ & _ & _ & _ & _ & _ & Hd & _ & Hout & _)].
    - exists []. rewrite app_nil_r. split; [done |]. split; [simpl; lia | constructor].
    - exists [report (basename x) (time_diff t m)]. split; [done |]. split; [simpl; lia |].
      constructor; [|constructor]. exists x, (time_diff t m).
      split; [left |]. apply discrepancy_spec in Hd. split; [lia | reflexivity]. }
  destruct Hx as (l1 & Hout1 & Hlen1 & Hall1).
  assert (Hrest : ∀ w1, stdout w1 = stdout w ++ l1 →
            ∃ lines, stdout (for_each (loop_body a) l w1).2 = stdout w ++ lines
              ∧ (length lines ≤ S (length l))%nat
              ∧ Forall (λ line, ∃ p d, p ∈ x :: l ∧ max_diff a < d
                                       ∧ line = report (basename p) d) lines).
  { intros w1 Hw1. destruct (IH w1) as (l2 & Hout2 & Hlen2 & Hall2).
    exists (l1 ++ l2). rewrite Hout2, Hw1, app_assoc. split; [done |].
    split; [rewrite length_app; lia |].
    apply Forall_app. split; [exact Hall1 |].
    eapply Forall_impl; [exact Hall2 |].
    intros line (p & d & Hp & Hd & ->). exists p, d. split; [right; exact Hp | done]. }
  destruct (loop_body a x w) as [[[]| |e] w1]; simpl in *.
  - apply Hrest, Hout1.
  - apply Hrest, Hout1.
  - exists l1. split; [done |]. split; [lia | exact Hall1].
Qed.

(** X7. A run only appends to the standard output, at most one line per
    image given, and each line it appends is the report of one of the images,
    with a difference in seconds above [max_diff]. *)
Theorem X7_one_report_line_per_image (a : args) (w : world) :
  ∃ lines,
    stdout (main a w).2 = stdout w ++ lines
    ∧ (length lines ≤ length (images a))%nat
    ∧ Forall (λ line, ∃ p d, p ∈ images a ∧ max_diff a < d
                             ∧ line = report (basename p) d) lines.
Proof. exact (for_each_stdout a (images a) w). Qed.

(** ** What a run logs *)

Lemma grows_nil (L : list (Z * string)) :
  ∃ l, L = L ++ l ∧ Forall (λ r, logged_level r.1) l.
Proof. exists []. rewrite app_nil_r. split; [reflexivity | constructor]. Qed.

Lemma grows_one (L : list (Z * string)) (lvl : Z) (msg : string) :
  logged_level lvl →
  ∃ l, L ++ [(lvl, msg)] = L ++ l ∧ Forall (λ r, logged_level r.1) l.
Proof.
  intros HP. exists [(lvl, msg)].
  split; [reflexivity | constructor; [exact HP | constructor]].
Qed.

Lemma grows_two (L : list (Z * string)) (lvl1 lvl2 : Z) (msg1 msg2 : string) :
  logged_level lvl1 → logged_level lvl2 →
  ∃ l, (L ++ [(lvl1, msg1)]) ++ [(lvl2, msg2)] = L ++ l
       ∧ Forall (λ r, logged_level r.1) l.
Proof.
  intros HP1 HP2. exists [(lvl1, msg1); (lvl2, msg2)].
  rewrite <- app_assoc.
  split; [reflexivity | constructor; [exact HP1 | constructor; [exact HP2 | constructor]]].
Qed.

Ltac by_level := first [left; reflexivity | right; split; [assumption | reflexivity]].

Lemma outcome_log_grows (path : string) (w : world) :
  ∃ l, log (outcome path w).2 = log w ++ l ∧ Forall (λ r, logged_level r.1) l.
Proof.
  unfold outcome, from_exif, checked, finish, rejected, no_time.
  repeat case_match; simpl;
    first [ apply grows_nil
          | apply grows_one; unfold logged_level; by_level
          | apply grows_two; unfold logged_level; by_level ].
Qed.

Lemma correct_preserves_log (a : args) (path : string) (tm : Q * Q) :
  preserves log (correct a path tm).
Proof. preserves_tac. Qed.

Lemma loop_body_log_grows (a : args) (path : string) :
  log_grows logged_level (loop_body a path).
Proof.
  intros w. rewrite loop_body_outcome.
  destruct (outcome_log_grows path w) as (l & Hl & HP).
  destruct (outcome path w) as [[tm| |e] w1]; simpl in *; eauto.
  exists l. rewrite correct_preserves_log. auto.
Qed.

Lemma for_each_log_grows (a : args) (l : list string) :
  log_grows logged_level (for_each (loop_body a) l).
Proof.
  induction l as [|x l IH]; intros w.
  { exists []. simpl. rewrite app_nil_r. split; [reflexivity | constructor]. }
  simpl. destruct (loop_body_log_grows a x w) as (l1 & H1 & HP1).
  destruct (loop_body a x w) as [[[]| |e] w1]; simpl in *; eauto.
  - destruct (IH w1) as (l2 & H2 & HP2). exists (l1 ++ l2).
    rewrite H2, H1, app_assoc. split; [reflexivity | apply Forall_app; auto].
  - destruct (IH w1) as (l2 & H2 & HP2). exists (l1 ++ l2).
    rewrite H2, H1, app_assoc. split; [reflexivity | apply Forall_app; auto].
Qed.

Lemma filter_all {A} (P : A → Prop) `{∀ x, Decision (P x)} (l : list A) :
  Forall P l → filter P l = l.
Proof.
  induction 1 as [|x l Hx _ IH]; [reflexivity |].
  rewrite filter_cons_True by exact Hx. rewrite IH. reflexivity.
Qed.

Lemma filter_none {A} (P : A → Prop) `{∀ x, Decision (P x)} (l : list A) :
  Forall (λ x, ¬ P x) l → filter P l = [].
Proof.
  induction 1 as [|x l Hx _ IH]; [reflexivity |].
  rewrite filter_cons_False by exact Hx. exact IH.
Qed.

Lemma filter_same {A} (P Q : A → Prop) `{∀ x, Decision (P x)} `{∀ x, Decision (Q x)}
    (l : list A) :
  Forall (λ x, P x ↔ Q x) l → filter P l = filter Q l.
Proof.
  induction 1 as [|x l Hx _ IH]; [reflexivity |].
  rewrite !filter_cons, IH.
  destruct (decide (P x)) as [p|p], (decide (Q x)) as [q|q]; try reflexivity; exfalso;
    [apply q, Hx, p | apply p, Hx, q].
Qed.

(** The script is [main] after the warning of a failed import. *)
Lemma script_eq (a : args) (w : world) :
  script a w
  = main a (if exifread then w
            else mk_world (fs w) (stdout w)
                   (log w ++ [(WARNING,
                               "Warning: Need to install exifread for full functionality.")])
                   (opened w)).
Proof. unfold script, import_exifread. destruct exifread; reflexivity. Qed.

(** X8. The script logs at error level, where [exifread] is there also at
    info level, and where it is missing once at warning level, at the
    import. Standard error holds what the handler lets through and, when an
    exception leaves [main], the traceback. Where [exifread] is there the
    handler is the one [main] configures: [--quiet] shows no message,
    [--verbose] without [--quiet] every message, the default the
    error-level ones, each as the bare message. Where [exifread] is missing
    the warning at the import has configured the handler already and the
    flags change nothing: the warning and every error are shown, prefixed
    with level and logger name. In no case do the flags change the result of
    the run, the files or the standard output. *)
Theorem X8_verbosity_flags (a : args) (w : world) :
  ∃ l,
    log (script a w).2
    = log w
      ++ (if exifread then []
          else [(WARNING, "Warning: Need to install exifread for full functionality.")])
      ++ l
    ∧ Forall (λ r, r.1 = ERROR ∨ (exifread = true ∧ r.1 = INFO)) l
    ∧ (exifread = true →
       script_stderr a w
       = stderr a w
         ++ (if quiet a then []
             else if verbose a then l.*2
             else (filter (λ r, r.1 = ERROR) l).*2)
         ++ match (script a w).1 with Raise e => traceback e | _ => [] end)
    ∧ (exifread = false →
       script_stderr a w
       = stderr a w
         ++ ["WARNING:root:Warning: Need to install exifread for full functionality."]
         ++ ((λ r, "ERROR:root:" +:+ r.2) <$> l)
         ++ match (script a w).1 with Raise e => traceback e | _ => [] end)
    ∧ (∀ q v,
         script (mk_args (images a) (no_edit a) q v (max_diff a) (max_tz_diff a)) w
         = script a w).
Proof.
  unfold script_stderr. rewrite script_eq.
  set (w0 := if exifread then w
             else mk_world (fs w) (stdout w)
                    (log w ++ [(WARNING,
                                "Warning: Need to install exifread for full functionality.")])
                    (opened w)).
  destruct (for_each_log_grows a (images a) w0) as (l & Hl & HP).
  fold (main a w0) in Hl. exists l.
  assert (Hlog : log (main a w0).2
                 = log w
                   ++ (if exifread then []
                       else [(WARNING,
                              "Warning: Need to install exifread for full functionality.")])
                   ++ l).
  { rewrite Hl. unfold w0. destruct exifread; simpl; [reflexivity |].
    rewrite <- app_assoc. reflexivity. }
  split; [exact Hlog |]. split; [exact HP |].
  split; [|split].
  - intros Hx. rewrite (stderr_app a w _ _ Hlog). rewrite <- app_assoc. f_equal. f_equal.
    unfold handler_level, handler_format, loglevel. rewrite Hx. cbn [app].
    destruct (quiet a).
    + rewrite filter_none; [reflexivity |].
      eapply Forall_impl; [exact HP |]. intros [lvl msg] [H|[_ H]]; simpl in *; rewrite H;
        unfold CRITICAL, INFO, ERROR; lia.
    + destruct (verbose a).
      * rewrite filter_all; [reflexivity |].
        eapply Forall_impl; [exact HP |]. intros [lvl msg] [H|[_ H]]; simpl in *; rewrite H;
          unfold INFO, ERROR; lia.
      * f_equal. apply filter_same.
        eapply Forall_impl; [exact HP |]. intros [lvl msg] [H|[_ H]]; simpl in *; rewrite H;
          unfold WARNING, INFO, ERROR; lia.
  - intros Hx. rewrite (stderr_app a w _ _ Hlog). rewrite <- !app_assoc. f_equal.
    unfold handler_level, handler_format. rewrite Hx.
    rewrite filter_app, fmap_app. rewrite <- app_assoc. f_equal.
    f_equal. rewrite filter_all.
    + apply Forall_fmap_ext. eapply Forall_impl; [exact HP |].
      intros [lvl msg] [H|[H _]]; [|congruence]. simpl in *. rewrite H. reflexivity.
    + eapply Forall_impl; [exact HP |].
      intros [lvl msg] [H|[H _]]; [|congruence]. simpl in *. rewrite H.
      unfold WARNING, ERROR. lia.
  - intros q v. rewrite script_eq. reflexivity.
Qed.

(** ** How a run can end *)

Lemma time_of_match_six (groups : list string) :
  six_fields groups →
  (∃ t, time_of_match groups = Ret t) ∨ time_of_match groups = Raise ValueError.
Proof.
  intros H. apply six_fields_int in H
    as (g1 & g2 & g3 & g4 & g5 & g6 & y & mo & d & h & mi & se & -> & H1 & H2 & H3 & H4
        & H5 & H6 & Hy & _).
  rewrite (time_of_match_fields _ _ _ _ _ _ y mo d h mi se) by (assumption || lia).
  destruct (datetime_new y mo d h mi se); eauto.
Qed.

Lemma filename_time_formats (l : list regex) (name : string) :
  (∀ r, r ∈ l → r ∈ NAME_FORMATS) →
  filename_time l name = Ret None
  ∨ (∃ t, filename_time l name = Ret (Some t))
  ∨ filename_time l name = Raise ValueError.
Proof.
  induction l as [|r l IH]; intros Hl; [left; reflexivity |].
  simpl. destruct (re_search r name) as [groups|] eqn:Hr.
  - assert (Hsix : six_fields groups).
    { apply name_format_groups with r name; [apply Hl; left | exact Hr]. }
    destruct (time_of_match_six groups Hsix) as [[t ->]| ->]; eauto.
  - apply IH. intros r' Hr'. apply Hl. right. exact Hr'.
Qed.

Lemma filename_time_raises (name : string) (e : exn) :
  filename_time NAME_FORMATS name = Raise e → e = ValueError.
Proof.
  intros H. destruct (filename_time_formats NAME_FORMATS name (λ r Hr, Hr))
    as [H'|[[t H']|H']]; congruence.
Qed.

Lemma finish_Raise_inv (path : string) (t : Q) (w' w1 : world) (e : exn) :
  finish path t w' = (Raise e, w1) →
  (e = OSError ∧ fs w' !! basename path = None)
  ∨ (e = ValueError
     ∧ ∃ g', fs w' !! basename path = Some g' ∧ ¬ in_window (st_mtime g')
             ∧ fromtimestamp_str (st_mtime g') = None).
Proof.
  unfold finish, rejected. intros H.
  destruct (fs w' !! basename path) as [g'|]; [|injection H as <- _; auto].
  case_bool_decide as Hm; [discriminate |].
  destruct (fromtimestamp_str (st_mtime g')) eqn:Hs; [discriminate |].
  injection H as <- _. right. eauto.
Qed.

Lemma checked_Raise_inv (path d : string) (t : Q) (w' w1 : world) (e : exn) :
  checked path d t w' = (Raise e, w1) →
  (e = ValueError ∧ ¬ in_window t ∧ fromtimestamp_str t = None)
  ∨ finish path t w' = (Raise e, w1).
Proof.
  unfold checked, rejected, no_time. intros H.
  destruct (float_truthy t); [|discriminate].
  case_bool_decide as Hw; [right; exact H |].
  destruct (fromtimestamp_str t) eqn:Hs; [discriminate |].
  injection H as <- _. left. auto.
Qed.

Lemma from_exif_Raise_inv (path : string) (f : file) (w w1 : world) (e : exn) :
  from_exif path f w = (Raise e, w1) →
  ∃ v dt,
    exif_DateTimeOriginal f = Some v ∧ String.length v = 19%nat ∧ components_valid v dt
    ∧ ((e = ValueError ∧ mktime dt = None)
       ∨ ∃ t, mktime dt = Some t
              ∧ checked path "EXIF timestamp" t (with_open w path) = (Raise e, w1)).
Proof.
  unfold from_exif, no_time. intros H.
  destruct (exif_DateTimeOriginal f) as [v|]; [|discriminate].
  destruct (String.length v =? 19)%nat eqn:Hl; [|discriminate].
  destruct (parse_fields v) as [dt|] eqn:Hp; [|discriminate].
  exists v, dt. apply Nat.eqb_eq in Hl. apply parse_fields_spec in Hp.
  do 3 (split; [done |]).
  destruct (mktime dt) as [t|]; [right; eauto |].
  injection H as <- _. left. auto.
Qed.

Lemma outcome_Raise (path : string) (w w1 : world) (e : exn) :
  outcome path w = (Raise e, w1) → raise_cause path w e.
Proof.
  intros H. unfold outcome in H.
  destruct (fs w !! path) as [f|] eqn:Hf; [|discriminate].
  exists f. split; [exact Hf |].
  assert (Hfinish : ∀ t w', mtimes w' = mtimes w → finish path t w' = (Raise e, w1) →
            (e = ValueError
             ∧ ∃ t', ¬ in_window t' ∧ fromtimestamp_str t' = None
                     ∧ ∃ g, fs w !! basename path = Some g ∧ t' = st_mtime g)
            ∨ (e = OSError ∧ fs w !! basename path = None)).
  { intros t w' Hm Hfin. pose proof (mtimes_lookup w w' (basename path) Hm) as Hlk.
    apply finish_Raise_inv in Hfin as [[-> Hnone]|(-> & g' & Hg' & Hw & Hs)].
    - right. split; [reflexivity |]. rewrite Hnone in Hlk.
      destruct (fs w !! basename path); [contradiction | reflexivity].
    - left. split; [reflexivity |]. rewrite Hg' in Hlk.
      destruct (fs w !! basename path) as [g|]; [|contradiction].
      destruct Hlk as [Hgm _]. exists (st_mtime g'). do 2 (split; [done |]).
      exists g. auto. }
  assert (Hexif : exifread = true → from_exif path f w = (Raise e, w1) →
            (e = ValueError ∧ exifread = true
             ∧ ∃ v dt, exif_DateTimeOriginal f = Some v ∧ String.length v = 19%nat
                       ∧ components_valid v dt ∧ mktime dt = None)
            ∨ (e = ValueError
               ∧ ∃ t, ¬ in_window t ∧ fromtimestamp_str t = None
                      ∧ ((exifread = true
                          ∧ ∃ v dt, exif_DateTimeOriginal f = Some v
                                    ∧ String.length v = 19%nat
                                    ∧ components_valid v dt ∧ mktime dt = Some t)
                         ∨ (∃ g, fs w !! basename path = Some g ∧ t = st_mtime g)))
            ∨ (e = OSError ∧ fs w !! basename path = None)).
  { intros Hx He.
    apply from_exif_Raise_inv in He as (v & dt & Hv & Hl & Hc & [[-> Hmk]|(t & Hmk & He)]).
    - left. split; [reflexivity |]. split; [exact Hx |]. exists v, dt. done.
    - apply checked_Raise_inv in He as [(-> & Hw & Hs)|He].
      + right. left. split; [reflexivity |]. exists t. do 2 (split; [done |]).
        left. split; [exact Hx |]. exists v, dt. done.
      + destruct (Hfinish t _ (mtimes_with_open w path) He)
          as [(-> & t' & Hw & Hs & Hg)|Hos].
        * right. left. split; [reflexivity |]. exists t'. do 2 (split; [done |]).
          right. exact Hg.
        * right. right. exact Hos. }
  destruct (filename_time NAME_FORMATS (basename path)) as [[t|]| |e'] eqn:Hn.
  - destruct (float_truthy t) eqn:Ht.
    + apply checked_Raise_inv in H as [(-> & Hw & Hs)|H].
      * right. right. left. split; [reflexivity |]. exists t. do 2 (split; [done |]).
        left. reflexivity.
      * destruct (Hfinish t w eq_refl H) as [(-> & t' & Hw & Hs & Hg)|Hos].
        -- right. right. left. split; [reflexivity |]. exists t'.
           do 2 (split; [done |]). right. right. exact Hg.
        -- right. right. right. exact Hos.
    + destruct exifread eqn:Hx; [|discriminate].
      destruct (Hexif eq_refl H) as [H1|[(-> & t' & Hw & Hs & [H2|H2])|H3]].
      * right. left. exact H1.
      * right. right. left. split; [reflexivity |]. exists t'. do 2 (split; [done |]).
        right. left. exact H2.
      * right. right. left. split; [reflexivity |]. exists t'. do 2 (split; [done |]).
        right. right. exact H2.
      * right. right. right. exact H3.
  - destruct exifread eqn:Hx; [|discriminate].
    destruct (Hexif eq_refl H) as [H1|[(-> & t' & Hw & Hs & [H2|H2])|H3]].
    + right. left. exact H1.
    + right. right. left. split; [reflexivity |]. exists t'. do 2 (split; [done |]).
      right. left. exact H2.
    + right. right. left. split; [reflexivity |]. exists t'. do 2 (split; [done |]).
      right. right. exact H2.
    + right. right. right. exact H3.
  - discriminate.
  - injection H as <- _. left. pose proof (filename_time_raises _ _ Hn) as ->. auto.
Qed.

Lemma correct_no_raise (a : args) (path : string) (tm : Q * Q) (w : world) :
  is_Some (fs w !! path) → (correct a path tm w).1 = Ret ().
Proof.
  intros [f Hf]. destruct (discrepancy a tm.1 tm.2) eqn:Hd.
  - destruct (no_edit a) eqn:Hn.
    + rewrite correct_simulated by assumption. reflexivity.
    + rewrite (correct_performed a path tm w f) by assumption. reflexivity.
  - rewrite correct_none by assumption. reflexivity.
Qed.

Lemma loop_body_not_Continue_or_cause (a : args) (path : string) (w : world) (e : exn) :
  (loop_body a path w).1 = Raise e → raise_cause path w e.
Proof.
  rewrite loop_body_outcome. intros H.
  destruct (outcome path w) as [[tm| |e'] w1] eqn:E; simpl in *.
  - destruct (outcome_Ret_exists path w w1 tm E) as [f1 Hf1].
    rewrite correct_no_raise in H by eauto. discriminate.
  - discriminate.
  - injection H as ->. apply (outcome_Raise path w w1 e E).
Qed.

Lemma times_only_lookup (a : args) (w w' : world) (p : string) :
  times_only a w w' → (is_Some (fs w' !! p) ↔ is_Some (fs w !! p)).
Proof.
  intros H. specialize (H p).
  destruct (fs w !! p), (fs w' !! p); try done; split; intros [? ?]; eauto; discriminate.
Qed.

(** A cause in a later state of the run is one in its first state: the run
    changes no tag, and a modification time it has set is inside the
    window. *)
Lemma raise_cause_initial (a : args) (w0 w : world) (p : string) (e : exn) :
  times_only a w0 w → raise_cause p w e → raise_cause p w0 e.
Proof.
  intros Hw (f & Hf & Hc).
  pose proof (Hw p) as Hp. rewrite Hf in Hp.
  destruct (fs w0 !! p) as [f0|] eqn:Hf0; [|contradiction].
  destruct Hp as [He _]. exists f0. split; [exact Hf0 |]. rewrite <- He.
  pose proof (Hw (basename p)) as Hb.
  destruct Hc as [Hc|[Hc|[(-> & t & Hwt & Hs & Hc)|(-> & Hnone)]]].
  - left. exact Hc.
  - right. left. exact Hc.
  - right. right. left. split; [reflexivity |]. exists t. do 2 (split; [done |]).
    destruct Hc as [Hc|[Hc|(g & Hg & ->)]]; [left; exact Hc | right; left; exact Hc |].
    right. right. rewrite Hg in Hb.
    destruct (fs w0 !! basename p) as [g0|]; [|contradiction].
    exists g0. split; [reflexivity |].
    destruct Hb as [_ [->|[(_ & _ & Hm)|(_ & _ & Hin & _)]]];
      [reflexivity | exact Hm | contradiction].
  - right. right. right. split; [reflexivity |]. rewrite Hnone in Hb.
    destruct (fs w0 !! basename p); [contradiction | reflexivity].
Qed.

Lemma for_each_Raise_inv (a : args) (l : list string) (w0 w : world) (e : exn) :
  (∀ p, p ∈ l → p ∈ images a) →
  times_only a w0 w →
  (for_each (loop_body a) l w).1 = Raise e →
  ∃ p, p ∈ l ∧ raise_cause p w0 e.
Proof.
  revert w. induction l as [|x l IH]; intros w Hl Hw H; [discriminate |].
  simpl in H.
  pose proof (loop_body_times_only a x w (Hl x ltac:(left))) as Hx.
  assert (Hl' : ∀ p, p ∈ l → p ∈ images a) by (intros p Hp; apply Hl; right; exact Hp).
  assert (Hrest : ∀ w1, times_only a w w1 →
            (for_each (loop_body a) l w1).1 = Raise e →
            ∃ p, p ∈ x :: l ∧ raise_cause p w0 e).
  { intros w1 Hw1 H1.
    destruct (IH w1 Hl' (times_only_trans a w0 w w1 Hw Hw1) H1) as (p & Hp & Hrest).
    exists p. split; [right; exact Hp | exact Hrest]. }
  destruct (loop_body a x w) as [[[]| |e'] w1] eqn:E; simpl in *.
  - apply (Hrest w1 Hx H).
  - apply (Hrest w1 Hx H).
  - injection H as ->.
    assert (E1 : (loop_body a x w).1 = Raise e) by (rewrite E; reflexivity).
    apply loop_body_not_Continue_or_cause in E1.
    exists x. split; [left |]. apply (raise_cause_initial a w0 w x e Hw E1).
Qed.

Lemma for_each_not_Continue (a : args) (l : list string) (w : world) :
  (for_each (loop_body a) l w).1 ≠ Continue.
Proof.
  revert w. induction l as [|x l IH]; intros w E; [discriminate |].
  simpl in E. destruct (loop_body a x w) as [[[]| |e'] w1]; simpl in E;
    [apply (IH w1 E) | apply (IH w1 E) | discriminate].
Qed.

(** X9. A run ends normally or with an exception, and an exception that
    leaves it is one of four, each from an image that is given and exists:
    a [ValueError] because the name matches a format with fields that are no
    date; a [ValueError] because [time.mktime] refuses the year of the
    metadata time, a year from 100 to 1899; a [ValueError] because a time
    the validator rejects, from the name, from the metadata or the
    modification time, is one [datetime.datetime.fromtimestamp] cannot
    format; an [OSError] because the bare name of the image is no file of
    the working directory. No [IndexError] and no [IOError] leaves a run. A
    run over images of which none has such a name, such a metadata year or
    such a time to format, and each is a file under its bare name as well,
    ends normally. *)
Theorem X9_exceptions_leaving_a_run (a : args) (w : world) :
  ((main a w).1 = Ret () ∨ ∃ e, (main a w).1 = Raise e)
  ∧ (∀ e, (main a w).1 = Raise e →
       ∃ p f, p ∈ images a ∧ fs w !! p = Some f
         ∧ ((e = ValueError ∧ filename_time NAME_FORMATS (basename p) = Raise ValueError)
            ∨ (e = ValueError ∧ exifread = true
               ∧ ∃ v dt, exif_DateTimeOriginal f = Some v ∧ String.length v = 19%nat
                         ∧ components_valid v dt ∧ 100 ≤ year dt < 1900)
            ∨ (e = ValueError
               ∧ ∃ t, ¬ in_window t ∧ fromtimestamp_str t = None
                      ∧ (filename_time NAME_FORMATS (basename p) = Ret (Some t)
                         ∨ (exifread = true
                            ∧ ∃ v dt, exif_DateTimeOriginal f = Some v
                                      ∧ String.length v = 19%nat
                                      ∧ components_valid v dt ∧ mktime dt = Some t)
                         ∨ (∃ g, fs w !! basename p = Some g ∧ t = st_mtime g)))
            ∨ (e = OSError ∧ fs w !! basename p = None)))
  ∧ ((∀ p f, p ∈ images a → fs w !! p = Some f →
        filename_time NAME_FORMATS (basename p) ≠ Raise ValueError
        ∧ is_Some (fs w !! basename p)
        ∧ (exifread = true →
           ∀ v dt, exif_DateTimeOriginal f = Some v → components_valid v dt →
                   ¬ 100 ≤ year dt < 1900)
        ∧ (∀ t, filename_time NAME_FORMATS (basename p) = Ret (Some t)
                ∨ (∃ v dt, exif_DateTimeOriginal f = Some v ∧ components_valid v dt
                           ∧ mktime dt = Some t)
                ∨ (∃ g, fs w !! basename p = Some g ∧ t = st_mtime g) →
                ¬ in_window t → is_Some (fromtimestamp_str t))) →
     (main a w).1 = Ret ()).
Proof.
  assert (Hraise : ∀ e, (main a w).1 = Raise e →
            ∃ p f, p ∈ images a ∧ fs w !! p = Some f
              ∧ ((e = ValueError
                  ∧ filename_time NAME_FORMATS (basename p) = Raise ValueError)
                 ∨ (e = ValueError ∧ exifread = true
                    ∧ ∃ v dt, exif_DateTimeOriginal f = Some v ∧ String.length v = 19%nat
                              ∧ components_valid v dt ∧ 100 ≤ year dt < 1900)
                 ∨ (e = ValueError
                    ∧ ∃ t, ¬ in_window t ∧ fromtimestamp_str t = None
                           ∧ (filename_time NAME_FORMATS (basename p) = Ret (Some t)
                              ∨ (exifread = true
                                 ∧ ∃ v dt, exif_DateTimeOriginal f = Some v
                                           ∧ String.length v = 19%nat
                                           ∧ components_valid v dt ∧ mktime dt = Some t)
                              ∨ (∃ g, fs w !! basename p = Some g ∧ t = st_mtime g)))
                 ∨ (e = OSError ∧ fs w !! basename p = None))).
  { intros e H.
    destruct (for_each_Raise_inv a (images a) w w e (λ p Hp, Hp)
                (times_only_refl a w w eq_refl) H) as (p & Hp & f & Hf & Hc).
    exists p, f. do 2 (split; [done |]).
    destruct Hc as [Hc|[(He & Hx & v & dt & Hv & Hl & Hc & Hmk)|[Hc|Hc]]]; auto.
    right. left. split; [exact He |]. split; [exact Hx |]. exists v, dt.
    do 3 (split; [done |]).
    apply mktime_None in Hmk as [Hneg|Hy]; [|exact Hy].
    destruct Hc as (_ & _ & _ & _ & _ & _ & Hcal). unfold calendar_valid, MINYEAR in Hcal.
    lia. }
  split; [|split; [exact Hraise |]].
  - destruct (main a w).1 as [[]| |e] eqn:E; [left; reflexivity | | right; eauto].
    exfalso. apply (for_each_not_Continue a (images a) w E).
  - intros Hok.
    destruct (main a w).1 as [[]| |e] eqn:E; [reflexivity | |].
    + exfalso. apply (for_each_not_Continue a (images a) w E).
    + exfalso.
      destruct (Hraise e eq_refl) as (p & f & Hp & Hf & Hc).
      destruct (Hok p f Hp Hf) as (Hname & [g Hg] & Hyear & Hstr).
      destruct Hc as [(_ & Hc)|[(_ & Hx & v & dt & Hv & _ & Hc & Hy)
                               |[(_ & t & Hw & Hs & Hsrc)|(_ & Hnone)]]].
      * contradiction.
      * apply (Hyear Hx v dt Hv Hc Hy).
      * assert (Hsome : is_Some (fromtimestamp_str t)).
        { apply Hstr; [|exact Hw].
          destruct Hsrc as [Hsrc|[(_ & v & dt & Hv & _ & Hc & Hmk)|Hsrc]];
            [left; exact Hsrc | right; left; exists v, dt; done | right; right; exact Hsrc]. }
        destruct Hsome as [? ?]. congruence.
      * congruence.
Qed.

(** ** Which files a run reads *)

Lemma outcome_opened (path : string) (w : world) :
  opened (outcome path w).2 = opened w
  ∨ (opened (outcome path w).2 = opened w ++ [path]
     ∧ exifread = true ∧ is_Some (fs w !! path)
     ∧ ∃ t0, filename_time NAME_FORMATS (basename path) = Ret t0 ∧ truthy t0 = false).
Proof.
  unfold outcome, from_exif, checked, finish, rejected, no_time.
  destruct (fs w !! path) as [f|] eqn:Hf; [|left; reflexivity].
  destruct (filename_time NAME_FORMATS (basename path)) as [[t|]| |e] eqn:Hn;
    [| |left; reflexivity..].
  - destruct (float_truthy t) eqn:Ht.
    + left. repeat case_match; reflexivity.
    + destruct exifread eqn:Hx; [|left; repeat case_match; reflexivity].
      right. split; [repeat case_match; reflexivity |].
      split; [reflexivity |]. split; [eauto |]. exists (Some t). auto.
  - destruct exifread eqn:Hx; [|left; repeat case_match; reflexivity].
    right. split; [repeat case_match; reflexivity |].
    split; [reflexivity |]. split; [eauto |]. exists None. auto.
Qed.

Lemma loop_body_opened_step (a : args) (path : string) (w : world) :
  opened (loop_body a path w).2 = opened w
  ∨ (opened (loop_body a path w).2 = opened w ++ [path]
     ∧ exifread = true ∧ is_Some (fs w !! path)
     ∧ ∃ t0, filename_time NAME_FORMATS (basename path) = Ret t0 ∧ truthy t0 = false).
Proof.
  rewrite loop_body_outcome. pose proof (outcome_opened path w) as H.
  destruct (outcome path w) as [[tm| |e] w1]; simpl in *; try exact H.
  rewrite correct_preserves_opened. exact H.
Qed.

Lemma for_each_opened (a : args) (l : list string) (w0 w : world) :
  (∀ p, p ∈ l → p ∈ images a) →
  times_only a w0 w →
  ∃ read,
    opened (for_each (loop_body a) l w).2 = opened w ++ read
    ∧ (length read ≤ length l)%nat
    ∧ Forall (λ p, exifread = true ∧ p ∈ l ∧ is_Some (fs w0 !! p)
                   ∧ ∃ t0, filename_time NAME_FORMATS (basename p) = Ret t0
                           ∧ truthy t0 = false) read.
Proof.
  revert w. induction l as [|x l IH]; intros w Hl Hw.
  { exists []. simpl. rewrite app_nil_r. split; [done |]. split; [done | constructor]. }
  simpl.
  pose proof (loop_body_times_only a x w (Hl x ltac:(left))) as Hx.
  assert (Hl' : ∀ p, p ∈ l → p ∈ images a) by (intros p Hp; apply Hl; right; exact Hp).
  assert (H1 : ∃ r1, opened (loop_body a x w).2 = opened w ++ r1 ∧ (length r1 ≤ 1)%nat
                 ∧ Forall (λ p, exifread = true ∧ p ∈ x :: l ∧ is_Some (fs w0 !! p)
                                ∧ ∃ t0, filename_time NAME_FORMATS (basename p) = Ret t0
                                        ∧ truthy t0 = false) r1).
  { destruct (loop_body_opened_step a x w) as [H|(H & Hexif & Hex & Hn)].
    - exists []. rewrite app_nil_r. split; [exact H |]. split; [simpl; lia | constructor].
    - exists [x]. split; [exact H |]. split; [simpl; lia |].
      constructor; [|constructor]. split; [exact Hexif |]. split; [left |].
      split; [apply (times_only_lookup a w0 w x Hw), Hex | exact Hn]. }
  destruct H1 as (r1 & Ho1 & Hlen1 & Hall1).
  assert (Hrest : ∀ w1, times_only a w w1 → opened w1 = opened w ++ r1 →
            ∃ read, opened (for_each (loop_body a) l w1).2 = opened w ++ read
              ∧ (length read ≤ S (length l))%nat
              ∧ Forall (λ p, exifread = true ∧ p ∈ x :: l ∧ is_Some (fs w0 !! p)
                             ∧ ∃ t0, filename_time NAME_FORMATS (basename p) = Ret t0
                                     ∧ truthy t0 = false) read).
  { intros w1 Hw1 Ho.
    destruct (IH w1 Hl' (times_only_trans a w0 w w1 Hw Hw1)) as (r2 & Ho2 & Hlen2 & Hall2).
    exists (r1 ++ r2). rewrite Ho2, Ho, app_assoc. split; [done |].
    split; [rewrite length_app; lia |].
    apply Forall_app. split; [exact Hall1 |].
    eapply Forall_impl; [exact Hall2 |].
    intros p (H1 & H2 & H3). split; [exact H1 |]. split; [right; exact H2 | exact H3]. }
  destruct (loop_body a x w) as [[[]| |e] w1]; simpl in *.
  - apply Hrest; assumption.
  - apply Hrest; assumption.
  - exists r1. split; [done |]. split; [lia | exact Hall1].
Qed.

(** X10. A run opens files only to read their metadata: each file opened is
    one of the images given, exists, and has a name that gave no time, and
    it is opened at most once per mention among the images, in their order;
    where [exifread] is missing no file is opened at all. *)
Theorem X10_files_read_by_a_run (a : args) (w : world) :
  ∃ read,
    opened (main a w).2 = opened w ++ read
    ∧ (length read ≤ length (images a))%nat
    ∧ (exifread = false → read = [])
    ∧ Forall (λ p, p ∈ images a ∧ is_Some (fs w !! p)
                   ∧ ∃ t0, filename_time NAME_FORMATS (basename p) = Ret t0
                           ∧ truthy t0 = false) read.
Proof.
  destruct (for_each_opened a (images a) w w (λ p Hp, Hp) (times_only_refl a w w eq_refl))
    as (read & Ho & Hlen & Hall).
  exists read. split; [exact Ho |]. split; [exact Hlen |]. split.
  - intros Hx. destruct Hall as [|p read' (Hp & _) _]; [reflexivity | congruence].
  - eapply Forall_impl; [exact Hall |]. intros p (_ & H). exact H.
Qed.

(** ** The times a file name can give *)

Lemma days_in_month_bounds (y m : Z) : 28 ≤ days_in_month y m ≤ 31.
Proof. unfold days_in_month. repeat case_match; lia. Qed.

Lemma days_before_month_go_nonneg (y : Z) (m : nat) : 0 ≤ days_before_month_go y m.
Proof.
  induction m as [|m IH]; simpl; [lia |].
  pose proof (days_in_month_bounds y (Z.of_nat (S m))). lia.
Qed.

Lemma days_before_year_mono (y y' : Z) : y ≤ y' → days_before_year y ≤ days_before_year y'.
Proof.
  intros H. unfold days_before_year. cbv zeta.
  assert (H4 : (y - 1) / 4 ≤ (y' - 1) / 4) by (apply Z.div_le_mono; lia).
  assert (H400 : (y - 1) / 400 ≤ (y' - 1) / 400) by (apply Z.div_le_mono; lia).
  assert (H100 : (y' - 1) / 100 - (y - 1) / 100 ≤ y' - y).
  { pose proof (Z.div_mod (y - 1) 100 ltac:(lia)) as E.
    pose proof (Z.mod_pos_bound (y - 1) 100 ltac:(lia)) as B.
    pose proof (Z.div_mod (y' - 1) 100 ltac:(lia)) as E'.
    pose proof (Z.mod_pos_bound (y' - 1) 100 ltac:(lia)) as B'.
    revert E B E' B'.
    generalize ((y - 1) / 100) ((y - 1) mod 100) ((y' - 1) / 100) ((y' - 1) mod 100).
    intros. lia. }
  revert H4 H400 H100.
  generalize ((y - 1) / 4) ((y - 1) / 100) ((y - 1) / 400)
             ((y' - 1) / 4) ((y' - 1) / 100) ((y' - 1) / 400).
  intros. lia.
Qed.

Lemma timegm_from_2000 (y mo d h mi s : Z) :
  calendar_valid y mo d h mi s → 2000 ≤ y →
  946684800 ≤ timegm (mk_datetime y mo d h mi s).
Proof.
  intros (_ & _ & Hd & Hh & Hmi & Hs) Hy. unfold timegm, toordinal, days_before_month. simpl.
  pose proof (days_before_year_mono 2000 y Hy) as H1.
  change (days_before_year 2000) with 730119 in H1.
  pose proof (days_before_month_go_nonneg y (Z.to_nat (mo - 1))) as H2.
  unfold EPOCH_ORDINAL. lia.
Qed.

Lemma filename_time_Some_inv (l : list regex) (name : string) (t : Q) :
  (∀ r, r ∈ l → r ∈ NAME_FORMATS) →
  filename_time l name = Ret (Some t) →
  ∃ y mo d h mi s,
    2000 ≤ y ≤ 2099 ∧ calendar_valid y mo d h mi s
    ∧ t = local_seconds (mk_datetime y mo d h mi s).
Proof.
  induction l as [|r l IH]; intros Hl H; [discriminate |].
  simpl in H. destruct (re_search r name) as [groups|] eqn:Hr.
  - assert (Hsix : six_fields groups).
    { apply name_format_groups with r name; [apply Hl; left | exact Hr]. }
    apply six_fields_int in Hsix
      as (g1 & g2 & g3 & g4 & g5 & g6 & y & mo & d & h & mi & se & -> & H1 & H2 & H3 & H4
          & H5 & H6 & Hy & _).
    rewrite (time_of_match_fields _ _ _ _ _ _ y mo d h mi se) in H
      by (assumption || lia).
    destruct (datetime_new y mo d h mi se) as [dt|] eqn:E; [|discriminate].
    apply datetime_new_Some in E as [Hv ->]. injection H as <-.
    exists y, mo, d, h, mi, se. auto.
  - apply IH; [|exact H]. intros r' Hr'. apply Hl. right. exact Hr'.
Qed.

(** X11. A time taken from a file name is a calendar time of the years 2000
    to 2099, so its reading as UTC is not before 2000-01-01. In a zone at
    most a day east of UTC such a time is never zero and never below the
    lower bound of the validator: it is rejected only for lying more than a
    week in the future, and an existing file with such a name never has its
    metadata read. *)
Theorem X11_filename_time_after_2000 (name : string) (t : Q) :
  filename_time NAME_FORMATS name = Ret (Some t) →
  (∃ dt, t = local_seconds dt ∧ 2000 ≤ year dt ≤ 2099 ∧ 946684800 ≤ timegm dt)
  ∧ ((∀ dt, utc_offset dt ≤ 86400) →
     (MIN_DATE <= t)%Q ∧ float_truthy t = true
     ∧ (in_window t ↔ (t <= MAX_DATE)%Q)
     ∧ ∀ a path w,
         basename path = name → opened (loop_body a path w).2 = opened w).
Proof.
  intros H.
  destruct (filename_time_Some_inv NAME_FORMATS name t (λ r Hr, Hr) H)
    as (y & mo & d & h & mi & s & Hy & Hv & ->).
  pose proof (timegm_from_2000 y mo d h mi s Hv ltac:(lia)) as Hg.
  split; [exists (mk_datetime y mo d h mi s); auto |].
  intros Hoff. specialize (Hoff (mk_datetime y mo d h mi s)).
  assert (Hmin : (MIN_DATE <= local_seconds (mk_datetime y mo d h mi s))%Q).
  { unfold local_seconds, MIN_DATE. rewrite <- Zle_Qle. lia. }
  assert (Ht : float_truthy (local_seconds (mk_datetime y mo d h mi s)) = true).
  { unfold float_truthy. apply negb_true_iff.
    destruct (Qeq_bool (local_seconds (mk_datetime y mo d h mi s)) 0) eqn:E; [|reflexivity].
    apply Qeq_bool_iff in E. unfold local_seconds, Qeq in E.
    cbn [inject_Z Qnum Qden] in E. lia. }
  split; [exact Hmin |]. split; [exact Ht |]. split.
  - unfold in_window. split; [intros [_ Hmax]; exact Hmax | auto].
  - intros a path w <-.
    destruct (decide (opened (loop_body a path w).2 = opened w)) as [Heq|Hne]; [exact Heq |].
    apply loop_body_opened in Hne as (_ & _ & t0 & Hn & Ht0).
    rewrite H in Hn. injection Hn as <-. simpl in Ht0. congruence.
Qed.

(** ** A second pass *)

Lemma time_source_exif (path : string) (f f' : file) (t : Q) :
  exif_DateTimeOriginal f' = exif_DateTimeOriginal f →
  time_source path f t → time_source path f' t.
Proof. intros He. unfold time_source. rewrite He. auto. Qed.

Lemma time_source_functional (path : string) (f : file) (t t' : Q) :
  in_window t → in_window t' → time_source path f t → time_source path f t' → t = t'.
Proof.
  intros Hw Hw' [Hn|(_ & (t0 & Hn & Ht0) & v & dt & Hv & _ & Hc & Hmk)]
         [Hn'|(_ & (t0' & Hn' & Ht0') & v' & dt' & Hv' & _ & Hc' & Hmk')].
  - congruence.
  - rewrite Hn in Hn'. injection Hn' as <-. simpl in Ht0'.
    rewrite (in_window_truthy t Hw) in Ht0'. discriminate.
  - rewrite Hn' in Hn. injection Hn as <-. simpl in Ht0.
    rewrite (in_window_truthy t' Hw') in Ht0. discriminate.
  - rewrite Hv in Hv'. injection Hv' as <-.
    apply parse_fields_spec in Hc, Hc'. congruence.
Qed.

Lemma outcome_of_source (path : string) (w : world) (f : file) (t : Q) :
  fs w !! path = Some f → time_source path f t → in_window t →
  ∃ w', outcome path w = finish path t w' ∧ mtimes w' = mtimes w ∧ stdout w' = stdout w.
Proof.
  intros Hf Hsrc Hw. pose proof (in_window_truthy t Hw) as Ht.
  unfold outcome. rewrite Hf.
  destruct Hsrc as [Hn|(Hx & (t0 & Hn & Ht0) & v & dt & He & Hl & Hc & Hmk)].
  - rewrite Hn, Ht. unfold checked. rewrite Ht.
    rewrite bool_decide_eq_true_2 by exact Hw. exists w. done.
  - rewrite Hn, Hx.
    assert (Hexif : from_exif path f w = finish path t (with_open w path)).
    { unfold from_exif. rewrite He. apply Nat.eqb_eq in Hl. rewrite Hl.
      apply parse_fields_spec in Hc. rewrite Hc, Hmk. unfold checked. rewrite Ht.
      rewrite bool_decide_eq_true_2 by exact Hw. reflexivity. }
    exists (with_open w path). split; [|split; [apply mtimes_with_open | reflexivity]].
    destruct t0 as [t'|]; [|exact Hexif].
    simpl in Ht0. rewrite Ht0. exact Hexif.
Qed.

Lemma loop_body_of_source (a : args) (path : string) (w : world) (f g : file) (t : Q) :
  fs w !! path = Some f → fs w !! basename path = Some g →
  time_source path f t → in_window t → in_window (st_mtime g) →
  discrepancy a t (st_mtime g) = true →
  stdout (loop_body a path w).2
  = stdout w ++ [report (basename path) (time_diff t (st_mtime g))].
Proof.
  intros Hf Hg Hsrc Hwt Hwm Hd.
  destruct (outcome_of_source path w f t Hf Hsrc Hwt) as (w' & Ho & Hmt & Hout).
  destruct (mtimes_lookup_Some w w' (basename path) g Hmt Hg) as (g' & Hg' & Hgm & _).
  destruct (mtimes_lookup_Some w w' path f Hmt Hf) as (f' & Hf' & _).
  rewrite loop_body_outcome, Ho. unfold finish. rewrite Hg', Hgm.
  rewrite bool_decide_eq_true_2 by exact Hwm.
  destruct (no_edit a) eqn:Hne.
  - rewrite correct_simulated by assumption. simpl. rewrite Hout. reflexivity.
  - rewrite (correct_performed a path _ w' f') by assumption. simpl. rewrite Hout.
    reflexivity.
Qed.

Lemma time_diff_same (t : Q) : time_diff t t = 0.
Proof.
  apply time_diff_small.
  assert (H : (t - t == 0)%Q) by ring. rewrite H. reflexivity.
Qed.

(** X12. A pass over an image named without a directory leaves nothing for
    a second pass to correct: after one turn of the loop that is no
    simulation, with a non-negative [max_diff], the same turn again reports
    nothing and changes no modification time and no tag; of the files it
    changes at most the access time of the path, where it reads the
    metadata again. *)
Theorem X12_second_pass_changes_nothing (a : args) (path : string) (w : world) :
  basename path = path → 0 ≤ max_diff a → no_edit a = false →
  stdout (loop_body a path (loop_body a path w).2).2 = stdout (loop_body a path w).2
  ∧ mtimes (loop_body a path (loop_body a path w).2).2 = mtimes (loop_body a path w).2
  ∧ fs (loop_body a path (loop_body a path w).2).2
    = fs (if reads_metadata path then with_open (loop_body a path w).2 path
          else (loop_body a path w).2).
Proof.
  intros Hb Hmax Hne. set (w1 := (loop_body a path w).2).
  destruct (loop_body_effect a path w1)
    as [[Hout Hfs]|(t & m & f & g & Hf & Hg & Hm & Hwt & Hwm & Hsrc & Hd & _)].
  - split; [exact Hout |]. split; [|exact Hfs].
    unfold mtimes at 1. rewrite Hfs. exact (mtimes_after_read path w1).
  - exfalso. rewrite Hb, Hf in Hg. injection Hg as <-. subst m.
    destruct (loop_body_effect a path w)
      as [[Hout0 Hfs0]|(t0 & m0 & f0 & g0 & Hf0 & _ & _ & Hwt0 & _ & Hsrc0 & _ & _ & _ & Hfs0)];
      fold w1 in Hfs0.
    + fold w1 in Hout0.
      assert (Hmt : mtimes w = mtimes w1).
      { unfold mtimes at 2. rewrite Hfs0. symmetry. exact (mtimes_after_read path w). }
      destruct (mtimes_lookup_Some w1 w path f Hmt Hf) as (f0 & Hf0 & Hfm & Hfe).
      assert (Hf0b : fs w !! basename path = Some f0) by (rewrite Hb; exact Hf0).
      pose proof (loop_body_of_source a path w f0 f0 t Hf0 Hf0b
                    (time_source_exif path f f0 t Hfe Hsrc) Hwt
                    ltac:(rewrite Hfm; exact Hwm) ltac:(rewrite Hfm; exact Hd)) as Hrep.
      fold w1 in Hrep. rewrite Hout0 in Hrep.
      apply (f_equal length) in Hrep. rewrite length_app in Hrep. simpl in Hrep. lia.
    + rewrite Hne in Hfs0. rewrite Hfs0, lookup_insert_eq in Hf. injection Hf as <-.
      simpl in Hd, Hwm.
      assert (Ht : t = t0).
      { apply (time_source_functional path f0 t t0 Hwt Hwt0); [|exact Hsrc0].
        apply (time_source_exif path _ f0 t eq_refl Hsrc). }
      subst t0. unfold discrepancy in Hd. rewrite time_diff_same in Hd.
      assert (Hlt : (max_diff a <? 0) = false) by (apply Z.ltb_ge; exact Hmax).
      rewrite Hlt in Hd. discriminate.
Qed.

(** ** The separators of a metadata time *)

Lemma slice_agree (i j : nat) (v v' : string) :
  (∀ k, (i ≤ k < j)%nat → String.get k v = String.get k v') →
  slice i j v = slice i j v'.
Proof.
  intros H. unfold slice. apply get_correct. intros n.
  destruct (lt_dec n (j - i)) as [Hlt|Hge].
  - rewrite !substring_correct1 by exact Hlt. apply H. lia.
  - rewrite !substring_correct2 by lia. reflexivity.
Qed.

(** X13. Of a metadata time string only the length and the six numeric
    fields are looked at: two strings of the same length that differ at most
    in the separator positions 4, 7, 10, 13 and 16 are parsed to the same
    result. *)
Theorem X13_separators_not_checked (v v' : string) (w : world) :
  String.length v = String.length v' →
  (∀ k, k ∉ [4; 7; 10; 13; 16]%nat → String.get k v = String.get k v') →
  parse_fields v = parse_fields v'
  ∧ (parse_time_str v w).1 = (parse_time_str v' w).1.
Proof.
  intros Hlen H.
  assert (Hs : ∀ i j, (∀ k, (i ≤ k < j)%nat → k ∉ [4; 7; 10; 13; 16]%nat) →
                      slice i j v = slice i j v').
  { intros i j Hk. apply slice_agree. intros k Hr. apply H, Hk, Hr. }
  assert (Hp : parse_fields v = parse_fields v').
  { unfold parse_fields.
    rewrite (Hs 0 4)%nat, (Hs 5 7)%nat, (Hs 8 10)%nat, (Hs 11 13)%nat, (Hs 14 16)%nat,
      (Hs 17 19)%nat; [reflexivity |..];
      intros k Hk Hin; repeat (apply elem_of_cons in Hin as [->|Hin]; [lia |]);
      apply elem_of_nil in Hin; exact Hin. }
  split; [exact Hp |].
  unfold parse_time_str. rewrite <- Hlen, <- Hp.
  destruct (negb (String.length v =? 19)%nat); [reflexivity |].
  destruct (parse_fields v) as [dt|]; [|reflexivity].
  destruct (mktime dt); reflexivity.
Qed.

(** ** A metadata time at the epoch *)

Lemma mktime_epoch (dt : datetime) :
  1900 ≤ year dt → timegm dt = utc_offset dt →
  ∃ t, mktime dt = Some t ∧ float_truthy t = false.
Proof.
  intros Hy Hz. exists (local_seconds dt). split; [apply mktime_from_1900, Hy |].
  unfold local_seconds. rewrite Hz, Z.sub_diag. reflexivity.
Qed.

(** X14. A metadata time that is well formed but falls on the epoch itself,
    second zero, counts as no time at all: the validator is not asked, so no
    invalid-time diagnostic is logged although the time lies before the
    lower bound, and the file is skipped as one without name format and
    without EXIF. The metadata was read, so the access time of the file may
    have moved. *)
Theorem X14_metadata_epoch_is_no_time (a : args) (path : string) (w : world) (f : file)
    (t0 : option Q) (v : string) (dt : datetime) (t : Q) :
  fs w !! path = Some f →
  filename_time NAME_FORMATS (basename path) = Ret t0 → truthy t0 = false →
  exifread = true → exif_DateTimeOriginal f = Some v → String.length v = 19%nat →
  components_valid v dt → mktime dt = Some t → float_truthy t = false →
  ¬ in_window t
  ∧ loop_body a path w
    = (Continue,
       if recognized (basename path) then with_open w path
       else with_error (with_open w path) (unrecognized_msg (basename path))).
Proof.
  intros Hf Hn Ht0 Hx He Hl Hc Hmk Hz.
  split.
  - intros Hw. rewrite (in_window_truthy t Hw) in Hz. discriminate.
  - rewrite loop_body_outcome. unfold outcome. rewrite Hf, Hn, Hx.
    assert (Hexif : from_exif path f w = no_time path (with_open w path)).
    { unfold from_exif. rewrite He. apply Nat.eqb_eq in Hl. rewrite Hl.
      apply parse_fields_spec in Hc. rewrite Hc, Hmk. unfold checked. rewrite Hz.
      reflexivity. }
    destruct t0 as [t'|]; [simpl in Ht0; rewrite Ht0 |]; rewrite Hexif; reflexivity.
Qed.

(** ** Paths that are no files *)

Lemma loop_body_domain (a : args) (path : string) (w : world) (p : string) :
  is_Some (fs (loop_body a path w).2 !! p) ↔ is_Some (fs w !! p).
Proof.
  assert (Hread : is_Some (fs (after_read path w) !! p) ↔ is_Some (fs w !! p)).
  { pose proof (mtimes_lookup w (after_read path w) p (mtimes_after_read path w)) as H.
    destruct (fs w !! p), (fs (after_read path w) !! p); try done;
      split; intros [? ?]; eauto; discriminate. }
  destruct (loop_body_effect a path w)
    as [[_ Hfs]|(t & m & f & g & Hf & _ & _ & _ & _ & _ & _ & _ & _ & Hfs)].
  - rewrite Hfs. exact Hread.
  - rewrite Hfs. destruct (no_edit a); [exact Hread |].
    destruct (decide (p = path)) as [->|Hp].
    + rewrite lookup_insert_eq, Hf. split; eauto.
    + rewrite lookup_insert_ne by done. exact Hread.
Qed.

Lemma for_each_existing (a : args) (l : list string) (w0 w : world) :
  (∀ p, is_Some (fs w !! p) ↔ is_Some (fs w0 !! p)) →
  for_each (loop_body a) (filter (λ p, is_Some (fs w0 !! p)) l) w
  = for_each (loop_body a) l w.
Proof.
  revert w. induction l as [|x l IH]; intros w Hdom; [reflexivity |].
  rewrite filter_cons. destruct (decide (is_Some (fs w0 !! x))) as [Hx|Hx].
  - simpl.
    assert (Hdom1 : ∀ p, is_Some (fs (loop_body a x w).2 !! p) ↔ is_Some (fs w0 !! p)).
    { intros p. rewrite loop_body_domain. apply Hdom. }
    destruct (loop_body a x w) as [[[]| |e] w1]; simpl in *;
      [apply IH, Hdom1 | apply IH, Hdom1 | reflexivity].
  - simpl. assert (Hnone : fs w !! x = None).
    { destruct (fs w !! x) eqn:E; [|reflexivity]. exfalso. apply Hx, Hdom. rewrite E. eauto. }
    rewrite (loop_body_Continue a x w w (evaluate_missing x w Hnone)). apply IH, Hdom.
Qed.

(** X15. Paths among the images that are no regular files when the run
    starts are passed over without any trace: the run is the same, in its
    result, files, output and log, as the run over the images that exist. *)
Theorem X15_missing_paths_ignored (a : args) (w : world) :
  main (mk_args (filter (λ p, is_Some (fs w !! p)) (images a))
                (no_edit a) (quiet a) (verbose a) (max_diff a) (max_tz_diff a)) w
  = main a w.
Proof. exact (for_each_existing a (images a) w w (λ p, reflexivity _)). Qed.


End Program.

(** * matrix.py: properties *)

Section MatrixProperties.

Import Matrix.

Lemma draw_char_accepted (height width y x : Z) (char : ascii) :
  0 ≤ y < height → 0 ≤ x < width →
  ∃ k, draw_char height width y x char = Ok k
       ∧ accepted height width k = true ∧ call_char k = char
       ∧ (k = insch y x char ↔ y = height - 1 ∧ x = width - 1).
Proof.
  intros Hy Hx. unfold draw_char.
  assert (H1 : (0 <=? y) = true) by (apply Z.leb_le; lia).
  assert (H2 : (y <? height) = true) by (apply Z.ltb_lt; lia).
  assert (H3 : (0 <=? x) = true) by (apply Z.leb_le; lia).
  assert (H4 : (x <? width) = true) by (apply Z.ltb_lt; lia).
  assert (Hins : accepted height width (insch y x char) = true).
  { cbn [accepted]. rewrite H1, H2, H3, H4. reflexivity. }
  destruct ((y =? height - 1) && (x =? width - 1)) eqn:E; cbv zeta.
  - rewrite Hins. eexists. split; [reflexivity |].
    split; [exact Hins |]. split; [reflexivity |].
    apply andb_true_iff in E as [Ey Ex]. apply Z.eqb_eq in Ey, Ex. split; auto.
  - assert (Hadd : accepted height width (addch y x char) = true).
    { cbn [accepted]. rewrite H1, H2, H3, H4, E. reflexivity. }
    rewrite Hadd. eexists. split; [reflexivity |].
    split; [exact Hadd |]. split; [reflexivity |].
    split; [discriminate |]. intros [Ey Ex].
    apply Z.eqb_eq in Ey, Ex. rewrite Ey, Ex in E. discriminate.
Qed.

Lemma visit_ok (a : args) (height width : Z) (char : ascii) (c : column) :
  on_screen width c → finished height c = false → char_ok a char →
  ∃ calls, visit height width char c = Ok (fall c, calls)
           ∧ Forall (good_call a height width) calls.
Proof.
  intros [Hx Hy] Hf Hc. unfold finished in Hf. rewrite Z.geb_leb in Hf.
  apply Z.leb_gt in Hf. unfold visit.
  assert (H1 : ∃ drawn,
             (if y c <? height then
                k ← draw_char height width (y c) (x c) char; Ok [k]
              else Ok []) = Ok drawn
             ∧ Forall (good_call a height width) drawn).
  { destruct (y c <? height) eqn:E; [|exists []; split; [reflexivity | constructor]].
    apply Z.ltb_lt in E.
    destruct (draw_char_accepted height width (y c) (x c) char ltac:(lia) Hx)
      as (k & -> & Hk & Hch & _).
    exists [k]. split; [reflexivity |]. constructor; [|constructor].
    split; [exact Hk |]. right. rewrite Hch. exact Hc. }
  assert (H2 : ∃ erased,
             (if y c - len c >=? 0 then
                k ← draw_char height width (y c - len c) (x c) " "; Ok [k]
              else Ok []) = Ok erased
             ∧ Forall (good_call a height width) erased).
  { destruct (y c - len c >=? 0) eqn:E; [|exists []; split; [reflexivity | constructor]].
    rewrite Z.geb_leb in E. apply Z.leb_le in E.
    destruct (draw_char_accepted height width (y c - len c) (x c) " " ltac:(lia) Hx)
      as (k & -> & Hk & Hch & _).
    exists [k]. split; [reflexivity |]. constructor; [|constructor].
    split; [exact Hk |]. left. exact Hch. }
  destruct H1 as (drawn & -> & Hd), H2 as (erased & -> & He).
  exists (drawn ++ erased). split; [reflexivity |]. apply Forall_app. auto.
Qed.

(** What the loop over the columns computes. *)
Lemma columns_loop_spec (a : args) (height width : Z) (char : nat → ascii) (i : nat)
    (columns : list column) :
  Forall (on_screen width) columns → (∀ j, char_ok a (char j)) →
  ∃ calls,
    columns_loop height width char i columns
    = Ok (advance height <$> columns, done_indices height i columns, calls)
    ∧ Forall (good_call a height width) calls.
Proof.
  intros Hon Hch. revert i. induction Hon as [|c rest Hc _ IH]; intros i.
  { exists []. split; [reflexivity | constructor]. }
  destruct (IH (S i)) as (calls2 & Hloop & Hcalls2).
  cbn [columns_loop done_indices fmap list_fmap]. unfold advance at 1.
  fold (finished height c). destruct (finished height c) eqn:Hf.
  - rewrite Hloop. exists calls2. split; [reflexivity | exact Hcalls2].
  - destruct (visit_ok a height width (char i) c Hc Hf (Hch i)) as (calls1 & -> & Hcalls1).
    cbn. rewrite Hloop. exists (calls1 ++ calls2).
    split; [reflexivity | apply Forall_app; auto].
Qed.

Lemma delete_all_Forall (P : column → Prop) (done : list nat) (columns columns' : list column) :
  delete_all done columns = Ok columns' → Forall P columns → Forall P columns'.
Proof.
  revert columns. induction done as [|i done IH]; intros columns H HP; simpl in H.
  - injection H as <-. exact HP.
  - destruct (i <? length columns)%nat; [|discriminate].
    apply (IH _ H). apply Forall_delete, HP.
Qed.

Lemma advance_on_screen (height width : Z) (c : column) :
  on_screen width c → on_screen width (advance height c).
Proof.
  intros [Hx Hy]. unfold advance. destruct (finished height c); [split; assumption |].
  split; simpl; lia.
Qed.

Lemma new_column_on_screen (a : args) (width : Z) (d : draws) :
  0 ≤ rand_x d < width → on_screen width (new_column a d).
Proof. intros H. split; simpl; lia. Qed.

Lemma frame_spec (a : args) (height width : Z) (d : draws) (columns : list column) :
  Forall (on_screen width) columns → draws_ok a width d →
  ∃ calls,
    Forall (good_call a height width) calls
    ∧ frame a height width d columns
      = (columns' ← delete_all (done_indices height 0 (columns ++ [new_column a d]))
                               (advance height <$> columns ++ [new_column a d]);
         Ok (columns', calls)).
Proof.
  intros Hon (_ & Hx & Hch).
  assert (Hon1 : Forall (on_screen width) (columns ++ [new_column a d])).
  { apply Forall_app. split; [exact Hon |].
    constructor; [apply new_column_on_screen, Hx | constructor]. }
  destruct (columns_loop_spec a height width (rand_char d) 0 _ Hon1 Hch)
    as (calls & Hloop & Hcalls).
  exists calls. split; [exact Hcalls |]. unfold frame. rewrite Hloop. reflexivity.
Qed.

Lemma frame_safe (a : args) (height width : Z) (d : draws) (columns : list column) :
  Forall (on_screen width) columns → draws_ok a width d →
  frame a height width d columns = Err IndexError
  ∨ ∃ columns' calls,
      frame a height width d columns = Ok (columns', calls)
      ∧ Forall (on_screen width) columns'
      ∧ Forall (good_call a height width) calls.
Proof.
  intros Hon Hd. destruct (frame_spec a height width d columns Hon Hd)
    as (calls & Hcalls & ->).
  destruct (delete_all _ _) as [columns'|e] eqn:E.
  - right. exists columns', calls. split; [reflexivity |]. split; [|exact Hcalls].
    apply (delete_all_Forall _ _ _ _ E). apply Forall_fmap.
    apply Forall_app. split.
    + eapply Forall_impl; [exact Hon |]. intros c. apply advance_on_screen.
    + constructor; [|constructor]. apply advance_on_screen, new_column_on_screen, Hd.
  - left. assert (e = IndexError) as ->; [|reflexivity].
    clear -E. revert E. generalize (advance height <$> columns ++ [new_column a d]).
    induction (done_indices height 0 (columns ++ [new_column a d])) as [|i done IH];
      intros l E; simpl in E; [discriminate |].
    destruct (i <? length l)%nat; [apply (IH _ E) | congruence].
Qed.

(** X16. However long the animation runs, every character is written inside
    the window, and at the lower-right corner with [insch] and not [addch]:
    curses never raises its error. Every call writes a blank or a character
    of the chosen alphabet, and every column stays inside the width of the
    screen. The run ends with an [IndexError] or goes on. *)
Theorem X16_every_call_inside_the_window (a : args) (height width : Z) (ds : list draws)
    (columns : list column) :
  Forall (on_screen width) columns → Forall (draws_ok a width) ds →
  run a height width ds columns = Err IndexError
  ∨ ∃ columns' calls,
      run a height width ds columns = Ok (columns', calls)
      ∧ Forall (on_screen width) columns'
      ∧ Forall (λ k, accepted height width k = true
                     ∧ (call_char k = " "%char ∨ char_ok a (call_char k))) calls.
Proof.
  intros Hon Hds. revert columns Hon.
  induction Hds as [|d ds Hd _ IH]; intros columns Hon.
  { right. exists columns, []. split; [reflexivity |]. split; [exact Hon | constructor]. }
  cbn [run].
  destruct (frame_safe a height width d columns Hon Hd)
    as [->|(columns1 & calls1 & -> & Hon1 & Hcalls1)]; [left; reflexivity |].
  cbn. destruct (IH columns1 Hon1) as [->|(columns2 & calls2 & -> & Hon2 & Hcalls2)];
    [left; reflexivity |].
  right. exists columns2, (calls1 ++ calls2). split; [reflexivity |].
  split; [exact Hon2 |]. apply Forall_app. split; [exact Hcalls1 | exact Hcalls2].
Qed.

(** ** Drops of one length *)

Lemma live_columns (height : Z) (i : nat) (l : list column) :
  Forall (λ c, finished height c = false) l →
  done_indices height i l = []
  ∧ advance height <$> l = fall <$> l
  ∧ filter (λ c, finished height c = false) l = l.
Proof.
  intros H. revert i. induction H as [|c l Hc _ IH]; intros i; [done |].
  destruct (IH (S i)) as (H1 & H2 & H3).
  cbn [done_indices fmap list_fmap]. unfold advance at 1. rewrite Hc.
  split; [exact H1 |]. split.
  - f_equal. exact H2.
  - rewrite filter_cons_True by exact Hc. f_equal. exact H3.
Qed.

Lemma falling_fall (bound L : Z) (l : list column) :
  StronglySorted (λ c c', y c' < y c) l →
  Forall (λ c, 0 ≤ y c < bound ∧ len c = L) l →
  falling bound L (fall <$> l).
Proof.
  intros Hs Hb. split.
  - apply (StronglySorted_fmap fall (λ c c', y c' < y c)); [|exact Hs].
    intros c c'. simpl. lia.
  - apply Forall_fmap. eapply Forall_impl; [exact Hb |].
    intros c [H1 H2]. simpl. split; [lia | exact H2].
Qed.

Lemma falling_length (bound L : Z) (l : list column) :
  0 ≤ bound → falling bound L l → Z.of_nat (length l) ≤ bound.
Proof.
  intros Hpos [Hs Hb].
  assert (H : Z.of_nat (length l) ≤ match l with [] => 0 | c :: _ => y c end).
  { clear Hpos.
    induction Hs as [|c l Hs IH Hc]; [simpl; lia |].
    apply Forall_cons in Hb as [Hbc Hbl]. specialize (IH Hbl).
    destruct l as [|c' l']; [simpl in *; lia |].
    apply Forall_cons in Hc as [Hc _]. simpl length in *. lia. }
  destruct Hb as [|c l' [Hc _] _]; [simpl in *; lia |]. lia.
Qed.

Lemma frame_one_length (a : args) (height width L : Z) (d : draws) (columns : list column) :
  drop_len a = Some L → L ≠ 0 → 0 < height + L →
  Forall (on_screen width) columns → draws_ok a width d →
  falling (height + L) L columns →
  ∃ calls,
    frame a height width d columns
    = Ok (fall <$> filter (λ c, finished height c = false) (columns ++ [new_column a d]),
          calls)
    ∧ falling (height + L) L
        (fall <$> filter (λ c, finished height c = false) (columns ++ [new_column a d])).
Proof.
  intros Ha HL Hpos Hon Hd [Hs Hb].
  destruct (frame_spec a height width d columns Hon Hd) as (calls & _ & ->).
  exists calls.
  assert (Hnew : new_column a d = mk_column (rand_x d) 0 L).
  { unfold new_column. rewrite Ha. apply Z.eqb_neq in HL. rewrite HL. reflexivity. }
  rewrite Hnew. set (new := mk_column (rand_x d) 0 L).
  assert (Hs1 : StronglySorted (λ c c', y c' < y c) (columns ++ [new])).
  { apply StronglySorted_app_2; [|exact Hs | repeat constructor].
    intros c c' Hc ->%list_elem_of_singleton. simpl.
    rewrite Forall_forall in Hb. destruct (Hb c Hc) as [? _]. lia. }
  assert (Hb1 : Forall (λ c, 0 ≤ y c ≤ height + L ∧ len c = L) (columns ++ [new])).
  { apply Forall_app. split.
    - eapply Forall_impl; [exact Hb |]. intros c [? ?]. split; [lia | assumption].
    - constructor; [simpl; split; [lia | reflexivity] | constructor]. }
  destruct (columns ++ [new]) as [|c0 rest] eqn:E.
  { destruct columns; discriminate. }
  apply StronglySorted_inv in Hs1 as [Hsr Hlt].
  apply Forall_cons in Hb1 as [[Hc0 Hl0] Hbr].
  assert (Hrest : Forall (λ c, 0 ≤ y c < height + L ∧ len c = L) rest).
  { rewrite Forall_forall in Hlt, Hbr. apply Forall_forall. intros c Hc.
    specialize (Hlt c Hc). destruct (Hbr c Hc) as [? ?]. split; [lia | assumption]. }
  assert (Hlive : Forall (λ c, finished height c = false) rest).
  { eapply Forall_impl; [exact Hrest |]. intros c [? Hl]. unfold finished.
    rewrite Z.geb_leb, Hl. apply Z.leb_gt. lia. }
  destruct (live_columns height 1 rest Hlive) as (Hdone & Hadv & Hfil).
  cbn [done_indices fmap list_fmap]. unfold advance at 1.
  destruct (finished height c0) eqn:Hf0.
  - rewrite Hdone, Hadv. rewrite filter_cons_False by (rewrite Hf0; discriminate).
    rewrite Hfil. split; [reflexivity |]. apply falling_fall; assumption.
  - rewrite Hdone, Hadv. rewrite filter_cons_True by exact Hf0.
    rewrite Hfil. split; [reflexivity |].
    apply (falling_fall (height + L) L (c0 :: rest)).
    + constructor; assumption.
    + constructor; [|exact Hrest]. unfold finished in Hf0.
      rewrite Z.geb_leb, Hl0 in Hf0. apply Z.leb_gt in Hf0. split; [lia | exact Hl0].
Qed.

(** X17. With a constant drop length the deletion at the end of a turn is
    right: from columns that are each further down than the next, at most
    the first is finished, and the turn leaves exactly the unfinished
    columns, the new one included, each one row further down. *)
Theorem X17_constant_length_turn (a : args) (height width L : Z) (d : draws)
    (columns : list column) :
  drop_len a = Some L → L ≠ 0 → 0 < height + L →
  Forall (on_screen width) columns → draws_ok a width d →
  falling (height + L) L columns →
  ∃ calls,
    frame a height width d columns
    = Ok (fall <$> filter (λ c, finished height c = false) (columns ++ [new_column a d]),
          calls)
    ∧ falling (height + L) L
        (fall <$> filter (λ c, finished height c = false) (columns ++ [new_column a d])).
Proof. apply frame_one_length. Qed.

Lemma run_one_length (a : args) (height width L : Z) (ds : list draws)
    (columns : list column) :
  drop_len a = Some L → L ≠ 0 → 0 < height + L →
  Forall (draws_ok a width) ds →
  Forall (on_screen width) columns → falling (height + L) L columns →
  ∃ columns' calls,
    run a height width ds columns = Ok (columns', calls)
    ∧ Forall (on_screen width) columns' ∧ falling (height + L) L columns'.
Proof.
  intros Ha HL Hpos Hds. revert columns.
  induction Hds as [|d ds Hd Hds IH]; intros columns Hon Hfall.
  { exists columns, []. auto. }
  destruct (frame_one_length a height width L d columns Ha HL Hpos Hon Hd Hfall)
    as (calls1 & Hframe & Hfall1).
  assert (Hon1 : Forall (on_screen width)
            (fall <$> filter (λ c, finished height c = false)
                        (columns ++ [new_column a d]))).
  { destruct (frame_safe a height width d columns Hon Hd)
      as [H|(columns1 & calls & H & Hon1 & _)]; rewrite Hframe in H; [discriminate |].
    injection H as <- _. exact Hon1. }
  destruct (IH _ Hon1 Hfall1) as (columns2 & calls2 & Hrun & Hon2 & Hfall2).
  exists columns2, (calls1 ++ calls2). cbn [run]. rewrite Hframe. cbn.
  rewrite Hrun. auto.
Qed.

(** X18. With a constant drop length [L] the animation runs for any number
    of turns without an exception, and the list of columns never holds more
    than [height + L] of them. *)
Theorem X18_constant_length_run_bounded (a : args) (height width L : Z) (ds : list draws) :
  drop_len a = Some L → L ≠ 0 → 0 < height + L →
  Forall (draws_ok a width) ds →
  ∃ columns calls,
    run a height width ds [] = Ok (columns, calls)
    ∧ Z.of_nat (length columns) ≤ height + L
    ∧ Forall (λ c, len c = L ∧ 1 ≤ y c ≤ height + L) columns.
Proof.
  intros Ha HL Hpos Hds.
  destruct (run_one_length a height width L ds [] Ha HL Hpos Hds)
    as (columns & calls & Hrun & _ & Hfall).
  - constructor.
  - split; constructor.
  - exists columns, calls. split; [exact Hrun |].
    split; [apply (falling_length _ L); [lia | exact Hfall] |].
    destruct Hfall as [_ Hb]. eapply Forall_impl; [exact Hb |]. intros c [? ?]. auto.
Qed.

(** ** Two drops finished in one turn *)

Lemma done_indices_app (height : Z) (i : nat) (l l' : list column) :
  done_indices height i (l ++ l')
  = done_indices height i l ++ done_indices height (i + length l) l'.
Proof.
  revert i. induction l as [|c l IH]; intros i; simpl.
  - rewrite Nat.add_0_r. reflexivity.
  - rewrite IH. replace (S i + length l)%nat with (i + S (length l))%nat by lia.
    destruct (finished height c); reflexivity.
Qed.

(** X19. When two columns are finished in the same turn, as drops of random
    lengths can be, the second deletion goes by an index that the first has
    shifted: the second finished column stays in the list, and the column
    after it, which is still falling, is removed in its place. *)
Theorem X19_second_deletion_removes_a_falling_column (a : args) (height width : Z)
    (d : draws) (columns l1 l2 l3 : list column) (ci cj c : column) :
  Forall (on_screen width) columns → draws_ok a width d →
  columns ++ [new_column a d] = l1 ++ ci :: l2 ++ cj :: c :: l3 →
  finished height ci = true → finished height cj = true →
  Forall (λ c, finished height c = false) l1 →
  Forall (λ c, finished height c = false) l2 →
  Forall (λ c, finished height c = false) (c :: l3) →
  ∃ calls,
    frame a height width d columns
    = Ok ((fall <$> l1) ++ (fall <$> l2) ++ cj :: (fall <$> l3), calls).
Proof.
  intros Hon Hd E Hi Hj H1 H2 H3.
  destruct (frame_spec a height width d columns Hon Hd) as (calls & _ & ->).
  exists calls. rewrite E.
  apply Forall_cons in H3 as [Hc H3].
  assert (Hdone : done_indices height 0 (l1 ++ ci :: l2 ++ cj :: c :: l3)
                  = [length l1; length l1 + S (length l2)]%nat).
  { rewrite done_indices_app, (proj1 (live_columns height 0 l1 H1)).
    cbn [done_indices app]. rewrite Hi.
    rewrite done_indices_app, (proj1 (live_columns height _ l2 H2)).
    cbn [done_indices app]. rewrite Hj, Hc.
    rewrite (proj1 (live_columns height _ l3 H3)).
    repeat (f_equal; try lia). }
  assert (Hadv : advance height <$> l1 ++ ci :: l2 ++ cj :: c :: l3
                 = (fall <$> l1) ++ ci :: (fall <$> l2) ++ cj :: fall c :: (fall <$> l3)).
  { rewrite fmap_app, fmap_cons, fmap_app, !fmap_cons.
    rewrite (proj1 (proj2 (live_columns height 0 l1 H1))).
    rewrite (proj1 (proj2 (live_columns height 0 l2 H2))).
    rewrite (proj1 (proj2 (live_columns height 0 l3 H3))).
    unfold advance. rewrite Hi, Hj, Hc. reflexivity. }
  rewrite Hdone, Hadv. cbn [delete_all].
  assert (L1 : (length l1 <? length ((fall <$> l1) ++ ci :: (fall <$> l2)
                                       ++ cj :: fall c :: (fall <$> l3)))%nat = true).
  { apply Nat.ltb_lt. rewrite length_app, length_fmap. simpl. lia. }
  rewrite L1.
  replace (delete (length l1) ((fall <$> l1) ++ ci :: (fall <$> l2)
                                 ++ cj :: fall c :: (fall <$> l3)))
    with ((fall <$> l1) ++ (fall <$> l2) ++ cj :: fall c :: (fall <$> l3)).
  2: { rewrite <- (length_fmap fall l1) at 1. symmetry. apply delete_middle. }
  assert (L2 : (length l1 + S (length l2)
                <? length ((fall <$> l1) ++ (fall <$> l2)
                             ++ cj :: fall c :: (fall <$> l3)))%nat = true).
  { apply Nat.ltb_lt. rewrite !length_app, !length_fmap. simpl. lia. }
  rewrite L2.
  replace (delete (length l1 + S (length l2))%nat
             ((fall <$> l1) ++ (fall <$> l2) ++ cj :: fall c :: (fall <$> l3)))
    with ((fall <$> l1) ++ (fall <$> l2) ++ cj :: (fall <$> l3)); [reflexivity |].
  replace ((fall <$> l1) ++ (fall <$> l2) ++ cj :: fall c :: (fall <$> l3))
    with (((fall <$> l1) ++ (fall <$> l2) ++ [cj]) ++ fall c :: (fall <$> l3))
    by (rewrite <- !app_assoc; reflexivity).
  replace (length l1 + S (length l2))%nat
    with (length ((fall <$> l1) ++ (fall <$> l2) ++ [cj]))
    by (rewrite !length_app, !length_fmap; simpl; lia).
  rewrite delete_middle. rewrite <- !app_assoc. reflexivity.
Qed.

End MatrixProperties.

(** ** The library models on sample values

    Each value below is what the Python library returns on the same
    argument. *)

Example re_search_galaxy :
  re_search (hd Bos NAME_FORMATS) "IMG_20140310_153045.jpg"
  = Some ["2014"; "03"; "10"; "15"; "30"; "45"].
Proof. vm_compute. reflexivity. Qed.

Example re_search_final_newline :
  re_search (hd Bos NAME_FORMATS) ("VID_20140310_153045.mp4" +:+ String "010" "")
  = Some ["2014"; "03"; "10"; "15"; "30"; "45"].
Proof. vm_compute. reflexivity. Qed.

Example re_search_anchored :
  re_search (hd Bos NAME_FORMATS) "xIMG_20140310_153045.jpg" = None
  ∧ re_search (hd Bos NAME_FORMATS) "IMG_20140310_153045.jpgx" = None
  ∧ re_search (hd Bos NAME_FORMATS) "IMG_19140310_153045.jpg" = None.
Proof. vm_compute. auto. Qed.

Example re_search_greedy_range :
  recognized "P123456.JPG" = true ∧ recognized "P1234567.MOV" = true
  ∧ recognized "P12345678.MOV" = false ∧ recognized "P12345.JPG" = false.
Proof. vm_compute. auto. Qed.

Example py_int_samples :
  py_int "03" = Some 3 ∧ py_int " 7" = Some 7 ∧ py_int "-1" = Some (-1)
  ∧ py_int "+5" = Some 5 ∧ py_int "1 2" = None ∧ py_int "" = None ∧ py_int "1a" = None.
Proof. vm_compute. auto 10. Qed.

Example py_round_samples :
  py_round (1 # 2) = 1 ∧ py_round (3 # 2) = 2 ∧ py_round (-5 # 2) = -3
  ∧ py_round (7 # 3) = 2.
Proof. vm_compute. auto. Qed.

Example datetime_new_samples :
  datetime_new 2014 13 10 15 30 45 = None
  ∧ datetime_new 2014 2 29 0 0 0 = None
  ∧ datetime_new 2000 2 29 0 0 0 = Some (mk_datetime 2000 2 29 0 0 0)
  ∧ datetime_new 2014 4 31 0 0 0 = None
  ∧ datetime_new 2014 12 31 24 0 0 = None.
Proof. vm_compute. auto 10. Qed.

Example timedelta_str_samples :
  timedelta_str 30 = "0:00:30" ∧ timedelta_str 3661 = "1:01:01"
  ∧ timedelta_str 90000 = "1 day, 1:00:00" ∧ timedelta_str 172800 = "2 days, 0:00:00".
Proof. vm_compute. auto. Qed.

Example basename_samples :
  basename "photos/2014/IMG_1.jpg" = "IMG_1.jpg" ∧ basename "IMG_1.jpg" = "IMG_1.jpg"
  ∧ basename "photos/" = "".
Proof. vm_compute. auto. Qed.

(** ** The theorems at the sample data *)

Ltac by_decide := apply (bool_decide_unpack _); vm_compute; exact I.

Lemma C1_discrepancy_decision_witness :
  discrepancy (default_args []) (inject_Z 1394487106 + 3661) (inject_Z 1394487106) = true.
Proof.
  refine (proj1 (proj2 (proj2 (proj2 (proj2 (proj2
    (C1_discrepancy_decision (default_args []) (inject_Z 1394487106 + 3661)
       (inject_Z 1394487106))))))) _ _ _); reflexivity.
Defined.

Lemma C2_invalid_fields_raise_witness :
  let w := fresh_world [("IMG_20141310_153045.jpg", stale_file);
                        ("IMG_20140310_153045.jpg", stale_file)] in
  main sample_now sample_offset sample_fromtimestamp_str true sample_atime_after_read
    (default_args ["IMG_20141310_153045.jpg"; "IMG_20140310_153045.jpg"]) w
  = (Raise ValueError, w).
Proof.
  intros w.
  refine (proj2 (proj2 (C2_invalid_fields_raise sample_now sample_offset
    sample_fromtimestamp_str true sample_atime_after_read
    (default_args ["IMG_20141310_153045.jpg"; "IMG_20140310_153045.jpg"])
    "IMG_20141310_153045.jpg"
    ["IMG_20140310_153045.jpg"] w stale_file [] (tail NAME_FORMATS) (hd Bos NAME_FORMATS)
    "2014" "13" "10" "15" "30" "45" 2014 13 10 15 30 45 _ _ _ _ _ _ _ _ _ _ _)) eq_refl).
  - vm_compute. reflexivity.
  - reflexivity.
  - intros r' H. inversion H.
  - vm_compute. reflexivity.
  - vm_compute. reflexivity.
  - vm_compute. reflexivity.
  - vm_compute. reflexivity.
  - vm_compute. reflexivity.
  - vm_compute. reflexivity.
  - vm_compute. reflexivity.
  - unfold calendar_valid. lia.
Defined.

Lemma C3_mtime_read_from_bare_name_witness :
  let w := fresh_world [("photos/IMG_20140310_153045.jpg", stale_file)] in
  loop_body sample_now sample_offset sample_fromtimestamp_str true sample_atime_after_read
    (default_args []) "photos/IMG_20140310_153045.jpg" w
  = (Raise OSError, w).
Proof.
  intros w.
  refine (proj1 (proj1 (C3_mtime_read_from_bare_name sample_now sample_offset
    sample_fromtimestamp_str true sample_atime_after_read (default_args [])
    "photos/IMG_20140310_153045.jpg" w stale_file t_20140310 _ _ _) _)).
  all: try (vm_compute; reflexivity).
  by_decide.
Defined.

(** A file whose modification time is 10^12, in the year 33658: the
    validator rejects the time, the date of the diagnostic cannot be
    formatted, and the [ValueError] ends the run with nothing logged. *)
Lemma C4_validator_witness :
  let f := mk_file (inject_Z 1000000000000) (inject_Z 1000000000000) None in
  let a := default_args ["IMG_20140310_153045.jpg"] in
  let w := fresh_world [("IMG_20140310_153045.jpg", f)] in
  valid_timestamp sample_now sample_fromtimestamp_str (st_mtime f) "date modified" w
  = (Raise ValueError, w)
  ∧ main sample_now sample_offset sample_fromtimestamp_str true sample_atime_after_read a w
    = (Raise ValueError, w).
Proof.
  intros f a w.
  destruct (C4_validator sample_now sample_offset sample_fromtimestamp_str true
              sample_atime_after_read (inject_Z 1000000000000) "date modified" w)
    as (_ & _ & _ & _ & Hfail & _ & _ & _ & _ & _ & _ & _ & Hmod & Hmain).
  assert (Hout : ¬ in_window sample_now (inject_Z 1000000000000)) by by_decide.
  assert (Hn : sample_fromtimestamp_str (inject_Z 1000000000000) = None)
    by (vm_compute; reflexivity).
  split; [exact (proj2 (Hfail Hout) Hn) |].
  assert (Hbody : loop_body sample_now sample_offset sample_fromtimestamp_str true
                    sample_atime_after_read a "IMG_20140310_153045.jpg" w
                  = (Raise ValueError, w)).
  { rewrite (Hmod a "IMG_20140310_153045.jpg" f f t_20140310); [rewrite Hn; reflexivity |..].
    - vm_compute. reflexivity.
    - vm_compute. reflexivity.
    - by_decide.
    - vm_compute. reflexivity.
    - reflexivity.
    - exact Hout. }
  destruct (Hmain a "IMG_20140310_153045.jpg" [] eq_refl) as [H1 H2].
  - rewrite Hbody. reflexivity.
  - rewrite Hbody in H2. simpl in H2.
    destruct (main sample_now sample_offset sample_fromtimestamp_str true
                sample_atime_after_read a w) as [r w']. simpl in H1, H2. congruence.
Defined.

Lemma C5_filename_time_extractor_witness :
  filename_time sample_offset NAME_FORMATS "Screenshot from 2014-03-10 15:30:45.png"
  = Ret (Some (local_seconds sample_offset (mk_datetime 2014 3 10 15 30 45))).
Proof.
  refine (proj1 (proj2 (C5_filename_time_extractor sample_offset
    "Screenshot from 2014-03-10 15:30:45.png"))
    [hd Bos NAME_FORMATS] (hd Bos (tail NAME_FORMATS)) (tail (tail NAME_FORMATS))
    "2014" "03" "10" "15" "30" "45" 2014 3 10 15 30 45 _ _ _ _ _ _ _ _ _ _).
  - reflexivity.
  - intros r' ->%list_elem_of_singleton. vm_compute. reflexivity.
  - vm_compute. reflexivity.
  - vm_compute. reflexivity.
  - vm_compute. reflexivity.
  - vm_compute. reflexivity.
  - vm_compute. reflexivity.
  - vm_compute. reflexivity.
  - vm_compute. reflexivity.
  - unfold calendar_valid. vm_compute. repeat split; discriminate.
Defined.

(** The name says 2014-03-10 15:30:45, the metadata 2010-01-01 00:00:00:
    the times of the file are set from the name. *)
Lemma C6_filename_before_metadata_witness :
  let f := mk_file (inject_Z 1394487106) (inject_Z 1394487106) (Some "2010:01:01 00:00:00") in
  let w := fresh_world [("IMG_20140310_153045.jpg", f)] in
  loop_body sample_now sample_offset sample_fromtimestamp_str true sample_atime_after_read
    (default_args []) "IMG_20140310_153045.jpg" w
  = (Ret (), with_utime (with_print w "IMG_20140310_153045.jpg: discrepancy of 1:01:01 (3661)")
                        "IMG_20140310_153045.jpg" t_20140310 f).
Proof.
  intros f w.
  refine (proj2 (proj2 (proj2 (proj2 (proj2 (C6_filename_before_metadata sample_now
    sample_offset sample_fromtimestamp_str true sample_atime_after_read (default_args [])
    "IMG_20140310_153045.jpg" w)))
    f f t_20140310 _ _ _ _ _)) _ _).
  all: try (vm_compute; reflexivity).
  all: by_decide.
Defined.

Lemma C7_unparseable_metadata_field_witness :
  parse_time_str sample_offset "2014:13:21 11:09:34" (fresh_world [])
  = (Ret None, with_info (fresh_world []) (bad_fields_msg "2014:13:21 11:09:34")).
Proof.
  refine (proj1 (proj2 (C7_unparseable_metadata_field sample_offset sample_atime_after_read
    "2014:13:21 11:09:34" (fresh_world []))) _ _).
  - reflexivity.
  - intros [[y mo d h mi s] (_ & Hmo & _ & _ & _ & _ & Hv)].
    cbn [year month day hour minute second] in Hmo, Hv.
    vm_compute in Hmo. injection Hmo as Hmo.
    destruct Hv as (_ & Hm & _). lia.
Defined.

(** The file of the name 2014-03-10 15:30:45 was modified 3661 seconds
    later: the simulation prints the report and leaves it at that, the real
    run prints the same and sets both times. *)
Lemma C8_simulation_flag_witness :
  let a := default_args [] in
  let w := fresh_world [("IMG_20140310_153045.jpg", stale_file)] in
  loop_body sample_now sample_offset sample_fromtimestamp_str true sample_atime_after_read
    (set_no_edit true a) "IMG_20140310_153045.jpg" w
  = (Ret (), with_print w "IMG_20140310_153045.jpg: discrepancy of 1:01:01 (3661)")
  ∧ loop_body sample_now sample_offset sample_fromtimestamp_str true sample_atime_after_read
      (set_no_edit false a) "IMG_20140310_153045.jpg" w
    = (Ret (), with_utime
                 (with_print w "IMG_20140310_153045.jpg: discrepancy of 1:01:01 (3661)")
                 "IMG_20140310_153045.jpg" t_20140310 stale_file).
Proof.
  intros a w.
  pose proof (C8_simulation_flag sample_now sample_offset sample_fromtimestamp_str true
                sample_atime_after_read a "IMG_20140310_153045.jpg" w) as T.
  cbv zeta in T. destruct T as (_ & _ & _ & _ & _ & _ & _ & Hname & _).
  destruct (Hname stale_file stale_file t_20140310) as (Hsim & Hreal & _).
  - vm_compute. reflexivity.
  - vm_compute. reflexivity.
  - by_decide.
  - vm_compute. reflexivity.
  - by_decide.
  - vm_compute. reflexivity.
  - split; [exact Hsim | exact Hreal].
Defined.

Lemma C9_no_timestamp_source_witness :
  let w := fresh_world [("12345.MTS", stale_file); ("holiday.jpg", stale_file)] in
  (loop_body sample_now sample_offset sample_fromtimestamp_str true sample_atime_after_read
     (default_args []) "12345.MTS" w).1 = Continue
  ∧ (loop_body sample_now sample_offset sample_fromtimestamp_str true sample_atime_after_read
       (default_args []) "holiday.jpg" w).1 = Continue.
Proof.
  intros w. split.
  - refine (proj1 (proj2 (C9_no_timestamp_source sample_now sample_offset
      sample_fromtimestamp_str true sample_atime_after_read (default_args []) "12345.MTS" w
      stale_file _ _ _)));
      intros; vm_compute; reflexivity.
  - refine (proj1 (proj2 (C9_no_timestamp_source sample_now sample_offset
      sample_fromtimestamp_str true sample_atime_after_read (default_args []) "holiday.jpg" w
      stale_file _ _ _)));
      intros; vm_compute; reflexivity.
Defined.

Lemma C10_tz_slack_at_most_half_hour_witness :
  let a := mk_args ["IMG_20140310_153045.jpg"] false false false 60 1801 in
  let w := fresh_world [("IMG_20140310_153045.jpg", stale_file)] in
  mtimes (main sample_now sample_offset sample_fromtimestamp_str true
            sample_atime_after_read a w).2 = mtimes w
  ∧ stdout (main sample_now sample_offset sample_fromtimestamp_str true
              sample_atime_after_read a w).2 = stdout w.
Proof.
  intros a w.
  refine (proj2 (proj2 (proj2 (proj2 (C10_tz_slack_at_most_half_hour sample_now sample_offset
    sample_fromtimestamp_str true sample_atime_after_read a)) _)) w).
  vm_compute. reflexivity.
Defined.

(** ** The further properties at the sample data *)

(** Five hours apart: no correction. *)
Lemma X2_whole_hours_forgiven_witness :
  discrepancy (default_args []) (t_20140310 + inject_Z (3600 * 5)) t_20140310 = false.
Proof.
  refine (proj1 (X2_whole_hours_forgiven (default_args []) t_20140310 5 _)).
  reflexivity.
Defined.

(** Both thresholds at zero: half a second is enough. *)
Lemma X3_allowance_off_witness :
  discrepancy (mk_args [] false false false 0 0) (t_20140310 + (1 # 2)) t_20140310 = true.
Proof.
  refine (proj2 (proj1 (proj2 (X3_allowance_off (mk_args [] false false false 0 0)
    (t_20140310 + (1 # 2)) t_20140310 _)) _) _).
  - simpl. lia.
  - reflexivity.
  - by_decide.
Defined.

Lemma X4_decision_symmetric_monotone_witness :
  discrepancy (mk_args [] false false false 120 120) (t_20140310 + 30) t_20140310 = false.
Proof.
  refine (proj2 (X4_decision_symmetric_monotone (default_args [])
    (mk_args [] false false false 120 120) (t_20140310 + 30) t_20140310) _ _ _).
  - simpl. unfold OPT_DEFAULTS_max_diff. lia.
  - simpl. unfold OPT_DEFAULTS_max_tz_diff. lia.
  - vm_compute. reflexivity.
Defined.


(** With [--quiet] and [exifread] there, the run on an unrecognized name
    leaves the standard error empty. *)
Lemma X8_verbosity_flags_witness :
  let a := mk_args ["holiday.jpg"] false true false 60 60 in
  let w := fresh_world [("holiday.jpg", stale_file)] in
  script_stderr sample_now sample_offset sample_fromtimestamp_str true
    sample_atime_after_read sample_traceback a w = [].
Proof.
  intros a w.
  destruct (X8_verbosity_flags sample_now sample_offset sample_fromtimestamp_str true
              sample_atime_after_read sample_traceback a w) as (l & _ & _ & Hq & _).
  rewrite (Hq eq_refl). vm_compute. reflexivity.
Defined.

Lemma X9_exceptions_leaving_a_run_witness :
  (main sample_now sample_offset sample_fromtimestamp_str true sample_atime_after_read
     (default_args ["IMG_20140310_153045.jpg"; "missing.jpg"])
     (fresh_world [("IMG_20140310_153045.jpg", stale_file)])).1 = Ret ().
Proof.
  refine (proj2 (proj2 (X9_exceptions_leaving_a_run sample_now sample_offset
    sample_fromtimestamp_str true sample_atime_after_read
    (default_args ["IMG_20140310_153045.jpg"; "missing.jpg"])
    (fresh_world [("IMG_20140310_153045.jpg", stale_file)]))) _).
  intros p f Hp Hf. simpl in Hp.
  apply elem_of_cons in Hp as [->|Hp].
  - vm_compute in Hf. injection Hf as <-.
    split; [vm_compute; discriminate |]. split; [vm_compute; eauto |].
    split; [intros _ v dt Hv; discriminate Hv |].
    intros t [Ht|[(v & dt & Hv & _)|(g & Hg & ->)]] _.
    + vm_compute in Ht. injection Ht as <-. vm_compute. eauto.
    + discriminate Hv.
    + vm_compute in Hg. injection Hg as <-. vm_compute. eauto.
  - apply list_elem_of_singleton in Hp as ->. exfalso.
    vm_compute in Hf. discriminate Hf.
Defined.

(** Without [exifread] the unrecognized file is not opened. *)
Lemma X10_files_read_by_a_run_witness :
  let a := default_args ["holiday.jpg"] in
  let w := fresh_world [("holiday.jpg", stale_file)] in
  ∃ read,
    opened (main sample_now sample_offset sample_fromtimestamp_str false
              sample_atime_after_read a w).2
    = opened w ++ read
    ∧ read = [].
Proof.
  intros a w.
  destruct (X10_files_read_by_a_run sample_now sample_offset sample_fromtimestamp_str
              false sample_atime_after_read a w) as (read & Ho & _ & Hx & _).
  exists read. split; [exact Ho | exact (Hx eq_refl)].
Defined.

Lemma X11_filename_time_after_2000_witness :
  (MIN_DATE <= t_20140310)%Q ∧ float_truthy t_20140310 = true.
Proof.
  assert (Hoff : ∀ dt, sample_offset dt ≤ 86400) by (intros dt; unfold sample_offset; lia).
  assert (Hn : filename_time sample_offset NAME_FORMATS "IMG_20140310_153045.jpg"
               = Ret (Some t_20140310)) by (vm_compute; reflexivity).
  pose proof (proj2 (X11_filename_time_after_2000 sample_now sample_offset
    sample_fromtimestamp_str true sample_atime_after_read "IMG_20140310_153045.jpg"
    t_20140310 Hn) Hoff)
    as (Hmin & Ht & _).
  exact (conj Hmin Ht).
Defined.

(** After the correction of the sample file a second turn prints nothing
    and leaves the files as they are: the name gives the time, so the
    metadata is not read. *)
Lemma X12_second_pass_changes_nothing_witness :
  let a := default_args [] in
  let w := fresh_world [("IMG_20140310_153045.jpg", stale_file)] in
  let w1 := (loop_body sample_now sample_offset sample_fromtimestamp_str true
               sample_atime_after_read a "IMG_20140310_153045.jpg" w).2 in
  stdout (loop_body sample_now sample_offset sample_fromtimestamp_str true
            sample_atime_after_read a "IMG_20140310_153045.jpg" w1).2 = stdout w1
  ∧ fs (loop_body sample_now sample_offset sample_fromtimestamp_str true
          sample_atime_after_read a "IMG_20140310_153045.jpg" w1).2 = fs w1.
Proof.
  intros a w w1.
  destruct (X12_second_pass_changes_nothing sample_now sample_offset
              sample_fromtimestamp_str true sample_atime_after_read a
              "IMG_20140310_153045.jpg" w) as (Hout & _ & Hfs).
  - vm_compute. reflexivity.
  - simpl. unfold OPT_DEFAULTS_max_diff. lia.
  - reflexivity.
  - assert (Hr : reads_metadata sample_offset true "IMG_20140310_153045.jpg" = false)
      by (vm_compute; reflexivity).
    rewrite Hr in Hfs. split; [exact Hout | exact Hfs].
Defined.

(** A dash and a [T] where the colons and the blank belong. *)
Lemma X13_separators_not_checked_witness :
  parse_fields "2014-03-10T15-30-45" = parse_fields "2014:03:10 15:30:45".
Proof.
  refine (proj1 (X13_separators_not_checked sample_offset "2014-03-10T15-30-45"
    "2014:03:10 15:30:45" (fresh_world []) _ _)).
  - reflexivity.
  - intros k Hk.
    do 19 (destruct k as [|k];
           [first [reflexivity | exfalso; apply Hk; by_decide] |]).
    reflexivity.
Defined.

(** 1969-12-31 19:00:00, five hours west of UTC, is the epoch. *)
Lemma X14_metadata_epoch_is_no_time_witness :
  let f := mk_file (inject_Z 1394487106) (inject_Z 1394487106) (Some "1969:12:31 19:00:00") in
  let w := fresh_world [("holiday.jpg", f)] in
  loop_body sample_now sample_offset sample_fromtimestamp_str true sample_atime_after_read
    (default_args []) "holiday.jpg" w
  = (Continue,
     with_error (with_open sample_atime_after_read w "holiday.jpg")
                (unrecognized_msg "holiday.jpg")).
Proof.
  intros f w.
  refine (proj2 (X14_metadata_epoch_is_no_time sample_now sample_offset
    sample_fromtimestamp_str true sample_atime_after_read (default_args []) "holiday.jpg" w f
    None "1969:12:31 19:00:00" (mk_datetime 1969 12 31 19 0 0) (inject_Z 0)
    _ _ _ _ _ _ _ _ _)).
  - vm_compute. reflexivity.
  - vm_compute. reflexivity.
  - reflexivity.
  - reflexivity.
  - reflexivity.
  - reflexivity.
  - unfold components_valid, calendar_valid. vm_compute. repeat split; discriminate.
  - vm_compute. reflexivity.
  - reflexivity.
Defined.

(** ** The properties of matrix.py at sample data *)

Section MatrixSamples.

Import Matrix.

Lemma sample_draws_ok (a : args) (width l x : Z) :
  dna a = false → 1 ≤ l < 40 → 0 ≤ x < width → draws_ok a width (sample_draws l x).
Proof.
  intros Ha Hl Hx. split; [exact Hl |]. split; [exact Hx |].
  intros i. unfold char_ok. rewrite Ha. change (33 ≤ 97 < 127)%nat. lia.
Qed.

(** Three turns on a screen of four rows and ten columns. *)
Lemma X16_every_call_inside_the_window_witness :
  let ds := [sample_draws 2 9; sample_draws 1 0; sample_draws 5 9] in
  run sample_args 4 10 ds [] = Err IndexError
  ∨ ∃ columns' calls,
      run sample_args 4 10 ds [] = Ok (columns', calls)
      ∧ Forall (on_screen 10) columns'
      ∧ Forall (λ k, accepted 4 10 k = true
                     ∧ (call_char k = " "%char ∨ char_ok sample_args (call_char k))) calls.
Proof.
  intros ds.
  refine (X16_every_call_inside_the_window sample_args 4 10 ds [] _ _).
  - constructor.
  - repeat (apply Forall_cons; split;
            [apply sample_draws_ok; simpl; (reflexivity || lia) |]).
    apply Forall_nil. exact I.
Defined.

(** Drops of length 2 on four rows: the first column has reached row 6 and
    is finished. *)
Lemma X17_constant_length_turn_witness :
  let a := mk_args false (Some 2) in
  let columns := [mk_column 3 6 2; mk_column 1 3 2] in
  ∃ calls,
    frame a 4 10 (sample_draws 7 5) columns
    = Ok ([mk_column 1 4 2; mk_column 5 1 2], calls).
Proof.
  intros a columns.
  destruct (X17_constant_length_turn a 4 10 2 (sample_draws 7 5) columns)
    as (calls & H & _).
  - reflexivity.
  - lia.
  - lia.
  - repeat constructor; simpl; lia.
  - apply sample_draws_ok; simpl; (reflexivity || lia).
  - split; repeat constructor; simpl; lia.
  - exists calls. exact H.
Defined.

Lemma X18_constant_length_run_bounded_witness :
  let a := mk_args false (Some 2) in
  let ds := [sample_draws 7 5; sample_draws 7 0; sample_draws 7 9] in
  ∃ columns calls,
    run a 3 10 ds [] = Ok (columns, calls) ∧ Z.of_nat (length columns) ≤ 3 + 2.
Proof.
  intros a ds.
  destruct (X18_constant_length_run_bounded a 3 10 2 ds) as (columns & calls & H & Hlen & _).
  - reflexivity.
  - lia.
  - lia.
  - repeat (apply Forall_cons; split;
            [apply sample_draws_ok; simpl; (reflexivity || lia) |]).
    apply Forall_nil. exact I.
  - exists columns, calls. auto.
Defined.

(** On one row, drops of lengths 2, 1 and 5 started in three successive
    turns: in the fourth turn the first two are finished together. The
    second of them stays, and the third, which has four rows to go, is
    removed. *)
Lemma X19_second_deletion_removes_a_falling_column_witness :
  let columns := [mk_column 0 3 2; mk_column 1 2 1; mk_column 2 1 5] in
  (∃ calls, run sample_args 1 3 [sample_draws 2 0; sample_draws 1 1; sample_draws 5 2] []
            = Ok (columns, calls))
  ∧ ∃ calls, frame sample_args 1 3 (sample_draws 4 0) columns
             = Ok ([mk_column 1 2 1; mk_column 0 1 4], calls).
Proof.
  intros columns. split; [eexists; vm_compute; reflexivity |].
  refine (X19_second_deletion_removes_a_falling_column sample_args 1 3 (sample_draws 4 0)
    columns [] [] [mk_column 0 0 4] (mk_column 0 3 2) (mk_column 1 2 1) (mk_column 2 1 5)
    _ _ _ _ _ _ _ _).
  - repeat constructor; simpl; lia.
  - apply sample_draws_ok; simpl; (reflexivity || lia).
  - reflexivity.
  - reflexivity.
  - reflexivity.
  - constructor.
  - constructor.
  - repeat constructor.
Defined.

End MatrixSamples.

(** ** Where the specification and the program part *)

(** C5 as stated: every first match gives a time. The first name format
    matches [IMG_20141310_153045.jpg], and no time comes back. *)
Lemma C5_counterexample :
  ¬ (∀ (name : string) (pre post : list regex) (r : regex) (groups : list string),
       NAME_FORMATS = pre ++ r :: post →
       (∀ r', r' ∈ pre → re_search r' name = None) →
       re_search r name = Some groups →
       ∃ t, filename_time sample_offset NAME_FORMATS name = Ret (Some t)).
Proof.
  intros H.
  destruct (H "IMG_20141310_153045.jpg" [] (tail NAME_FORMATS) (hd Bos NAME_FORMATS)
              ["2014"; "13"; "10"; "15"; "30"; "45"]) as [t Ht].
  - reflexivity.
  - intros r' Hr'. inversion Hr'.
  - vm_compute. reflexivity.
  - vm_compute in Ht. discriminate Ht.
Qed.

(** C9 as stated: a file without a time whose name matches an ignore format
    leaves no diagnostic. With [exifread] installed the metadata extractor
    has logged that the tag is missing, and [--verbose] shows it. *)
Lemma C9_counterexample :
  ¬ (∀ (a : args) (path : string) (w : world) (f : file),
       fs w !! path = Some f →
       filename_time sample_offset NAME_FORMATS (basename path) = Ret None →
       (get_exif_time sample_offset sample_atime_after_read path w).1 = Ret None →
       recognized (basename path) = true →
       stderr true a
         (loop_body sample_now sample_offset sample_fromtimestamp_str true
            sample_atime_after_read a path w).2
       = stderr true a w).
Proof.
  intros H.
  specialize (H (verbose_args []) "12345.MTS" (fresh_world [("12345.MTS", stale_file)])
                stale_file).
  vm_compute in H. specialize (H eq_refl eq_refl eq_refl eq_refl). discriminate H.
Qed.
